(** * Job-Sphere: hiring workflow, persistence layer and video signaling relay

    A shallow embedding of
      - [DatabaseRepository]            (repository.py),
      - [InterviewService], [OfferService] (the parts that touch the
        candidate pipeline and the interview calendar),
      - [WorkflowService]               (workflow_service.py),
      - [VideoService]                  (video_service.py),
    followed by the properties of the specification that concern them. *)

From Stdlib Require Import ZArith.
From stdpp Require Import gmap strings list fin_maps.

Local Open Scope string_scope.
Local Open Scope list_scope.
Local Open Scope Z_scope.

(** ** Python outcomes

    A Python call either returns a value or raises.  Every handler of the
    modelled code is [except Exception], so the exception carries no data
    the control flow depends on; the message is kept for readability. *)

Inductive outcome (A : Type) : Type :=
| Return (a : A)
| Raise (msg : string).
Arguments Return {A} a.
Arguments Raise {A} msg.

Definition raised {A} (o : outcome A) : bool :=
  match o with Raise _ => true | Return _ => false end.

(** ** Time

    A naive [datetime] is the number of microseconds since
    0001-01-01T00:00:00 (ordinal day 1, a Monday); a [timedelta] is a number
    of microseconds. *)

Definition datetime := Z.

Definition us_per_minute : Z := 60 * 1000000.
Definition us_per_hour : Z := 60 * us_per_minute.
Definition us_per_day : Z := 24 * us_per_hour.

Definition timedelta_minutes (m : Z) : Z := m * us_per_minute.
Definition timedelta_hours (h : Z) : Z := h * us_per_hour.
Definition timedelta_days (d : Z) : Z := d * us_per_day.

(** [datetime.weekday()]: Monday is 0, Sunday is 6. *)
Definition weekday (t : datetime) : Z := (t / us_per_day) mod 7.

(** [t.replace(hour=h, minute=0, second=0, microsecond=0)]. *)
Definition replace_hour (t : datetime) (h : Z) : datetime :=
  (t / us_per_day) * us_per_day + timedelta_hours h.

(** [range(lo, hi)]. *)
Definition range (lo hi : Z) : list Z := seqZ lo (hi - lo).

(** ** External collaborators

    [ObjectId] is bson's constructor: [None] stands for [InvalidId].
    [truediv] is Python's [int / int] and [mul_int] is [float * int]; the
    floating-point results are kept abstract. *)

Class Bson := {
  oid : Type;
  oid_eq_dec :: EqDecision oid;
  ObjectId : string -> option oid;
}.

Class PyFloat := {
  float : Type;
  truediv : Z -> Z -> float;
  mul_int : float -> Z -> float;
}.

(** ** Documents (models.py)

    One record per dataclass, with the fields the modelled services read or
    write. *)

Module StageEntry.
Record t := mk {
  stage : string;
  timestamp : datetime;
  notes : string;
}.
#[global] Instance eq_dec : EqDecision t.
Proof. solve_decision. Defined.
End StageEntry.

Module CandidatePipeline.
Record t := mk {
  application_id : string;
  job_id : string;
  candidate_id : string;
  current_stage : string;
  stage_history : list StageEntry.t;
  next_action : string;
  next_action_date : option datetime;
  updated_at : option datetime;
}.
#[global] Instance eq_dec : EqDecision t.
Proof. solve_decision. Defined.
End CandidatePipeline.

Module Application.
Record t `{Bson} := mk {
  _id : oid;
  job_id : string;
  user_id : string;
  hr_id : string;
  status : string;
  updated_at : option datetime;
}.
#[global] Instance eq_dec `{Bson} : EqDecision t.
Proof. solve_decision. Defined.
End Application.

Module Interview.
Record t := mk {
  application_id : string;
  job_id : string;
  candidate_id : string;
  hr_id : string;
  interview_type : string;
  scheduled_datetime : datetime;
  duration_minutes : Z;
  status : string;
}.
#[global] Instance eq_dec : EqDecision t.
Proof. solve_decision. Defined.
End Interview.

Module ScheduleEvent.
Record t := mk {
  job_id : string;
  event_type : string;
  title : string;
  scheduled_datetime : datetime;
  participants : list string;
  metadata_application_id : string;
}.
#[global] Instance eq_dec : EqDecision t.
Proof. solve_decision. Defined.
End ScheduleEvent.

Module Test.
Record t := mk {
  job_id : string;
  status : string;
}.
#[global] Instance eq_dec : EqDecision t.
Proof. solve_decision. Defined.
End Test.

Module TestSubmission.
Record t := mk {
  application_id : string;
  candidate_id : string;
  status : string;
}.
#[global] Instance eq_dec : EqDecision t.
Proof. solve_decision. Defined.
End TestSubmission.

Module JobOffer.
Record t := mk {
  application_id : string;
  job_id : string;
  candidate_id : string;
  hr_id : string;
  status : string;
  expiry_date : option datetime;
}.
#[global] Instance eq_dec : EqDecision t.
Proof. solve_decision. Defined.
End JobOffer.

(** ** DatabaseRepository (repository.py)

    The generic operations, over the two things they inspect: whether
    [self.db.client] is set, and what [getattr(self.db, collection, None)]
    gives.  A collection is the list of its documents in natural order;
    operations that write return the new contents.  The identifiers the
    driver generates are not modelled, so [insert_one] returns no id, and
    [find_many] is taken without its optional [sort].

    The online arm of [insert_one] always appends.  The driver refuses a
    document that repeats a value of a unique index; the collections the
    services below insert into (candidate_pipeline, interviews,
    schedule_events, test_submissions, job_offers) have none in setup.py
    (lines 144-195), and [to_dict] (models.py, lines 35-46) drops an [_id]
    that is [None], so no insert of the services can be refused on that
    ground.  The definitions say nothing about users, hr, admin,
    applications or counters, whose indexes are unique. *)

Module DatabaseRepository.
Section Generic.
Context {A : Type} `{EqDecision A}.

Definition insert_one (client : bool) (collection_obj : option (list A))
    (collection : string) (document : A) : outcome (list A) :=
  if negb client then Raise "Database connection not available"
  else match collection_obj with
       | None => Raise ("Collection " +:+ collection +:+ " not available")
       | Some docs => Return (docs ++ [document])
       end.

Definition find_one (client : bool) (collection_obj : option (list A))
    (query : A -> bool) : outcome (option A) :=
  if negb client then Return None
  else match collection_obj with
       | None => Return None
       | Some docs => Return (List.find query docs)
       end.

Definition find_many (client : bool) (collection_obj : option (list A))
    (query : A -> bool) : outcome (list A) :=
  if negb client then Return []
  else match collection_obj with
       | None => Return []
       | Some docs => Return (List.filter query docs)
       end.

(** [collection_obj.update_one(query, {"$set": update})]: the first
    matching document is rewritten. *)
Fixpoint set_first (query : A -> bool) (update : A -> A) (docs : list A)
    : list A :=
  match docs with
  | [] => []
  | d :: rest =>
      if query d then update d :: rest
      else d :: set_first query update rest
  end.

(** [result.modified_count > 0]: a document matched and the update
    changed it. *)
Definition modified (query : A -> bool) (update : A -> A) (docs : list A)
    : bool :=
  match List.find query docs with
  | Some d => negb (bool_decide (update d = d))
  | None => false
  end.

Definition update_one (client : bool) (collection_obj : option (list A))
    (query : A -> bool) (update : A -> A) : outcome (bool * option (list A)) :=
  if negb client then Return (false, collection_obj)
  else match collection_obj with
       | None => Return (false, None)
       | Some docs =>
           Return (modified query update docs,
                   Some (set_first query update docs))
       end.
End Generic.
End DatabaseRepository.

(** ** The document store

    [client] tells whether [db.client] is set (setup.py: when the connection
    fails the client is [None] and every collection attribute is [None]).
    Collections of the database that the modelled services never touch are
    left out. *)

Record database `{Bson} := mk_database {
  client : bool;
  applications : list Application.t;
  candidate_pipeline : list CandidatePipeline.t;
  interviews : list Interview.t;
  schedule_events : list ScheduleEvent.t;
  tests : list Test.t;
  test_submissions : list TestSubmission.t;
  job_offers : list JobOffer.t;
}.

(** A named collection of the store: how to read and replace its contents. *)
Record collection `{Bson} (A : Type) := mk_collection {
  name : string;
  docs : database -> list A;
  with_docs : list A -> database -> database;
}.
Arguments name {_ A} c.
Arguments docs {_ A} c db.
Arguments with_docs {_ A} c ds db.

Section Collections.
Context `{Bson}.

Definition c_applications : collection Application.t :=
  mk_collection _ _ "applications" applications
    (fun ds db => mk_database _ (client db) ds (candidate_pipeline db)
       (interviews db) (schedule_events db) (tests db) (test_submissions db)
       (job_offers db)).

Definition c_candidate_pipeline : collection CandidatePipeline.t :=
  mk_collection _ _ "candidate_pipeline" candidate_pipeline
    (fun ds db => mk_database _ (client db) (applications db) ds
       (interviews db) (schedule_events db) (tests db) (test_submissions db)
       (job_offers db)).

Definition c_interviews : collection Interview.t :=
  mk_collection _ _ "interviews" interviews
    (fun ds db => mk_database _ (client db) (applications db)
       (candidate_pipeline db) ds (schedule_events db) (tests db)
       (test_submissions db) (job_offers db)).

Definition c_schedule_events : collection ScheduleEvent.t :=
  mk_collection _ _ "schedule_events" schedule_events
    (fun ds db => mk_database _ (client db) (applications db)
       (candidate_pipeline db) (interviews db) ds (tests db)
       (test_submissions db) (job_offers db)).

Definition c_tests : collection Test.t :=
  mk_collection _ _ "tests" tests
    (fun ds db => mk_database _ (client db) (applications db)
       (candidate_pipeline db) (interviews db) (schedule_events db) ds
       (test_submissions db) (job_offers db)).

Definition c_test_submissions : collection TestSubmission.t :=
  mk_collection _ _ "test_submissions" test_submissions
    (fun ds db => mk_database _ (client db) (applications db)
       (candidate_pipeline db) (interviews db) (schedule_events db)
       (tests db) ds (job_offers db)).

Definition c_job_offers : collection JobOffer.t :=
  mk_collection _ _ "job_offers" job_offers
    (fun ds db => mk_database _ (client db) (applications db)
       (candidate_pipeline db) (interviews db) (schedule_events db)
       (tests db) (test_submissions db) ds).

(** [getattr(self.db, collection, None)] for a collection of the store. *)
Definition getattr {A} (c : collection A) (db : database) : option (list A) :=
  if client db then Some (docs c db) else None.

(** *** Service code: state and exceptions

    A service method runs against the store and either returns or
    raises; what it wrote before raising stays written. *)

Definition M (A : Type) : Type := database -> outcome A * database.

Definition ret {A} (a : A) : M A := fun db => (Return a, db).
Definition raise {A} (msg : string) : M A := fun db => (Raise msg, db).
Definition bind {A B} (m : M A) (k : A -> M B) : M B :=
  fun db =>
    match m db with
    | (Return a, db') => k a db'
    | (Raise msg, db') => (Raise msg, db')
    end.
(** [try: m  except Exception as e: handler]. *)
Definition try_except {A} (m : M A) (handler : string -> M A) : M A :=
  fun db =>
    match m db with
    | (Return a, db') => (Return a, db')
    | (Raise msg, db') => handler msg db'
    end.

(** [ObjectId(s)] inside service code. *)
Definition new_ObjectId (s : string) : M oid :=
  match ObjectId s with
  | Some o => ret o
  | None => raise "InvalidId"
  end.

Definition db_insert_one {A} `{EqDecision A} (c : collection A) (document : A)
    : M unit :=
  fun db =>
    match DatabaseRepository.insert_one (client db) (getattr c db) (name c)
            document with
    | Return ds => (Return tt, with_docs c ds db)
    | Raise msg => (Raise msg, db)
    end.

Definition db_find_one {A} `{EqDecision A} (c : collection A)
    (query : A -> bool) : M (option A) :=
  fun db => (DatabaseRepository.find_one (client db) (getattr c db) query, db).

Definition db_find_many {A} `{EqDecision A} (c : collection A)
    (query : A -> bool) : M (list A) :=
  fun db => (DatabaseRepository.find_many (client db) (getattr c db) query, db).

Definition db_update_one {A} `{EqDecision A} (c : collection A)
    (query : A -> bool) (update : A -> A) : M bool :=
  fun db =>
    match DatabaseRepository.update_one (client db) (getattr c db) query
            update with
    | Return (b, Some ds) => (Return b, with_docs c ds db)
    | Return (b, None) => (Return b, db)
    | Raise msg => (Raise msg, db)
    end.
End Collections.

Notation "'let*' x ':=' m 'in' k" := (bind m (fun x => k))
  (at level 10, x name, m at level 100, k at level 200, only parsing).
Notation "'perform' m 'then' k" := (bind m (fun _ => k))
  (at level 10, m at level 100, k at level 200, only parsing).

(** ** InterviewService (interview_service.py) *)

Module InterviewService.
Section Service.
Context `{Bson}.

(** [_update_candidate_pipeline(application_id, stage)], lines 480-528. *)
Definition _update_candidate_pipeline (now : datetime)
    (application_id stage : string) : M unit :=
  try_except
    (let* pipeline_data :=
       db_find_one c_candidate_pipeline
         (fun p => bool_decide (CandidatePipeline.application_id p = application_id)) in
     match pipeline_data with
     | Some p =>
         let stage_history :=
           CandidatePipeline.stage_history p ++
           [StageEntry.mk stage now ("Automated update: " +:+ stage)] in
         perform db_update_one c_candidate_pipeline
               (fun p => bool_decide (CandidatePipeline.application_id p = application_id))
               (fun d => CandidatePipeline.mk
                  (CandidatePipeline.application_id d)
                  (CandidatePipeline.job_id d)
                  (CandidatePipeline.candidate_id d)
                  stage
                  stage_history
                  (CandidatePipeline.next_action d)
                  (CandidatePipeline.next_action_date d)
                  (Some now))
         then ret tt
     | None =>
         let stage_history :=
           [StageEntry.mk stage now ("Initial stage: " +:+ stage)] in
         let* i := new_ObjectId application_id in
         let* application_data :=
           db_find_one c_applications
             (fun a => bool_decide (Application._id a = i)) in
         let pipeline :=
           match application_data with
           | Some a =>
               CandidatePipeline.mk application_id (Application.job_id a)
                 (Application.user_id a) stage stage_history EmptyString None None
           | None =>
               CandidatePipeline.mk application_id EmptyString EmptyString stage stage_history
                 EmptyString None None
           end in
         db_insert_one c_candidate_pipeline pipeline
     end)
    (fun _ => ret tt).

(** [schedule_interview], lines 19-71.  The handler logs and re-raises. *)
Definition schedule_interview (now : datetime)
    (application_id job_id candidate_id hr_id interview_type : string)
    (scheduled_datetime : datetime) (duration_minutes : Z) : M unit :=
  try_except
    (let interview :=
       Interview.mk application_id job_id candidate_id hr_id interview_type
         scheduled_datetime duration_minutes "Scheduled" in
     perform db_insert_one c_interviews interview then
     let* i := new_ObjectId application_id in
     perform db_update_one c_applications
           (fun a => bool_decide (Application._id a = i))
           (fun a => Application.mk _ (Application._id a)
              (Application.job_id a) (Application.user_id a)
              (Application.hr_id a) "Interview Scheduled" (Some now)) then
     perform _update_candidate_pipeline now application_id "Interview Scheduled" then
     ret tt)
    (fun msg => raise msg).

(** The filter of [check_interview_conflicts]'s query: the HR's
    interviews with status Scheduled or In Progress whose time is
    [$lt end_time] and [$gte start_time - duration]. *)
Definition conflict_query (hr_id : string) (scheduled_datetime : datetime)
    (duration_minutes : Z) (i : Interview.t) : bool :=
  let start_time := scheduled_datetime in
  let end_time := scheduled_datetime + timedelta_minutes duration_minutes in
  bool_decide (Interview.hr_id i = hr_id)
  && bool_decide (Interview.status i ∈ ["Scheduled"; "In Progress"])
  && (Interview.scheduled_datetime i <? end_time)
  && (start_time - timedelta_minutes duration_minutes
        <=? Interview.scheduled_datetime i).

(** [check_interview_conflicts], lines 399-433. *)
Definition check_interview_conflicts (hr_id : string)
    (scheduled_datetime : datetime) (duration_minutes : Z) : M bool :=
  try_except
    (let* conflicting_interviews :=
       db_find_many c_interviews
         (conflict_query hr_id scheduled_datetime duration_minutes) in
     ret (bool_decide (0 < length conflicting_interviews)%nat))
    (fun _ => ret false).
End Service.
End InterviewService.

(** ** OfferService (offer_service.py) *)

Module OfferService.
Section Service.
Context `{Bson}.

(** [_update_candidate_pipeline(application_id, stage)], lines 513-524. *)
Definition _update_candidate_pipeline (now : datetime)
    (application_id stage : string) : M unit :=
  try_except
    (perform db_update_one c_candidate_pipeline
           (fun p => bool_decide (CandidatePipeline.application_id p = application_id))
           (fun d => CandidatePipeline.mk
              (CandidatePipeline.application_id d)
              (CandidatePipeline.job_id d)
              (CandidatePipeline.candidate_id d)
              stage
              (CandidatePipeline.stage_history d)
              (CandidatePipeline.next_action d)
              (CandidatePipeline.next_action_date d)
              (Some now))
     then ret tt)
    (fun _ => ret tt).
End Service.
End OfferService.

(** ** WorkflowService (workflow_service.py) *)

Inductive WorkflowStage : Type :=
| APPLIED | SCREENING | TEST | INTERVIEW | OFFER | HIRED | REJECTED.

#[global] Instance WorkflowStage_eq_dec : EqDecision WorkflowStage.
Proof. solve_decision. Defined.

Module WorkflowService.

(** [stage.value]. *)
Definition value (s : WorkflowStage) : string :=
  match s with
  | APPLIED => "Applied"
  | SCREENING => "Screening"
  | TEST => "Test"
  | INTERVIEW => "Interview"
  | OFFER => "Offer"
  | HIRED => "Hired"
  | REJECTED => "Rejected"
  end.

Definition members : list WorkflowStage :=
  [APPLIED; SCREENING; TEST; INTERVIEW; OFFER; HIRED; REJECTED].

(** [WorkflowStage(s)]: lookup by value; [None] stands for [ValueError]. *)
Definition by_value (s : string) : option WorkflowStage :=
  List.find (fun m => bool_decide (value m = s)) members.

(** [self.stage_transitions], lines 30-38. *)
Definition stage_transitions (s : WorkflowStage) : list WorkflowStage :=
  match s with
  | APPLIED => [SCREENING; REJECTED]
  | SCREENING => [TEST; INTERVIEW; REJECTED]
  | TEST => [INTERVIEW; REJECTED]
  | INTERVIEW => [OFFER; REJECTED]
  | OFFER => [HIRED; REJECTED]
  | HIRED => []
  | REJECTED => []
  end.

(** [_get_next_action], lines 336-348. *)
Definition _get_next_action (now : datetime) (stage : WorkflowStage)
    : string * option datetime :=
  match stage with
  | APPLIED => ("Initial screening", Some (now + timedelta_days 1))
  | SCREENING => ("Schedule assessment test", Some (now + timedelta_days 2))
  | TEST => ("Schedule interview", Some (now + timedelta_days 3))
  | INTERVIEW => ("Prepare job offer", Some (now + timedelta_days 2))
  | OFFER => ("Await candidate response", Some (now + timedelta_days 7))
  | HIRED => ("Onboarding preparation", Some (now + timedelta_days 1))
  | REJECTED => ("Send rejection notification", Some (now + timedelta_hours 24))
  end.

Section Service.
Context `{Bson}.

(** [WorkflowStage(s)] inside service code. *)
Definition new_WorkflowStage (s : string) : M WorkflowStage :=
  match by_value s with
  | Some m => ret m
  | None => raise "ValueError"
  end.

(** [_schedule_screening], lines 175-196. *)
Definition _schedule_screening (now : datetime) (application_id : string)
    : M unit :=
  try_except
    (let* i := new_ObjectId application_id in
     let* application_data :=
       db_find_one c_applications
         (fun a => bool_decide (Application._id a = i)) in
     match application_data with
     | None => ret tt
     | Some a =>
         let event :=
           ScheduleEvent.mk (Application.job_id a) "Screening"
             "Initial Application Screening" (now + timedelta_hours 24)
             [Application.hr_id a] application_id in
         db_insert_one c_schedule_events event
     end)
    (fun _ => ret tt).

(** [test_service.start_test_submission], test_service.py lines 152-179:
    inserts the submission; the handler logs and re-raises. *)
Definition start_test_submission (application_id candidate_id : string)
    : M unit :=
  try_except
    (db_insert_one c_test_submissions
       (TestSubmission.mk application_id candidate_id "In Progress"))
    (fun msg => raise msg).

(** [_schedule_test], lines 198-237.  The invitation e-mail sent last is
    the notification collaborator's business and does not touch the
    store. *)
Definition _schedule_test (now : datetime) (application_id : string)
    : M unit :=
  try_except
    (let* i := new_ObjectId application_id in
     let* application_data :=
       db_find_one c_applications
         (fun a => bool_decide (Application._id a = i)) in
     match application_data with
     | None => ret tt
     | Some a =>
         let* test_data :=
           db_find_one c_tests
             (fun t => bool_decide (Test.job_id t = Application.job_id a)
                       && bool_decide (Test.status t = "Active")) in
         match test_data with
         | Some _ =>
             perform start_test_submission application_id (Application.user_id a) then
             let event :=
               ScheduleEvent.mk (Application.job_id a) "Test"
                 "Assessment Test" (now + timedelta_days 2)
                 [Application.user_id a; Application.hr_id a]
                 application_id in
             db_insert_one c_schedule_events event
         | None => ret tt
         end
     end)
    (fun _ => ret tt).

(** The inner loop of [_find_next_available_slot], lines 321-328: the
    first hour of the day whose slot has no conflict. *)
Fixpoint scan_hours (hr_id : string) (candidate_date : datetime)
    (hours : list Z) : M (option datetime) :=
  match hours with
  | [] => ret None
  | hour :: rest =>
      let slot_time := replace_hour candidate_date hour in
      let* has_conflict :=
        InterviewService.check_interview_conflicts hr_id slot_time 60 in
      if negb has_conflict then ret (Some slot_time)
      else scan_hours hr_id candidate_date rest
  end.

(** The outer loop, lines 313-330. *)
Fixpoint scan_days (now : datetime) (hr_id : string) (day_offsets : list Z)
    : M (option datetime) :=
  match day_offsets with
  | [] => ret None
  | day_offset :: rest =>
      let candidate_date := now + timedelta_days day_offset in
      if bool_decide (weekday candidate_date >= 5)
      then scan_days now hr_id rest
      else
        let* found := scan_hours hr_id candidate_date (range 9 17) in
        match found with
        | Some slot_time => ret (Some slot_time)
        | None => scan_days now hr_id rest
        end
  end.

(** [_find_next_available_slot], lines 307-334. *)
Definition _find_next_available_slot (now : datetime) (hr_id : string)
    (preferred_days : Z) : M (option datetime) :=
  try_except
    (scan_days now hr_id (range 0 preferred_days))
    (fun _ => ret None).

(** [_schedule_interview], lines 239-267.  After the booking the code
    looks the interview up again only to e-mail the invitation. *)
Definition _schedule_interview (now : datetime) (application_id : string)
    : M unit :=
  try_except
    (let* i := new_ObjectId application_id in
     let* application_data :=
       db_find_one c_applications
         (fun a => bool_decide (Application._id a = i)) in
     match application_data with
     | None => ret tt
     | Some a =>
         let hr_id := Application.hr_id a in
         let* interview_time := _find_next_available_slot now hr_id 3 in
         match interview_time with
         | Some t =>
             InterviewService.schedule_interview now application_id
               (Application.job_id a) (Application.user_id a) hr_id
               "Technical" t 60
         | None => ret tt
         end
     end)
    (fun _ => ret tt).

(** [_prepare_offer], lines 269-305. *)
Definition _prepare_offer (now : datetime) (application_id : string)
    : M unit :=
  try_except
    (let* i := new_ObjectId application_id in
     let* application_data :=
       db_find_one c_applications
         (fun a => bool_decide (Application._id a = i)) in
     match application_data with
     | None => ret tt
     | Some a =>
         let offer :=
           JobOffer.mk application_id (Application.job_id a)
             (Application.user_id a) (Application.hr_id a) "Draft"
             (Some (now + timedelta_days 7)) in
         perform db_insert_one c_job_offers offer then
         let event :=
           ScheduleEvent.mk (Application.job_id a) "Offer"
             "Prepare Job Offer" (now + timedelta_hours 48)
             [Application.hr_id a] application_id in
         db_insert_one c_schedule_events event
     end)
    (fun _ => ret tt).

(** [_schedule_next_steps], lines 160-173. *)
Definition _schedule_next_steps (now : datetime) (application_id : string)
    (stage : WorkflowStage) : M unit :=
  try_except
    (match stage with
     | SCREENING => _schedule_screening now application_id
     | TEST => _schedule_test now application_id
     | INTERVIEW => _schedule_interview now application_id
     | OFFER => _prepare_offer now application_id
     | _ => ret tt
     end)
    (fun _ => ret tt).

(** [_send_stage_notification], lines 377-417: reads the application and
    sends an e-mail; nothing is written to the store and nothing escapes
    its handler. *)
Definition _send_stage_notification (application_id : string)
    (stage : WorkflowStage) : M unit :=
  try_except
    (let* i := new_ObjectId application_id in
     let* application_data :=
       db_find_one c_applications
         (fun a => bool_decide (Application._id a = i)) in
     ret tt)
    (fun _ => ret tt).

(** [initiate_hiring_workflow], lines 40-85.  The confirmation e-mail sent
    last is the notification collaborator's business. *)
Definition initiate_hiring_workflow (now : datetime) (application_id : string)
    : M bool :=
  try_except
    (let* i := new_ObjectId application_id in
     let* application_data :=
       db_find_one c_applications
         (fun a => bool_decide (Application._id a = i)) in
     match application_data with
     | None => ret false
     | Some a =>
         let pipeline :=
           CandidatePipeline.mk application_id (Application.job_id a)
             (Application.user_id a) (value APPLIED)
             [StageEntry.mk (value APPLIED) now "Application received"]
             "Initial screening" (Some (now + timedelta_days 1)) None in
         perform db_insert_one c_candidate_pipeline pipeline then
         perform _schedule_screening now application_id then
         ret true
     end)
    (fun _ => ret false).

(** [notes or f"Advanced from {current} to {target}"]. *)
Definition notes_or (notes : string) (current_stage target_stage : WorkflowStage)
    : string :=
  if bool_decide (notes = EmptyString)
  then "Advanced from " +:+ value current_stage +:+ " to " +:+ value target_stage
  else notes.

(** [advance_candidate_stage], lines 87-158.  One reading of the clock
    serves the whole call. *)
Definition advance_candidate_stage (now : datetime)
    (application_id new_stage notes : string) (auto_schedule : bool)
    : M bool :=
  try_except
    (let* pipeline_data :=
       db_find_one c_candidate_pipeline
         (fun p => bool_decide (CandidatePipeline.application_id p = application_id)) in
     match pipeline_data with
     | None => ret false
     | Some p =>
         let* current_stage :=
           new_WorkflowStage (CandidatePipeline.current_stage p) in
         let* target_stage := new_WorkflowStage new_stage in
         if negb (bool_decide (target_stage ∈ stage_transitions current_stage))
         then ret false
         else
           let stage_history :=
             CandidatePipeline.stage_history p ++
             [StageEntry.mk (value target_stage) now
                (notes_or notes current_stage target_stage)] in
           let next := _get_next_action now target_stage in
           perform db_update_one c_candidate_pipeline
                 (fun p => bool_decide (CandidatePipeline.application_id p = application_id))
                 (fun d => CandidatePipeline.mk
                    (CandidatePipeline.application_id d)
                    (CandidatePipeline.job_id d)
                    (CandidatePipeline.candidate_id d)
                    (value target_stage)
                    stage_history
                    (fst next)
                    (snd next)
                    (Some now)) then
           let* i := new_ObjectId application_id in
           perform db_update_one c_applications
                 (fun a => bool_decide (Application._id a = i))
                 (fun a => Application.mk _ (Application._id a)
                    (Application.job_id a) (Application.user_id a)
                    (Application.hr_id a) (value target_stage) (Some now)) then
           perform (if auto_schedule
                then _schedule_next_steps now application_id target_stage
                else ret tt) then
           perform _send_stage_notification application_id target_stage then
           ret true
     end)
    (fun _ => ret false).
End Service.

(** *** Pipeline overview *)

(** What [pipeline.get("current_stage", "Unknown")] meets in a document:
    no such key, a string, or a value that cannot be a dictionary key (a
    list or a sub-document). *)
Inductive stage_field : Type :=
| Missing
| Str (s : string)
| Unhashable.

(** What iterating the result of [find_many] yields. *)
Inductive item : Type :=
| Dict (current_stage : stage_field)
| NotDict.

(** The result of [find_many] under iteration: a list when the store is
    offline, otherwise a driver cursor, whose iteration can raise. *)
Inductive cursor : Type :=
| Exhausted
| Next (x : item) (rest : cursor)
| Failure (msg : string).

Fixpoint cursor_of_list (l : list item) : cursor :=
  match l with
  | [] => Exhausted
  | x :: rest => Next x (cursor_of_list rest)
  end.

Record overview `{PyFloat} := mk_overview {
  total_candidates : Z;
  by_stage : gmap string Z;
  conversion_rates : gmap string float;
}.

Definition empty_overview `{PyFloat} : overview :=
  mk_overview _ 0 ∅ ∅.

(** The loop of lines 502-511, from the counts so far. *)
Fixpoint count_stages (pipelines : cursor) (stage_counts : gmap string Z)
    (total_candidates : Z) : outcome (gmap string Z * Z) :=
  match pipelines with
  | Exhausted => Return (stage_counts, total_candidates)
  | Failure msg => Raise msg
  | Next pipeline rest =>
      match pipeline with
      | NotDict => count_stages rest stage_counts total_candidates
      | Dict Unhashable => Raise "TypeError: unhashable type"
      | Dict f =>
          let stage := match f with Str s => s | _ => "Unknown" end in
          count_stages rest
            (<[stage := default 0 (stage_counts !! stage) + 1]> stage_counts)
            (total_candidates + 1)
      end
  end.

(** The loop of lines 516-518. *)
Definition rates `{PyFloat} (stage_counts : gmap string Z)
    (total_candidates : Z) : gmap string float :=
  map_fold
    (fun stage count acc =>
       <[stage := mul_int (truediv count total_candidates) 100]> acc)
    ∅ stage_counts.

(** [get_pipeline_overview], lines 479-529, as a function of what
    [self.db.find_many] hands back. *)
Definition get_pipeline_overview `{PyFloat} (pipelines : cursor) : overview :=
  match count_stages pipelines ∅ 0 with
  | Return (stage_counts, total) =>
      mk_overview _ total stage_counts
        (if bool_decide (total > 0) then rates stage_counts total else ∅)
  | Raise _ => empty_overview
  end.

(** The same, reading the store.  [job_id] filters when it is truthy. *)
Definition get_pipeline_overview_db `{Bson} `{PyFloat}
    (job_id : option string) : M overview :=
  let query :=
    match job_id with
    | Some j =>
        if bool_decide (j = EmptyString) then fun _ => true
        else fun p => bool_decide (CandidatePipeline.job_id p = j)
    | None => fun _ => true
    end in
  let* pipelines := db_find_many c_candidate_pipeline query in
  ret (get_pipeline_overview
         (cursor_of_list
            (List.map (fun p => Dict (Str (CandidatePipeline.current_stage p)))
               pipelines))).
End WorkflowService.

(** ** VideoService (video_service.py)

    The relay state is the six dictionaries of [__init__], keyed by
    application id.  A socket is known by its identity; what the outside
    world contributes is which sockets have gone away (a [send] on them
    raises) and the frames that were sent successfully, oldest first.
    Each handler segment below runs as one step. *)

Module VideoService.

Definition socket := nat.
Definition payload := string.

(** The JSON frames the relay sends. *)
Inductive frame : Type :=
| offer_frame (offer : payload)
| answer_frame (answer : payload)
| ice_frame (ice : payload)
| hr_online
| user_online
| ping_frame.

#[global] Instance frame_eq_dec : EqDecision frame.
Proof. solve_decision. Defined.

(** What [ws.receive()] gives a handler: nothing (the socket closed), or a
    text frame, which [json.loads] and the key lookups either reject
    ([Invalid]: not JSON, no "type", or the payload key of its type is
    missing) or read as one of the message types. *)
Inductive message : Type :=
| Closed
| Invalid
| Offer (offer : payload)
| Answer (answer : payload)
| Ice (ice : payload)
| Ping
| Other.

Record state := mk_state {
  hr_sockets : gmap string socket;
  user_sockets : gmap string socket;
  pending_offers : gmap string payload;
  pending_answers : gmap string payload;
  pending_ice : gmap string (list payload);
  pending_ice_hr : gmap string (list payload);
  gone : gset socket;
  sent : list (socket * frame);
}.

(** [VideoService()]: all dictionaries empty. *)
Definition init : state := mk_state ∅ ∅ ∅ ∅ ∅ ∅ ∅ [].

Definition set_hr_sockets (f : gmap string socket -> gmap string socket)
    (st : state) : state :=
  mk_state (f (hr_sockets st)) (user_sockets st) (pending_offers st)
    (pending_answers st) (pending_ice st) (pending_ice_hr st) (gone st)
    (sent st).

Definition set_user_sockets (f : gmap string socket -> gmap string socket)
    (st : state) : state :=
  mk_state (hr_sockets st) (f (user_sockets st)) (pending_offers st)
    (pending_answers st) (pending_ice st) (pending_ice_hr st) (gone st)
    (sent st).

Definition set_pending_offers (f : gmap string payload -> gmap string payload)
    (st : state) : state :=
  mk_state (hr_sockets st) (user_sockets st) (f (pending_offers st))
    (pending_answers st) (pending_ice st) (pending_ice_hr st) (gone st)
    (sent st).

Definition set_pending_answers (f : gmap string payload -> gmap string payload)
    (st : state) : state :=
  mk_state (hr_sockets st) (user_sockets st) (pending_offers st)
    (f (pending_answers st)) (pending_ice st) (pending_ice_hr st) (gone st)
    (sent st).

Definition set_pending_ice
    (f : gmap string (list payload) -> gmap string (list payload))
    (st : state) : state :=
  mk_state (hr_sockets st) (user_sockets st) (pending_offers st)
    (pending_answers st) (f (pending_ice st)) (pending_ice_hr st) (gone st)
    (sent st).

Definition set_pending_ice_hr
    (f : gmap string (list payload) -> gmap string (list payload))
    (st : state) : state :=
  mk_state (hr_sockets st) (user_sockets st) (pending_offers st)
    (pending_answers st) (pending_ice st) (f (pending_ice_hr st)) (gone st)
    (sent st).

(** [ws.send(json.dumps(f))]: [false] when it raises. *)
Definition send (ws : socket) (f : frame) (st : state) : bool * state :=
  if bool_decide (ws ∈ gone st) then (false, st)
  else (true,
        mk_state (hr_sockets st) (user_sockets st) (pending_offers st)
          (pending_answers st) (pending_ice st) (pending_ice_hr st) (gone st)
          (sent st ++ [(ws, f)])).

(** [try: ws.send(...)  except Exception: print(...)]. *)
Definition try_send (ws : socket) (f : frame) (st : state) : state :=
  snd (send ws f st).

(** [for c in buffered: try: ws.send(ice c) except ...]. *)
Fixpoint send_buffered_ice (ws : socket) (buffered : list payload) (st : state)
    : state :=
  match buffered with
  | [] => st
  | c :: rest => send_buffered_ice ws rest (try_send ws (ice_frame c) st)
  end.

(** [d.setdefault(app_id, []).append(c)]. *)
Definition setdefault_append (app_id : string) (c : payload)
    (d : gmap string (list payload)) : gmap string (list payload) :=
  <[app_id := default [] (d !! app_id) ++ [c]]> d.

(** [handle_hr_connection], lines 53-76: what happens on connection,
    before the receive loop. *)
Definition hr_connect (ws : socket) (app_id : string) (st : state) : state :=
  let st := set_hr_sockets (insert app_id ws) st in
  let st :=
    match user_sockets st !! app_id with
    | Some user => try_send user hr_online st
    | None => st
    end in
  match pending_ice_hr st !! app_id with
  | Some buffered => send_buffered_ice ws buffered st
  | None => st
  end.

(** The [finally] of [handle_hr_connection], line 120. *)
Definition hr_cleanup (app_id : string) (st : state) : state :=
  set_hr_sockets (delete app_id) st.

(** One turn of the receive loop of [handle_hr_connection], lines 79-121:
    the state after it, and whether the loop goes on ([false]: it was left
    by [break] or by an exception, and the [finally] has run). *)
Definition hr_receive (app_id : string) (msg : message) (st : state)
    : bool * state :=
  match msg with
  | Closed => (false, hr_cleanup app_id st)
  | Invalid => (false, hr_cleanup app_id st)
  | Offer offer =>
      match user_sockets st !! app_id with
      | Some user =>
          match send user (offer_frame offer) st with
          | (true, st') => (true, st')
          | (false, st') => (false, hr_cleanup app_id st')
          end
      | None => (true, set_pending_offers (insert app_id offer) st)
      end
  | Ice ice =>
      let st := set_pending_ice (setdefault_append app_id ice) st in
      match user_sockets st !! app_id with
      | Some user => (true, try_send user (ice_frame ice) st)
      | None => (true, st)
      end
  | Ping => (true, st)
  | Answer _ => (true, st)
  | Other => (true, st)
  end.

(** [handle_user_connection], lines 125-152. *)
Definition user_connect (ws : socket) (app_id : string) (st : state) : state :=
  let st := set_user_sockets (insert app_id ws) st in
  let st :=
    match pending_offers st !! app_id with
    | Some offer =>
        set_pending_offers (delete app_id) (try_send ws (offer_frame offer) st)
    | None => st
    end in
  let st :=
    match pending_ice st !! app_id with
    | Some buffered => send_buffered_ice ws buffered st
    | None => st
    end in
  match hr_sockets st !! app_id with
  | Some hr => try_send hr user_online st
  | None => st
  end.

(** The [finally] of [handle_user_connection], line 195. *)
Definition user_cleanup (app_id : string) (st : state) : state :=
  set_user_sockets (delete app_id) st.

(** One turn of the receive loop of [handle_user_connection], lines
    155-196. *)
Definition user_receive (app_id : string) (msg : message) (st : state)
    : bool * state :=
  match msg with
  | Closed => (false, user_cleanup app_id st)
  | Invalid => (false, user_cleanup app_id st)
  | Answer answer =>
      match hr_sockets st !! app_id with
      | Some hr =>
          match send hr (answer_frame answer) st with
          | (true, st') => (true, st')
          | (false, st') => (false, user_cleanup app_id st')
          end
      | None => (true, set_pending_answers (insert app_id answer) st)
      end
  | Ice ice =>
      let st := set_pending_ice_hr (setdefault_append app_id ice) st in
      match hr_sockets st !! app_id with
      | Some hr => (true, try_send hr (ice_frame ice) st)
      | None => (true, st)
      end
  | Ping => (true, st)
  | Offer _ => (true, st)
  | Other => (true, st)
  end.

(** What can happen to the relay: a socket connects on one of the two
    routes, a handler receives, the keepalive thread of a socket sends its
    ping (lines 42-49), or a socket goes away. *)
Inductive event : Type :=
| HrConnects (ws : socket) (app_id : string)
| HrReceives (app_id : string) (msg : message)
| UserConnects (ws : socket) (app_id : string)
| UserReceives (app_id : string) (msg : message)
| Keepalive (ws : socket)
| GoesAway (ws : socket).

Definition step (st : state) (e : event) : state :=
  match e with
  | HrConnects ws app_id => hr_connect ws app_id st
  | HrReceives app_id msg => snd (hr_receive app_id msg st)
  | UserConnects ws app_id => user_connect ws app_id st
  | UserReceives app_id msg => snd (user_receive app_id msg st)
  | Keepalive ws => try_send ws ping_frame st
  | GoesAway ws =>
      mk_state (hr_sockets st) (user_sockets st) (pending_offers st)
        (pending_answers st) (pending_ice st) (pending_ice_hr st)
        ({[ws]} ∪ gone st) (sent st)
  end.

Definition run (st : state) (trace : list event) : state :=
  foldl step st trace.

(** The frames a socket has been sent, oldest first. *)
Definition received_by (ws : socket) (st : state) : list frame :=
  (List.filter (fun x => bool_decide (fst x = ws)) (sent st)).*2.

(** The ICE candidates the relay received from the HR side (resp. the
    candidate side) for an application along a trace, oldest first. *)
Definition ice_from_hr (app_id : string) (trace : list event) : list payload :=
  omap (fun e => match e with
                 | HrReceives a (Ice c) =>
                     if bool_decide (a = app_id) then Some c else None
                 | _ => None
                 end) trace.

Definition ice_from_user (app_id : string) (trace : list event) : list payload :=
  omap (fun e => match e with
                 | UserReceives a (Ice c) =>
                     if bool_decide (a = app_id) then Some c else None
                 | _ => None
                 end) trace.

(** [handle_hr_connection], lines 51-121, run on its own: the receive loop
    takes the messages of the socket one after the other and stops at the
    first turn that leaves it; [true] when the handler is still waiting in
    [ws.receive()] after the last of them. *)
Fixpoint hr_loop (app_id : string) (msgs : list message) (st : state)
    : bool * state :=
  match msgs with
  | [] => (true, st)
  | msg :: rest =>
      match hr_receive app_id msg st with
      | (true, st') => hr_loop app_id rest st'
      | (false, st') => (false, st')
      end
  end.

Definition handle_hr_connection (ws : socket) (app_id : string)
    (msgs : list message) (st : state) : bool * state :=
  hr_loop app_id msgs (hr_connect ws app_id st).

(** [handle_user_connection], lines 123-196, in the same way. *)
Fixpoint user_loop (app_id : string) (msgs : list message) (st : state)
    : bool * state :=
  match msgs with
  | [] => (true, st)
  | msg :: rest =>
      match user_receive app_id msg st with
      | (true, st') => user_loop app_id rest st'
      | (false, st') => (false, st')
      end
  end.

Definition handle_user_connection (ws : socket) (app_id : string)
    (msgs : list message) (st : state) : bool * state :=
  user_loop app_id msgs (user_connect ws app_id st).

End VideoService.

(** ** Vocabulary of the specification *)

(** The seven stage values of the data model. *)
Definition stage_values : list string :=
  ["Applied"; "Screening"; "Test"; "Interview"; "Offer"; "Hired"; "Rejected"].

(** The allowed-transition table of the specification, as pairs of stage
    values. *)
Definition allowed_edges : list (string * string) :=
  [("Applied", "Screening"); ("Applied", "Rejected");
   ("Screening", "Test"); ("Screening", "Interview"); ("Screening", "Rejected");
   ("Test", "Interview"); ("Test", "Rejected");
   ("Interview", "Offer"); ("Interview", "Rejected");
   ("Offer", "Hired"); ("Offer", "Rejected")].

(** The pipeline record of an application, as every service looks it up:
    the first document of the collection with that [application_id]. *)
Definition find_pipeline `{Bson} (application_id : string) (db : database)
    : option CandidatePipeline.t :=
  if client db
  then List.find
         (fun p => bool_decide (CandidatePipeline.application_id p = application_id))
         (candidate_pipeline db)
  else None.

(** Every pipeline of the store is at one of the seven stages. *)
Definition stages_valid `{Bson} (db : database) : Prop :=
  Forall (fun p => CandidatePipeline.current_stage p ∈ stage_values)
    (candidate_pipeline db).

(** The slot rule in the words of the specification: an interview of the
    HR with status Scheduled or In Progress whose time lies in the closed
    interval from [slot_start - duration] to [slot_start + duration]. *)
Definition spec_conflict (hr_id : string) (slot_start : datetime)
    (duration_minutes : Z) (i : Interview.t) : Prop :=
  Interview.hr_id i = hr_id
  /\ (Interview.status i = "Scheduled" \/ Interview.status i = "In Progress")
  /\ slot_start - timedelta_minutes duration_minutes
       <= Interview.scheduled_datetime i
       <= slot_start + timedelta_minutes duration_minutes.

(** The rule of the code: the interval is open at its upper end. *)
Definition code_conflict (hr_id : string) (slot_start : datetime)
    (duration_minutes : Z) (i : Interview.t) : Prop :=
  Interview.hr_id i = hr_id
  /\ (Interview.status i = "Scheduled" \/ Interview.status i = "In Progress")
  /\ slot_start - timedelta_minutes duration_minutes
       <= Interview.scheduled_datetime i
       < slot_start + timedelta_minutes duration_minutes.

(** The slots the search looks at: 9:00 to 16:00 on each day of the horizon
    that is not a Saturday or a Sunday. *)
Definition slots_in_horizon (now : datetime) (preferred_days : Z)
    : list datetime :=
  day_offset ← range 0 preferred_days;
  if bool_decide (weekday (now + timedelta_days day_offset) >= 5) then []
  else (fun hour => replace_hour (now + timedelta_days day_offset) hour)
         <$> range 9 17.

(** The sum of the counts of a [by_stage] dictionary. *)
Definition sum_counts (m : gmap string Z) : Z :=
  map_fold (fun _ count acc => count + acc) 0 m.

(** *** Sample instances of the collaborators, for the examples *)

Definition is_hex (a : Ascii.ascii) : bool :=
  let n := Ascii.nat_of_ascii a in
  ((48 <=? n) && (n <=? 57) || (97 <=? n) && (n <=? 102)
   || (65 <=? n) && (n <=? 70))%nat.

(** An [ObjectId] that accepts the strings of 24 hexadecimal digits. *)
Definition hex_Bson : Bson :=
  Build_Bson string _
    (fun s =>
       if (String.length s =? 24)%nat
          && forallb is_hex (String.list_ascii_of_string s)
       then Some s else None).

(** Quotients kept symbolic: [count / total] and [(count / total) * k]. *)
Inductive symbolic_float : Type :=
| Quot (count total : Z)
| Times (x : symbolic_float) (k : Z).

Definition symbolic_PyFloat : PyFloat :=
  Build_PyFloat symbolic_float Quot Times.

(** A Friday at 08:00 (day 738000 of the calendar). *)
Definition friday_8am : datetime := 738000 * us_per_day + 8 * us_per_hour.

Definition sample_application_id : string := "64b7f0c2a1d3e4f5a6b7c8d9".

Definition sample_pipeline : CandidatePipeline.t :=
  CandidatePipeline.mk sample_application_id "job1" "user1" "Screening"
    [StageEntry.mk "Applied" 0 "Application received";
     StageEntry.mk "Screening" 1 "ok"]
    "Schedule assessment test" None None.

(** One application, its pipeline at Screening, an empty calendar. *)
Definition sample_db : @database hex_Bson :=
  @mk_database hex_Bson true
    [@Application.mk hex_Bson sample_application_id "job1" "user1" "hr1"
       "Pending" None]
    [sample_pipeline]
    [] [] [] [] [].

(** The same store with an interview of the HR that Friday at 10:00. *)
Definition busy_interview : Interview.t :=
  Interview.mk sample_application_id "job1" "user1" "hr1" "Technical"
    (replace_hour friday_8am 10) 60 "Scheduled".

Definition busy_db : @database hex_Bson :=
  @mk_database hex_Bson true (applications sample_db)
    (candidate_pipeline sample_db) [busy_interview] [] [] [] [].

(** What a cursor may yield: two pipelines at Applied, a document without
    the key, and something that is not a dictionary. *)
Definition sample_cursor : WorkflowService.cursor :=
  WorkflowService.Next (WorkflowService.Dict (WorkflowService.Str "Applied"))
    (WorkflowService.Next (WorkflowService.Dict WorkflowService.Missing)
       (WorkflowService.Next WorkflowService.NotDict
          (WorkflowService.Next
             (WorkflowService.Dict (WorkflowService.Str "Applied"))
             WorkflowService.Exhausted))).

(** A cursor that yields one pipeline and then fails. *)
Definition failing_cursor : WorkflowService.cursor :=
  WorkflowService.Next (WorkflowService.Dict (WorkflowService.Str "Applied"))
    (WorkflowService.Failure "connection lost").

(** *** Auxiliary notions for the proofs *)

(** A computation that leaves the store as it found it. *)
Definition readonly `{Bson} {A} (m : M A) : Prop :=
  forall db, snd (m db) = db.

(** A computation that leaves the connection flag and the pipelines alone. *)
Definition keeps_pipelines `{Bson} {A} (m : M A) : Prop :=
  forall db, client (snd (m db)) = client db
             /\ candidate_pipeline (snd (m db)) = candidate_pipeline db.

(** A collection other than [candidate_pipeline]. *)
Definition off_pipeline `{Bson} {A} (c : collection A) : Prop :=
  forall ds db, client (with_docs c ds db) = client db
                /\ candidate_pipeline (with_docs c ds db) = candidate_pipeline db.

(** [p'] is [p] with the entry the interview service appends when an
    interview is booked. *)
Definition interview_scheduled_on (now : datetime) (p p' : CandidatePipeline.t)
    : Prop :=
  CandidatePipeline.current_stage p' = "Interview Scheduled"
  /\ CandidatePipeline.stage_history p'
     = CandidatePipeline.stage_history p ++
       [StageEntry.mk "Interview Scheduled" now
          "Automated update: Interview Scheduled"].

(** A slot is free when no interview of the store conflicts with it. *)
Definition slot_free `{Bson} (hr_id : string) (db : database) (t : datetime)
    : Prop :=
  forall i, i ∈ interviews db -> ~ code_conflict hr_id t 60 i.

Definition slot_taken `{Bson} (hr_id : string) (db : database) (t : datetime)
    : Prop :=
  exists i, i ∈ interviews db /\ code_conflict hr_id t 60 i.

(** The frames that reach [ws] when the relay sends it [fs] in a row. *)
Definition deliverable (st : VideoService.state) (ws : VideoService.socket)
    (fs : list VideoService.frame)
    : list (VideoService.socket * VideoService.frame) :=
  if bool_decide (ws ∈ VideoService.gone st) then []
  else (fun f => (ws, f)) <$> fs.

(** A notice to the peer registered for the application, if any. *)
Definition notice (st : VideoService.state) (peer : option VideoService.socket)
    (f : VideoService.frame)
    : list (VideoService.socket * VideoService.frame) :=
  match peer with
  | Some s => deliverable st s [f]
  | None => []
  end.

(** The relay state proper: everything but the log of sent frames. *)
Definition relay_of (st : VideoService.state) :=
  (VideoService.hr_sockets st, VideoService.user_sockets st,
   VideoService.pending_offers st, VideoService.pending_answers st,
   VideoService.pending_ice st, VideoService.pending_ice_hr st,
   VideoService.gone st).

(** *** Notions for the further properties *)

(** The application record of an id, as the services look it up: by
    [ObjectId(application_id)], which fails on a malformed id; [None] is
    what the enclosing [try] makes of that failure. *)
Definition find_application `{Bson} (application_id : string) (db : database)
    : option Application.t :=
  if client db
  then match ObjectId application_id with
       | Some i =>
           List.find (fun a => bool_decide (Application._id a = i))
             (applications db)
       | None => None
       end
  else None.

(** Two stores that differ at most in their applications and pipelines. *)
Definition same_side_collections `{Bson} (db db' : database) : Prop :=
  client db' = client db
  /\ interviews db' = interviews db
  /\ schedule_events db' = schedule_events db
  /\ tests db' = tests db
  /\ test_submissions db' = test_submissions db
  /\ job_offers db' = job_offers db.

Section WorkflowVocabulary.
Context `{Bson}.

(** The event [_schedule_screening] books, lines 183-191. *)
Definition screening_event (now : datetime) (application_id : string)
    (a : Application.t) : ScheduleEvent.t :=
  ScheduleEvent.mk (Application.job_id a) "Screening"
    "Initial Application Screening" (now + timedelta_hours 24)
    [Application.hr_id a] application_id.

(** The offer [_prepare_offer] drafts, lines 277-284. *)
Definition draft_offer (now : datetime) (application_id : string)
    (a : Application.t) : JobOffer.t :=
  JobOffer.mk application_id (Application.job_id a) (Application.user_id a)
    (Application.hr_id a) "Draft" (Some (now + timedelta_days 7)).

(** The event [_prepare_offer] books, lines 289-300. *)
Definition offer_event (now : datetime) (application_id : string)
    (a : Application.t) : ScheduleEvent.t :=
  ScheduleEvent.mk (Application.job_id a) "Offer" "Prepare Job Offer"
    (now + timedelta_hours 48) [Application.hr_id a] application_id.

(** The event [_schedule_test] books, lines 217-229. *)
Definition test_event (now : datetime) (application_id : string)
    (a : Application.t) : ScheduleEvent.t :=
  ScheduleEvent.mk (Application.job_id a) "Test" "Assessment Test"
    (now + timedelta_days 2) [Application.user_id a; Application.hr_id a]
    application_id.

(** The test [_schedule_test] looks for, line 206: the first active
    test of the application's job. *)
Definition active_test_for (a : Application.t) (db : database) : option Test.t :=
  List.find
    (fun t => bool_decide (Test.job_id t = Application.job_id a)
              && bool_decide (Test.status t = "Active"))
    (tests db).

(** The application record after the status write of a transition. *)
Definition with_status (now : datetime) (status : string) (a : Application.t)
    : Application.t :=
  Application.mk _ (Application._id a) (Application.job_id a)
    (Application.user_id a) (Application.hr_id a) status (Some now).

(** The pipeline [initiate_hiring_workflow] creates. *)
Definition applied_pipeline (now : datetime) (application_id : string)
    (a : Application.t) : CandidatePipeline.t :=
  CandidatePipeline.mk application_id (Application.job_id a)
    (Application.user_id a) "Applied"
    [StageEntry.mk "Applied" now "Application received"]
    "Initial screening" (Some (now + timedelta_days 1)) None.

(** What [check_interview_conflicts] answers for a one-hour slot: whether
    the interviews it can see hold a conflicting one. *)
Definition has_conflict (hr_id : string) (db : database) (t : datetime) : bool :=
  bool_decide
    (0 < length (if client db
                 then List.filter (InterviewService.conflict_query hr_id t 60)
                        (interviews db)
                 else []))%nat.

(** The pipeline the interview service creates when it finds none. *)
Definition initial_pipeline (now : datetime) (application_id stage : string)
    (a : option Application.t) : CandidatePipeline.t :=
  CandidatePipeline.mk application_id
    (from_option Application.job_id EmptyString a)
    (from_option Application.user_id EmptyString a)
    stage
    [StageEntry.mk stage now ("Initial stage: " +:+ stage)]
    EmptyString None None.

End WorkflowVocabulary.

(** The pipelines [get_pipeline_overview] counts: those of the job when a
    non-empty job id is given, all of them otherwise; none offline. *)
Definition counted_pipelines `{Bson} (job_id : option string) (db : database)
    : list CandidatePipeline.t :=
  if client db
  then match job_id with
       | Some j =>
           if bool_decide (j = EmptyString) then candidate_pipeline db
           else List.filter
                  (fun p => bool_decide (CandidatePipeline.job_id p = j))
                  (candidate_pipeline db)
       | None => candidate_pipeline db
       end
  else [].

(** How many of the pipelines are at a stage. *)
Definition pipelines_at (stage : string) (ps : list CandidatePipeline.t) : Z :=
  Z.of_nat
    (length (List.filter
               (fun p => bool_decide (CandidatePipeline.current_stage p = stage))
               ps)).

Section RelayVocabulary.
Import VideoService.

(** Where the payload of a sent frame must have come from along a trace. *)
Definition has_origin (trace : list event) (f : frame) : Prop :=
  match f with
  | offer_frame offer => exists app_id, HrReceives app_id (Offer offer) ∈ trace
  | answer_frame answer => exists app_id, UserReceives app_id (Answer answer) ∈ trace
  | ice_frame ice =>
      exists app_id, HrReceives app_id (Ice ice) ∈ trace
                     \/ UserReceives app_id (Ice ice) ∈ trace
  | hr_online | user_online | ping_frame => True
  end.

(** The application an event is about. *)
Definition event_app_id (e : event) : option string :=
  match e with
  | HrConnects _ app_id | HrReceives app_id _
  | UserConnects _ app_id | UserReceives app_id _ => Some app_id
  | Keepalive _ | GoesAway _ => None
  end.

(** What the relay holds for an application. *)
Definition held_for (app_id : string) (st : state) :=
  (hr_sockets st !! app_id, user_sockets st !! app_id,
   pending_offers st !! app_id, pending_answers st !! app_id,
   pending_ice st !! app_id, pending_ice_hr st !! app_id).

End RelayVocabulary.

(** *** Further sample stores *)

Definition sample_application : @Application.t hex_Bson :=
  @Application.mk hex_Bson sample_application_id "job1" "user1" "hr1"
    "Pending" None.

(** The sample store with its pipeline at a given stage. *)
Definition sample_pipeline_at (stage : string) : CandidatePipeline.t :=
  CandidatePipeline.mk sample_application_id "job1" "user1" stage
    [StageEntry.mk "Applied" 0 "Application received"]
    "Initial screening" None None.

Definition sample_db_at (stage : string) : @database hex_Bson :=
  @mk_database hex_Bson true [sample_application] [sample_pipeline_at stage]
    [] [] [] [] [].

(** The sample store with an active test for the job. *)
Definition tested_db : @database hex_Bson :=
  @mk_database hex_Bson true [sample_application] [sample_pipeline]
    [] [] [Test.mk "job1" "Active"] [] [].

(** The application without a pipeline. *)
Definition new_db : @database hex_Bson :=
  @mk_database hex_Bson true [sample_application] [] [] [] [] [] [].

(** The sample store without a connection. *)
Definition offline_db : @database hex_Bson :=
  @mk_database hex_Bson false [sample_application] [sample_pipeline]
    [] [] [] [] [].

(** The same Friday at 14:00. *)
Definition friday_2pm : datetime := 738000 * us_per_day + 14 * us_per_hour.

(** * Properties *)

(** ** The hiring workflow *)

Section WorkflowProperties.
Context `{Bson}.

Import WorkflowService.

Lemma by_value_Some s m : by_value s = Some m -> value m = s.
Proof.
  unfold by_value. intros Hf. apply find_some in Hf as [_ Hb].
  by apply bool_decide_eq_true in Hb.
Qed.

Lemma by_value_value m : by_value (value m) = Some m.
Proof. by destruct m. Qed.

Lemma by_value_None s : s ∉ stage_values -> by_value s = None.
Proof.
  intros Hs. destruct (by_value s) as [m|] eqn:E; [|done].
  apply by_value_Some in E. subst s. exfalso. apply Hs.
  destruct m; unfold stage_values; set_solver.
Qed.

Lemma value_in_stage_values m : value m ∈ stage_values.
Proof. destruct m; unfold stage_values; set_solver. Qed.

Lemma transitions_are_allowed_edges c t :
  t ∈ stage_transitions c <-> (value c, value t) ∈ allowed_edges.
Proof.
  rewrite <- (bool_decide_spec (t ∈ _)), <- (bool_decide_spec (_ ∈ allowed_edges)).
  by destruct c, t; vm_compute.
Qed.

Lemma db_find_pipeline application_id db :
  db_find_one c_candidate_pipeline
    (fun p => bool_decide (CandidatePipeline.application_id p = application_id)) db
  = (Return (find_pipeline application_id db), db).
Proof.
  unfold db_find_one, DatabaseRepository.find_one, getattr, find_pipeline.
  simpl. by destruct (client db).
Qed.

(** C1 *)
(** C1.  For every pipeline and every requested stage: when the pair
    (current stage, requested stage) is not in the allowed-transition table,
    [advance_candidate_stage] returns [False] and the store, hence the
    pipeline record with its history, stage, next action and next action
    date, is exactly as before. *)
Theorem advance_rejects_non_edge now application_id new_stage notes auto_schedule db p :
  find_pipeline application_id db = Some p ->
  (CandidatePipeline.current_stage p, new_stage) ∉ allowed_edges ->
  advance_candidate_stage now application_id new_stage notes auto_schedule db
  = (Return false, db).
Proof.
  intros Hp Hedge.
  unfold advance_candidate_stage, try_except, bind at 1.
  rewrite db_find_pipeline, Hp.
  unfold new_WorkflowStage, bind.
  destruct (by_value (CandidatePipeline.current_stage p)) as [c|] eqn:Ec; [|done].
  destruct (by_value new_stage) as [t|] eqn:Et; [|done].
  apply by_value_Some in Ec, Et. simpl.
  rewrite bool_decide_eq_false_2; [done|].
  rewrite transitions_are_allowed_edges. by rewrite Ec, Et.
Qed.

(** C9.  For every requested stage that is not one of the seven stage
    values, [advance_candidate_stage] returns [False] (it returns: nothing
    is raised to the caller) and the store is exactly as before. *)
Theorem advance_unknown_stage now application_id new_stage notes auto_schedule db :
  new_stage ∉ stage_values ->
  advance_candidate_stage now application_id new_stage notes auto_schedule db
  = (Return false, db).
Proof.
  intros Hs.
  unfold advance_candidate_stage, try_except, bind at 1.
  rewrite db_find_pipeline.
  destruct (find_pipeline application_id db) as [p|]; [|done].
  unfold new_WorkflowStage, bind.
  destruct (by_value (CandidatePipeline.current_stage p)) as [c|]; [|done].
  by rewrite (by_value_None _ Hs).
Qed.

Lemma readonly_keeps {A} (m : M A) : readonly m -> keeps_pipelines m.
Proof. intros Hm db. by rewrite Hm. Qed.

Lemma readonly_ret {A} (a : A) : readonly (ret a).
Proof. done. Qed.

Lemma readonly_raise {A} msg : readonly (@raise _ A msg).
Proof. done. Qed.

Lemma readonly_bind {A B} (m : M A) (k : A -> M B) :
  readonly m -> (forall a, readonly (k a)) -> readonly (bind m k).
Proof.
  intros Hm Hk db. unfold bind. specialize (Hm db).
  destruct (m db) as [[a|msg] db1]; simpl in *; subst; [apply Hk | done].
Qed.

Lemma readonly_try {A} (m : M A) (h : string -> M A) :
  readonly m -> (forall msg, readonly (h msg)) -> readonly (try_except m h).
Proof.
  intros Hm Hh db. unfold try_except. specialize (Hm db).
  destruct (m db) as [[a|msg] db1]; simpl in *; subst; [done | apply Hh].
Qed.

Lemma keeps_ret {A} (a : A) : keeps_pipelines (ret a).
Proof. done. Qed.

Lemma keeps_bind {A B} (m : M A) (k : A -> M B) :
  keeps_pipelines m -> (forall a, keeps_pipelines (k a)) ->
  keeps_pipelines (bind m k).
Proof.
  intros Hm Hk db. unfold bind. specialize (Hm db).
  destruct (m db) as [[a|msg] db1]; simpl in *; [|done].
  destruct (Hk a db1) as [-> ->]. done.
Qed.

Lemma keeps_try {A} (m : M A) (h : string -> M A) :
  keeps_pipelines m -> (forall msg, keeps_pipelines (h msg)) ->
  keeps_pipelines (try_except m h).
Proof.
  intros Hm Hh db. unfold try_except. specialize (Hm db).
  destruct (m db) as [[a|msg] db1]; simpl in *; [done|].
  destruct (Hh msg db1) as [-> ->]. done.
Qed.

Lemma readonly_find_one {A} `{EqDecision A} (c : collection A) q :
  readonly (db_find_one c q).
Proof. done. Qed.

Lemma readonly_find_many {A} `{EqDecision A} (c : collection A) q :
  readonly (db_find_many c q).
Proof. done. Qed.

Lemma readonly_new_ObjectId s : readonly (new_ObjectId s).
Proof. unfold new_ObjectId. by destruct (ObjectId s). Qed.

Lemma keeps_insert_one {A} `{EqDecision A} (c : collection A) d :
  off_pipeline c -> keeps_pipelines (db_insert_one c d).
Proof.
  intros Hc db. unfold db_insert_one.
  destruct (DatabaseRepository.insert_one _ _ _ _); simpl; [apply Hc | done].
Qed.

Lemma keeps_update_one {A} `{EqDecision A} (c : collection A) q f :
  off_pipeline c -> keeps_pipelines (db_update_one c q f).
Proof.
  intros Hc db. unfold db_update_one.
  destruct (DatabaseRepository.update_one _ _ _ _) as [[b [ds|]]|]; simpl;
    [apply Hc | done | done].
Qed.

Lemma off_applications : off_pipeline c_applications.
Proof. done. Qed.
Lemma off_interviews : off_pipeline c_interviews.
Proof. done. Qed.
Lemma off_schedule_events : off_pipeline c_schedule_events.
Proof. done. Qed.
Lemma off_test_submissions : off_pipeline c_test_submissions.
Proof. done. Qed.
Lemma off_job_offers : off_pipeline c_job_offers.
Proof. done. Qed.

Ltac frame :=
  repeat first
    [ apply readonly_ret | apply readonly_raise | apply readonly_find_one
    | apply readonly_find_many | apply readonly_new_ObjectId
    | apply keeps_ret
    | apply readonly_bind; [|intros ?] | apply readonly_try; [|intros ?]
    | apply keeps_bind; [|intros ?] | apply keeps_try; [|intros ?]
    | apply keeps_insert_one | apply keeps_update_one
    | apply off_applications | apply off_interviews
    | apply off_schedule_events | apply off_test_submissions
    | apply off_job_offers
    | apply readonly_keeps; solve [frame]
    | match goal with |- context [match ?x with _ => _ end] => destruct x end ].





Lemma readonly_send_stage_notification application_id stage :
  readonly (_send_stage_notification application_id stage).
Proof. unfold _send_stage_notification. frame. Qed.

Lemma keeps_schedule_screening now application_id :
  keeps_pipelines (_schedule_screening now application_id).
Proof. unfold _schedule_screening. frame. Qed.

Lemma keeps_schedule_test now application_id :
  keeps_pipelines (_schedule_test now application_id).
Proof. unfold _schedule_test, start_test_submission. frame. Qed.

Lemma keeps_prepare_offer now application_id :
  keeps_pipelines (_prepare_offer now application_id).
Proof. unfold _prepare_offer. frame. Qed.


(** *** What the writers do to a pipeline *)

Lemma find_pipeline_ext application_id db db' :
  client db' = client db ->
  candidate_pipeline db' = candidate_pipeline db ->
  find_pipeline application_id db' = find_pipeline application_id db.
Proof. unfold find_pipeline. by intros -> ->. Qed.


Lemma find_pipeline_Some application_id db p :
  find_pipeline application_id db = Some p ->
  client db = true
  /\ List.find
       (fun p => bool_decide (CandidatePipeline.application_id p = application_id))
       (candidate_pipeline db) = Some p
  /\ CandidatePipeline.application_id p = application_id.
Proof.
  unfold find_pipeline. destruct (client db); [|done].
  intros Hf. split; [done|]. split; [done|].
  apply find_some in Hf as [_ Hb]. by apply bool_decide_eq_true in Hb.
Qed.

Lemma find_set_first {A} (q : A -> bool) (f : A -> A) l d :
  List.find q l = Some d -> q (f d) = true ->
  List.find q (DatabaseRepository.set_first q f l) = Some (f d).
Proof.
  induction l as [|x l IH]; simpl; [done|].
  destruct (q x) eqn:Ex.
  - intros [= ->] Hq. simpl. by rewrite Hq.
  - intros Hf Hq. simpl. rewrite Ex. by apply IH.
Qed.

Lemma db_update_pipeline application_id f db p :
  find_pipeline application_id db = Some p ->
  CandidatePipeline.application_id (f p) = application_id ->
  exists b db',
    db_update_one c_candidate_pipeline
      (fun p => bool_decide (CandidatePipeline.application_id p = application_id))
      f db = (Return b, db')
    /\ client db' = true
    /\ candidate_pipeline db'
       = DatabaseRepository.set_first
           (fun p => bool_decide (CandidatePipeline.application_id p = application_id))
           f (candidate_pipeline db)
    /\ find_pipeline application_id db' = Some (f p).
Proof.
  intros Hp Hf. apply find_pipeline_Some in Hp as (Hc & Hfind & Hid).
  unfold db_update_one, DatabaseRepository.update_one, getattr. rewrite Hc.
  simpl. eexists _, _. split; [done|]. simpl.
  split; [done|]. split; [done|].
  unfold find_pipeline. simpl. rewrite Hc.
  apply find_set_first; [done|]. by apply bool_decide_eq_true.
Qed.

(** The entry the interview service appends. *)
Lemma interview_update_found now application_id stage db p :
  find_pipeline application_id db = Some p ->
  exists db',
    InterviewService._update_candidate_pipeline now application_id stage db
    = (Return tt, db')
    /\ client db' = true
    /\ find_pipeline application_id db'
       = Some (CandidatePipeline.mk
                 (CandidatePipeline.application_id p)
                 (CandidatePipeline.job_id p)
                 (CandidatePipeline.candidate_id p)
                 stage
                 (CandidatePipeline.stage_history p ++
                  [StageEntry.mk stage now ("Automated update: " +:+ stage)])
                 (CandidatePipeline.next_action p)
                 (CandidatePipeline.next_action_date p)
                 (Some now)).
Proof.
  intros Hp.
  unfold InterviewService._update_candidate_pipeline, try_except, bind at 1.
  rewrite db_find_pipeline, Hp. unfold bind.
  edestruct (db_update_pipeline application_id) as (b & db' & -> & Hc & _ & Hf);
    [exact Hp| |].
  2: { simpl. eexists. split; [done|]. split; [done|]. exact Hf. }
  simpl. by apply find_pipeline_Some in Hp as (_ & _ & ?).
Qed.



Lemma snd_try_ret {A} (m : M A) (a : A) db :
  snd (try_except m (fun _ => ret a) db) = snd (m db).
Proof. unfold try_except. by destruct (m db) as [[?|?] ?]. Qed.

Lemma bind_Return_inv {A B} (m : M A) (k : A -> M B) db b db' :
  bind m k db = (Return b, db') ->
  exists a db1, m db = (Return a, db1) /\ k a db1 = (Return b, db').
Proof.
  unfold bind. destruct (m db) as [[a|msg] db1]; [|done]. intros Hk. by exists a, db1.
Qed.


Lemma keeps_schedule_next_steps now application_id stage :
  stage <> INTERVIEW ->
  keeps_pipelines (_schedule_next_steps now application_id stage).
Proof.
  intros Hs. unfold _schedule_next_steps.
  apply keeps_try; [|intros; frame].
  destruct stage; try done; try apply keeps_ret.
  - apply keeps_schedule_screening.
  - apply keeps_schedule_test.
  - apply keeps_prepare_offer.
Qed.




Lemma Forall_set_first {A} (P : A -> Prop) (q : A -> bool) (f : A -> A) l :
  Forall P l -> (forall d, P d -> P (f d)) ->
  Forall P (DatabaseRepository.set_first q f l).
Proof.
  intros Hl Hf. induction Hl as [|x l Hx Hl IH]; simpl; [done|].
  destruct (q x); constructor; auto.
Qed.

Lemma stages_valid_keeps {A} (m : M A) db :
  keeps_pipelines m -> stages_valid db -> stages_valid (snd (m db)).
Proof. intros Hm. unfold stages_valid. by destruct (Hm db) as [_ ->]. Qed.

Lemma initiate_keeps_stages_valid now application_id db :
  stages_valid db ->
  stages_valid (snd (initiate_hiring_workflow now application_id db)).
Proof.
  intros Hv. unfold initiate_hiring_workflow. rewrite snd_try_ret.
  unfold bind at 1, new_ObjectId.
  destruct (ObjectId application_id) as [i|]; simpl; [|done].
  unfold bind at 1, db_find_one at 1.
  destruct (DatabaseRepository.find_one _ _ _) as [[a|]|msg]; simpl; [|done..].
  unfold bind at 1, db_insert_one at 1, DatabaseRepository.insert_one, getattr.
  destruct (client db) eqn:Hc; simpl; [|done].
  apply stages_valid_keeps.
  { apply keeps_bind; [apply keeps_schedule_screening | intros; frame]. }
  unfold stages_valid. simpl. apply Forall_app. split; [done|].
  constructor; [|done]. simpl. unfold stage_values. set_solver.
Qed.

Lemma advance_keeps_stages_valid now application_id new_stage notes
    auto_schedule db :
  stages_valid db ->
  auto_schedule = false \/ new_stage <> "Interview" ->
  stages_valid
    (snd (advance_candidate_stage now application_id new_stage notes
            auto_schedule db)).
Proof.
  intros Hv Hno. unfold advance_candidate_stage. rewrite snd_try_ret.
  unfold bind at 1. rewrite db_find_pipeline.
  destruct (find_pipeline application_id db) as [p|] eqn:Hp; [|done].
  unfold bind at 1, new_WorkflowStage.
  destruct (by_value (CandidatePipeline.current_stage p)) as [c|]; [|done].
  simpl. unfold bind at 1.
  destruct (by_value new_stage) as [t|] eqn:Et; [|done].
  simpl. case_bool_decide as Hedge; simpl; [|done].
  unfold bind at 1.
  edestruct (db_update_pipeline application_id) as (b & db1 & -> & _ & Hcp & _);
    [exact Hp| |].
  { simpl. by apply find_pipeline_Some in Hp as (_ & _ & ?). }
  apply stages_valid_keeps.
  - apply keeps_bind; [frame|]. intros i.
    apply keeps_bind; [frame|]. intros _.
    apply keeps_bind.
    + destruct auto_schedule; [|apply keeps_ret].
      apply keeps_schedule_next_steps. intros ->.
      apply by_value_Some in Et. destruct Hno as [?|Hne]; [done|]. by apply Hne.
    + intros _. apply keeps_bind; [|intros; frame].
      apply readonly_keeps, readonly_send_stage_notification.
  - unfold stages_valid. rewrite Hcp. apply Forall_set_first; [done|].
    intros d _. simpl. apply value_in_stage_values.
Qed.

Lemma offer_update_found now application_id stage db p :
  find_pipeline application_id db = Some p ->
  find_pipeline application_id
    (snd (OfferService._update_candidate_pipeline now application_id stage db))
  = Some (CandidatePipeline.mk
            (CandidatePipeline.application_id p)
            (CandidatePipeline.job_id p)
            (CandidatePipeline.candidate_id p)
            stage
            (CandidatePipeline.stage_history p)
            (CandidatePipeline.next_action p)
            (CandidatePipeline.next_action_date p)
            (Some now)).
Proof.
  intros Hp. unfold OfferService._update_candidate_pipeline.
  rewrite snd_try_ret. unfold bind.
  edestruct (db_update_pipeline application_id) as (b & db1 & -> & _ & _ & Hf);
    [exact Hp| |exact Hf].
  simpl. by apply find_pipeline_Some in Hp as (_ & _ & ?).
Qed.


(** *** The interview-slot search *)

Lemma conflict_query_spec hr_id t d i :
  InterviewService.conflict_query hr_id t d i = true <-> code_conflict hr_id t d i.
Proof.
  unfold InterviewService.conflict_query, code_conflict.
  rewrite !andb_true_iff, !bool_decide_eq_true, Z.ltb_lt, Z.leb_le.
  rewrite !elem_of_cons, elem_of_nil. tauto.
Qed.

Lemma check_interview_conflicts_spec hr_id t d db :
  client db = true ->
  exists b,
    InterviewService.check_interview_conflicts hr_id t d db = (Return b, db)
    /\ (b = true <-> exists i, i ∈ interviews db /\ code_conflict hr_id t d i).
Proof.
  intros Hc.
  unfold InterviewService.check_interview_conflicts, try_except, bind,
    db_find_many, DatabaseRepository.find_many, getattr.
  rewrite Hc. simpl. eexists. split; [done|].
  rewrite bool_decide_eq_true. split.
  - intros Hlen.
    destruct (List.filter _ (interviews db)) as [|i l] eqn:Ef; simpl in Hlen; [lia|].
    assert (Hin : In i (List.filter (InterviewService.conflict_query hr_id t d)
                          (interviews db))) by (rewrite Ef; by left).
    apply filter_In in Hin as [Hin Hq].
    exists i. split; [by apply list_elem_of_In | by apply conflict_query_spec].
  - intros (i & Hin & Hq).
    assert (Hin' : In i (List.filter (InterviewService.conflict_query hr_id t d)
                           (interviews db))).
    { apply filter_In. split; [by apply list_elem_of_In | by apply conflict_query_spec]. }
    destruct (List.filter _ (interviews db)); simpl; [done | lia].
Qed.

Lemma scan_hours_spec hr_id candidate_date hours db :
  client db = true ->
  exists r,
    scan_hours hr_id candidate_date hours db = (Return r, db)
    /\ match r with
       | Some t => t ∈ replace_hour candidate_date <$> hours /\ slot_free hr_id db t
       | None => forall t, t ∈ replace_hour candidate_date <$> hours ->
                           slot_taken hr_id db t
       end.
Proof.
  intros Hc. induction hours as [|hour rest IH]; cbn [scan_hours].
  - exists None. split; [done|]. intros t Ht. by apply elem_of_nil in Ht.
  - destruct (check_interview_conflicts_spec hr_id
                (replace_hour candidate_date hour) 60 db Hc) as (b & Hb & Hiff).
    unfold bind. rewrite Hb. destruct b; cbn [negb].
    + destruct IH as (r & -> & Hr). exists r. split; [done|].
      destruct r as [t|].
      * destruct Hr as [Hin Hfree]. split; [|done]. rewrite fmap_cons. apply elem_of_cons. by right.
      * intros t Ht. rewrite fmap_cons in Ht. apply elem_of_cons in Ht as [->|Ht].
        -- by apply Hiff.
        -- by apply Hr.
    + eexists. split; [done|]. split; [rewrite fmap_cons; apply elem_of_cons; by left|].
      intros i Hin Hq. assert (false = true); [|done]. apply Hiff. by exists i.
Qed.

Lemma scan_days_spec now hr_id day_offsets db :
  client db = true ->
  exists r,
    scan_days now hr_id day_offsets db = (Return r, db)
    /\ let slots :=
         day_offset ← day_offsets;
         if bool_decide (weekday (now + timedelta_days day_offset) >= 5) then []
         else (fun hour => replace_hour (now + timedelta_days day_offset) hour)
                <$> range 9 17 in
       match r with
       | Some t => t ∈ slots /\ slot_free hr_id db t
       | None => forall t, t ∈ slots -> slot_taken hr_id db t
       end.
Proof.
  intros Hc. induction day_offsets as [|day_offset rest IH]; cbn [scan_days].
  - exists None. split; [done|]. intros t Ht. by apply elem_of_nil in Ht.
  - cbn zeta in *. rewrite bind_cons. case_bool_decide as Hwd.
    + destruct IH as (r & -> & Hr). exists r. split; [done|]. exact Hr.
    + destruct (scan_hours_spec hr_id (now + timedelta_days day_offset)
                  (range 9 17) db Hc) as (r1 & Hr1 & Hspec1).
      unfold bind at 1. rewrite Hr1. destruct r1 as [t|].
      * eexists. split; [done|]. destruct Hspec1 as [Hin Hfree].
        split; [|done]. apply elem_of_app. by left.
      * destruct IH as (r & -> & Hr). exists r. split; [done|].
        destruct r as [t|].
        -- destruct Hr as [Hin Hfree]. split; [|done]. apply elem_of_app. by right.
        -- intros t Ht. apply elem_of_app in Ht as [Ht|Ht]; [by apply Hspec1 | by apply Hr].
Qed.

(** C7, as amended.  With the store online the slot search returns, and
    leaves the store alone.  A slot it returns is one of the slots of the
    day horizon and no interview of that HR with status Scheduled or In
    Progress has its time in the half-open interval from
    [slot_start - duration] (included) to [slot_start + duration]
    (excluded); it returns no slot exactly when every slot of the horizon
    has such an interview. *)
Theorem slot_search_avoids_conflicts now hr_id preferred_days db :
  client db = true ->
  exists r,
    _find_next_available_slot now hr_id preferred_days db = (Return r, db)
    /\ match r with
       | Some t =>
           t ∈ slots_in_horizon now preferred_days
           /\ forall i, i ∈ interviews db -> ~ code_conflict hr_id t 60 i
       | None =>
           forall t, t ∈ slots_in_horizon now preferred_days ->
                     exists i, i ∈ interviews db /\ code_conflict hr_id t 60 i
       end.
Proof.
  intros Hc. unfold _find_next_available_slot, try_except.
  destruct (scan_days_spec now hr_id (range 0 preferred_days) db Hc)
    as (r & -> & Hr).
  exists r. split; [done|]. exact Hr.
Qed.

End WorkflowProperties.

(** ** The hiring workflow, further properties *)

Section WorkflowFurther.
Context `{Bson}.
Import WorkflowService.

Lemma db_find_one_eq {A} `{EqDecision A} (c : collection A) q db :
  db_find_one c q db
  = (Return (if client db then List.find q (docs c db) else None), db).
Proof.
  unfold db_find_one, DatabaseRepository.find_one, getattr.
  by destruct (client db).
Qed.

Lemma db_find_many_eq {A} `{EqDecision A} (c : collection A) q db :
  db_find_many c q db
  = (Return (if client db then List.filter q (docs c db) else []), db).
Proof.
  unfold db_find_many, DatabaseRepository.find_many, getattr.
  by destruct (client db).
Qed.

Lemma db_insert_one_online {A} `{EqDecision A} (c : collection A) d db :
  client db = true ->
  db_insert_one c d db = (Return tt, with_docs c (docs c db ++ [d]) db).
Proof.
  intros Hc. unfold db_insert_one, DatabaseRepository.insert_one, getattr.
  by rewrite Hc.
Qed.

Lemma db_insert_one_offline {A} `{EqDecision A} (c : collection A) d db :
  client db = false ->
  db_insert_one c d db = (Raise "Database connection not available", db).
Proof.
  intros Hc. unfold db_insert_one, DatabaseRepository.insert_one, getattr.
  by rewrite Hc.
Qed.

Lemma db_update_one_online {A} `{EqDecision A} (c : collection A) q f db :
  client db = true ->
  db_update_one c q f db
  = (Return (DatabaseRepository.modified q f (docs c db)),
     with_docs c (DatabaseRepository.set_first q f (docs c db)) db).
Proof.
  intros Hc. unfold db_update_one, DatabaseRepository.update_one, getattr.
  by rewrite Hc.
Qed.

Lemma db_update_one_offline {A} `{EqDecision A} (c : collection A) q f db :
  client db = false -> db_update_one c q f db = (Return false, db).
Proof.
  intros Hc. unfold db_update_one, DatabaseRepository.update_one, getattr.
  by rewrite Hc.
Qed.

Lemma find_app_l {A} (q : A -> bool) l1 l2 d :
  List.find q l1 = Some d -> List.find q (l1 ++ l2) = Some d.
Proof.
  induction l1 as [|x l1 IH]; simpl; [done|]. by destruct (q x).
Qed.

Lemma find_set_first_same {A} (q : A -> bool) (f : A -> A) l :
  (forall d, q (f d) = q d) ->
  List.find q (DatabaseRepository.set_first q f l) = f <$> List.find q l.
Proof.
  intros Hq. induction l as [|x l IH]; simpl; [done|].
  destruct (q x) eqn:Ex; simpl.
  - by rewrite Hq, Ex.
  - by rewrite Ex.
Qed.

Lemma allowed_edges_inv s1 s2 :
  (s1, s2) ∈ allowed_edges <->
  exists c t, by_value s1 = Some c /\ by_value s2 = Some t
              /\ t ∈ stage_transitions c.
Proof.
  split.
  - intros Hin. unfold allowed_edges in Hin.
    repeat (apply elem_of_cons in Hin as [[= -> ->]|Hin];
            [eexists _, _; split; [reflexivity|]; split; [reflexivity|];
             by repeat constructor|]).
    by apply elem_of_nil in Hin.
  - intros (c & t & Hc & Ht & Hin).
    apply by_value_Some in Hc, Ht. subst.
    by apply transitions_are_allowed_edges.
Qed.

Lemma try_ret_Return {A} (m : M A) (a : A) db :
  exists b, fst (try_except m (fun _ => ret a) db) = Return b.
Proof. unfold try_except. destruct (m db) as [[b|msg] db']; simpl; eauto. Qed.

Lemma schedule_next_steps_returns now application_id stage db :
  fst (_schedule_next_steps now application_id stage db) = Return tt.
Proof.
  destruct (try_ret_Return
    (match stage with
     | SCREENING => _schedule_screening now application_id
     | TEST => _schedule_test now application_id
     | INTERVIEW => _schedule_interview now application_id
     | OFFER => _prepare_offer now application_id
     | _ => ret tt
     end) tt db) as ([] & Hb).
  exact Hb.
Qed.

Lemma send_stage_notification_eq application_id stage db :
  _send_stage_notification application_id stage db = (Return tt, db).
Proof.
  pose proof (readonly_send_stage_notification application_id stage db) as Hro.
  destruct (try_ret_Return
    (bind (new_ObjectId application_id)
       (fun i => bind (db_find_one c_applications
                         (fun a => bool_decide (Application._id a = i)))
                   (fun _ => ret tt))) tt db) as ([] & Hb).
  unfold _send_stage_notification in *.
  destruct (try_except _ _ db) as [r db']. simpl in *. by subst.
Qed.

(** The store after the two writes of a successful transition. *)
Lemma advance_run now application_id new_stage notes auto_schedule db p c t i :
  find_pipeline application_id db = Some p ->
  by_value (CandidatePipeline.current_stage p) = Some c ->
  by_value new_stage = Some t ->
  t ∈ stage_transitions c ->
  ObjectId application_id = Some i ->
  exists db2,
    advance_candidate_stage now application_id new_stage notes auto_schedule db
    = (Return true,
       snd ((if auto_schedule
             then _schedule_next_steps now application_id t
             else ret tt) db2))
    /\ same_side_collections db db2
    /\ client db2 = true
    /\ applications db2
       = DatabaseRepository.set_first
           (fun a => bool_decide (Application._id a = i))
           (fun a => Application.mk _ (Application._id a)
              (Application.job_id a) (Application.user_id a)
              (Application.hr_id a) new_stage (Some now))
           (applications db)
    /\ candidate_pipeline db2
       = DatabaseRepository.set_first
           (fun p => bool_decide (CandidatePipeline.application_id p = application_id))
           (fun d => CandidatePipeline.mk
              (CandidatePipeline.application_id d)
              (CandidatePipeline.job_id d)
              (CandidatePipeline.candidate_id d)
              new_stage
              (CandidatePipeline.stage_history p ++
               [StageEntry.mk new_stage now (notes_or notes c t)])
              (fst (_get_next_action now t))
              (snd (_get_next_action now t))
              (Some now))
           (candidate_pipeline db).
Proof.
  intros Hp Hc Ht Hedge Hi.
  pose proof (by_value_Some _ _ Ht) as Hv.
  apply find_pipeline_Some in Hp as Hp'. destruct Hp' as (Hcl & _ & _).
  unfold advance_candidate_stage, try_except, bind at 1.
  rewrite db_find_pipeline, Hp.
  unfold new_WorkflowStage, bind at 1. rewrite Hc. simpl.
  unfold bind at 1. rewrite Ht. simpl.
  rewrite bool_decide_eq_true_2 by done. simpl.
  unfold bind at 1. rewrite db_update_one_online by done.
  unfold bind at 1, new_ObjectId. rewrite Hi. simpl.
  unfold bind at 1. rewrite db_update_one_online by done.
  set (db2 := with_docs c_applications _ _).
  exists db2. split.
  - unfold bind at 1. destruct auto_schedule.
    + pose proof (schedule_next_steps_returns now application_id t db2) as Hr.
      destruct (_schedule_next_steps now application_id t db2) as [r db3].
      simpl in Hr. subst r. unfold bind.
      by rewrite send_stage_notification_eq.
    + simpl. unfold bind. by rewrite send_stage_notification_eq.
  - subst db2. rewrite <- Hv. simpl. by repeat split.
Qed.


Lemma advance_true_inv now application_id new_stage notes auto_schedule db db' :
  advance_candidate_stage now application_id new_stage notes auto_schedule db
  = (Return true, db') ->
  exists p c t i,
    find_pipeline application_id db = Some p
    /\ by_value (CandidatePipeline.current_stage p) = Some c
    /\ by_value new_stage = Some t
    /\ t ∈ stage_transitions c
    /\ ObjectId application_id = Some i.
Proof.
  intros Hadv. unfold advance_candidate_stage, try_except in Hadv.
  match type of Hadv with (match ?b db with _ => _ end) = _ =>
    destruct (b db) as [[r|msg] db0] eqn:E; [|done] end.
  injection Hadv as -> ->.
  apply bind_Return_inv in E as (pd & dba & Hfind & E).
  rewrite db_find_pipeline in Hfind. injection Hfind as <- <-.
  destruct (find_pipeline application_id db) as [p|] eqn:Hp; [|done].
  apply bind_Return_inv in E as (c & dbb & Hc & E).
  unfold new_WorkflowStage in Hc.
  destruct (by_value (CandidatePipeline.current_stage p)) as [c'|] eqn:Ec; [|done].
  injection Hc as -> <-.
  apply bind_Return_inv in E as (t & dbc & Ht & E).
  unfold new_WorkflowStage in Ht.
  destruct (by_value new_stage) as [t'|] eqn:Et; [|done].
  injection Ht as -> <-.
  case_bool_decide as Hedge; simpl in E; [|done].
  apply bind_Return_inv in E as (b1 & db1 & Hu1 & E).
  apply bind_Return_inv in E as (i & dbd & Hi & E).
  unfold new_ObjectId in Hi.
  destruct (ObjectId application_id) as [i'|] eqn:Ei; [|done].
  injection Hi as -> _.
  by exists p, c, t, i.
Qed.

(** X1.  [advance_candidate_stage] never raises, and it returns [True] exactly
    when the application has a pipeline record, the pair of its current
    stage and the requested stage is in the transition table, and the
    application id is a well-formed [ObjectId]. *)
Theorem advance_succeeds_iff now application_id new_stage notes auto_schedule db :
  (exists b,
     fst (advance_candidate_stage now application_id new_stage notes
            auto_schedule db) = Return b)
  /\ (fst (advance_candidate_stage now application_id new_stage notes
             auto_schedule db) = Return true
      <-> exists p,
            find_pipeline application_id db = Some p
            /\ (CandidatePipeline.current_stage p, new_stage) ∈ allowed_edges
            /\ is_Some (ObjectId application_id)).
Proof.
  split; [apply try_ret_Return|]. split.
  - intros Hr.
    destruct (advance_candidate_stage now application_id new_stage notes
                auto_schedule db) as [r db'] eqn:E.
    simpl in Hr. subst r.
    apply advance_true_inv in E as (p & c & t & i & Hp & Hc & Ht & He & Hi).
    exists p. split; [done|]. split; [|by exists i].
    apply allowed_edges_inv. by exists c, t.
  - intros (p & Hp & He & [i Hi]).
    apply allowed_edges_inv in He as (c & t & Hc & Ht & He).
    destruct (advance_run now application_id new_stage notes auto_schedule
                db p c t i Hp Hc Ht He Hi) as (db2 & -> & _).
    done.
Qed.

Lemma advance_blocked now application_id new_stage notes auto_schedule db p :
  find_pipeline application_id db = Some p ->
  (CandidatePipeline.current_stage p, new_stage) ∉ allowed_edges ->
  advance_candidate_stage now application_id new_stage notes auto_schedule db
  = (Return false, db).
Proof.
  intros Hp Hedge.
  unfold advance_candidate_stage, try_except, bind at 1.
  rewrite db_find_pipeline, Hp.
  unfold new_WorkflowStage, bind.
  destruct (by_value (CandidatePipeline.current_stage p)) as [c|] eqn:Ec; [|done].
  destruct (by_value new_stage) as [t|] eqn:Et; [|done].
  simpl. rewrite bool_decide_eq_false_2; [done|].
  intros Hin. apply Hedge, allowed_edges_inv. by exists c, t.
Qed.

Lemma allowed_edges_source s1 s2 :
  (s1, s2) ∈ allowed_edges ->
  s1 ∈ ["Applied"; "Screening"; "Test"; "Interview"; "Offer"].
Proof.
  unfold allowed_edges. intros Hin.
  repeat (apply elem_of_cons in Hin as [[= -> ->]|Hin]; [by repeat constructor|]).
  by apply elem_of_nil in Hin.
Qed.

(** X2.  A pipeline whose current stage is none of Applied, Screening, Test,
    Interview and Offer cannot be advanced: whatever stage is asked for,
    [advance_candidate_stage] returns [False] and the store is unchanged. *)
Theorem terminal_stage_blocks now application_id new_stage notes auto_schedule
    db p :
  find_pipeline application_id db = Some p ->
  CandidatePipeline.current_stage p
    ∉ ["Applied"; "Screening"; "Test"; "Interview"; "Offer"] ->
  advance_candidate_stage now application_id new_stage notes auto_schedule db
  = (Return false, db).
Proof.
  intros Hp Hs. apply (advance_blocked _ _ _ _ _ _ p Hp).
  intros Hin. by apply Hs, (allowed_edges_source _ new_stage).
Qed.

Lemma schedule_interview_books now application_id job_id candidate_id hr_id
    interview_type t d db p i :
  find_pipeline application_id db = Some p ->
  ObjectId application_id = Some i ->
  exists db' p',
    InterviewService.schedule_interview now application_id job_id candidate_id
      hr_id interview_type t d db = (Return tt, db')
    /\ client db' = true
    /\ interviews db'
       = interviews db ++
         [Interview.mk application_id job_id candidate_id hr_id interview_type
            t d "Scheduled"]
    /\ find_pipeline application_id db' = Some p'
    /\ interview_scheduled_on now p p'.
Proof.
  intros Hp Hi.
  apply find_pipeline_Some in Hp as Hp'. destruct Hp' as (Hcl & _ & _).
  unfold InterviewService.schedule_interview, try_except, bind at 1.
  rewrite db_insert_one_online by done.
  unfold bind at 1, new_ObjectId. rewrite Hi. simpl.
  unfold bind at 1. rewrite db_update_one_online by done.
  set (db2 := with_docs c_applications _ _).
  assert (Hp2 : find_pipeline application_id db2 = Some p).
  { rewrite <- Hp. by apply find_pipeline_ext. }
  destruct (interview_update_found now application_id "Interview Scheduled" db2 p Hp2)
    as (db3 & Hu & Hc3 & Hf).
  assert (Hk : keeps_pipelines
    (InterviewService._update_candidate_pipeline now application_id
       "Interview Scheduled") -> True) by done.
  unfold bind. rewrite Hu. simpl.
  eexists _, _. split; [done|]. split; [done|]. split; [|split; [exact Hf|by split]].
  (* interviews untouched by the pipeline update *)
  clear Hk Hf.
  unfold InterviewService._update_candidate_pipeline, try_except, bind at 1 in Hu.
  rewrite db_find_pipeline, Hp2 in Hu. unfold bind in Hu.
  rewrite db_update_one_online in Hu by done.
  simpl in Hu. injection Hu as <-. done.
Qed.

(** X3.  Once [schedule_interview] has run for an application that has a
    pipeline, the workflow can no longer advance it: every later call of
    [advance_candidate_stage] for it returns [False] and leaves the store
    as it is, because the interview service has set a current stage that
    the transition table does not know. *)
Theorem booked_interview_blocks_pipeline now application_id job_id candidate_id
    hr_id interview_type t d db p :
  find_pipeline application_id db = Some p ->
  is_Some (ObjectId application_id) ->
  forall now' new_stage notes auto_schedule,
    advance_candidate_stage now' application_id new_stage notes auto_schedule
      (snd (InterviewService.schedule_interview now application_id job_id
              candidate_id hr_id interview_type t d db))
    = (Return false,
       snd (InterviewService.schedule_interview now application_id job_id
              candidate_id hr_id interview_type t d db)).
Proof.
  intros Hp [i Hi] now' new_stage notes auto_schedule.
  destruct (schedule_interview_books now application_id job_id candidate_id
              hr_id interview_type t d db p i Hp Hi)
    as (db' & p' & -> & _ & _ & Hp' & [Hcur _]).
  simpl. apply (advance_blocked _ _ _ _ _ _ p' Hp').
  intros Hin. apply allowed_edges_source in Hin. rewrite Hcur in Hin.
  repeat (apply elem_of_cons in Hin as [[=]|Hin]). by apply elem_of_nil in Hin.
Qed.

Lemma find_application_Some application_id db a :
  find_application application_id db = Some a ->
  client db = true
  /\ exists i, ObjectId application_id = Some i
       /\ List.find (fun a => bool_decide (Application._id a = i))
            (applications db) = Some a.
Proof.
  unfold find_application. destruct (client db); [|done].
  destruct (ObjectId application_id) as [i|]; [|done].
  intros Hf. split; [done|]. by exists i.
Qed.

Lemma find_application_lookup application_id db :
  bind (new_ObjectId application_id)
    (fun i => db_find_one c_applications
                (fun a => bool_decide (Application._id a = i))) db
  = (match ObjectId application_id with
     | Some _ => Return (find_application application_id db)
     | None => Raise "InvalidId"
     end, db).
Proof.
  unfold bind, new_ObjectId, find_application.
  destruct (ObjectId application_id) as [i|]; simpl; [|done].
  rewrite db_find_one_eq. by destruct (client db).
Qed.

Lemma schedule_screening_eq now application_id db :
  _schedule_screening now application_id db
  = (Return tt,
     match find_application application_id db with
     | Some a =>
         with_docs c_schedule_events
           (schedule_events db ++ [screening_event now application_id a]) db
     | None => db
     end).
Proof.
  unfold _schedule_screening, try_except, bind at 1.
  destruct (find_application application_id db) as [a|] eqn:Ha.
  - apply find_application_Some in Ha as (Hc & i & Hi & Hf).
    unfold new_ObjectId. rewrite Hi. simpl.
    unfold bind. rewrite db_find_one_eq, Hc.
    change (docs c_applications db) with (applications db). rewrite Hf.
    rewrite db_insert_one_online by done. simpl. by rewrite ?Hc.
  - unfold find_application in Ha. unfold new_ObjectId.
    destruct (ObjectId application_id) as [i|]; simpl; [|done].
    unfold bind. rewrite db_find_one_eq.
    destruct (client db); [|done]. simpl in *. by rewrite Ha.
Qed.

Lemma prepare_offer_eq now application_id db :
  _prepare_offer now application_id db
  = (Return tt,
     match find_application application_id db with
     | Some a =>
         with_docs c_schedule_events
           (schedule_events db ++ [offer_event now application_id a])
           (with_docs c_job_offers
              (job_offers db ++ [draft_offer now application_id a]) db)
     | None => db
     end).
Proof.
  unfold _prepare_offer, try_except, bind at 1.
  destruct (find_application application_id db) as [a|] eqn:Ha.
  - apply find_application_Some in Ha as (Hc & i & Hi & Hf).
    unfold new_ObjectId. rewrite Hi. simpl.
    unfold bind at 1. rewrite db_find_one_eq, Hc.
    change (docs c_applications db) with (applications db). rewrite Hf.
    unfold bind. rewrite db_insert_one_online by done.
    rewrite db_insert_one_online by done. simpl. by rewrite ?Hc.
  - unfold find_application in Ha. unfold new_ObjectId.
    destruct (ObjectId application_id) as [i|]; simpl; [|done].
    unfold bind. rewrite db_find_one_eq.
    destruct (client db); [|done]. simpl in *. by rewrite Ha.
Qed.

Lemma schedule_test_eq now application_id db :
  _schedule_test now application_id db
  = (Return tt,
     match find_application application_id db with
     | Some a =>
         match active_test_for a db with
         | Some _ =>
             with_docs c_schedule_events
               (schedule_events db ++ [test_event now application_id a])
               (with_docs c_test_submissions
                  (test_submissions db ++
                   [TestSubmission.mk application_id (Application.user_id a)
                      "In Progress"]) db)
         | None => db
         end
     | None => db
     end).
Proof.
  unfold _schedule_test, try_except, bind at 1.
  destruct (find_application application_id db) as [a|] eqn:Ha.
  - apply find_application_Some in Ha as (Hc & i & Hi & Hf).
    unfold new_ObjectId. rewrite Hi. simpl.
    unfold bind at 1. rewrite db_find_one_eq, Hc.
    change (docs c_applications db) with (applications db). rewrite Hf.
    unfold bind at 1. rewrite db_find_one_eq, Hc.
    unfold active_test_for. simpl.
    destruct (List.find _ (tests db)); [|done].
    unfold bind, start_test_submission, try_except.
    rewrite db_insert_one_online by done.
    rewrite db_insert_one_online by done. simpl. by rewrite ?Hc.
  - unfold find_application in Ha. unfold new_ObjectId.
    destruct (ObjectId application_id) as [i|]; simpl; [|done].
    unfold bind. rewrite db_find_one_eq.
    destruct (client db); [|done]. simpl in *. by rewrite Ha.
Qed.

Lemma find_application_set_status now status application_id db db2 i :
  ObjectId application_id = Some i ->
  client db2 = true -> client db = true ->
  applications db2
  = DatabaseRepository.set_first
      (fun a => bool_decide (Application._id a = i))
      (fun a => Application.mk _ (Application._id a)
         (Application.job_id a) (Application.user_id a)
         (Application.hr_id a) status (Some now))
      (applications db) ->
  find_application application_id db2
  = with_status now status <$> find_application application_id db.
Proof.
  intros Hi Hc2 Hc Ha. unfold find_application.
  rewrite Hc2, Hc, Hi, Ha. by apply find_set_first_same.
Qed.

(** X4.  A successful transition with auto-scheduling off touches only the
    pipeline and the application: the other collections are unchanged, the
    application gets the new stage as its status, and the pipeline gets the
    new stage, the next action of that stage and the update time, and
    keeps its job and candidate. *)
Theorem advance_without_scheduling now application_id new_stage notes db db' :
  advance_candidate_stage now application_id new_stage notes false db
  = (Return true, db') ->
  same_side_collections db db'
  /\ find_application application_id db'
     = with_status now new_stage <$> find_application application_id db
  /\ exists p p' t,
       find_pipeline application_id db = Some p
       /\ find_pipeline application_id db' = Some p'
       /\ by_value new_stage = Some t
       /\ CandidatePipeline.current_stage p' = new_stage
       /\ (CandidatePipeline.next_action p',
           CandidatePipeline.next_action_date p') = _get_next_action now t
       /\ CandidatePipeline.updated_at p' = Some now
       /\ CandidatePipeline.job_id p' = CandidatePipeline.job_id p
       /\ CandidatePipeline.candidate_id p' = CandidatePipeline.candidate_id p.
Proof.
  intros Hadv.
  destruct (advance_true_inv _ _ _ _ _ _ _ Hadv)
    as (p & c & t & i & Hp & Hc & Ht & He & Hi).
  destruct (advance_run now application_id new_stage notes false db p c t i
              Hp Hc Ht He Hi) as (db2 & Hrun & Hside & Hc2 & Happ & Hcp).
  rewrite Hrun in Hadv. simpl in Hadv. injection Hadv as <-.
  apply find_pipeline_Some in Hp as Hp'. destruct Hp' as (Hcl & Hfind & Hid).
  split; [done|]. split; [by apply (find_application_set_status _ _ _ _ _ i)|].
  eexists p, _, t. split; [done|]. split.
  { unfold find_pipeline. rewrite Hc2, Hcp.
    apply find_set_first; [done|]. simpl. by apply bool_decide_eq_true. }
  simpl. repeat split; try done. by destruct (_get_next_action now t).
Qed.

Lemma advance_auto_run now application_id new_stage notes db p t a :
  find_pipeline application_id db = Some p ->
  (CandidatePipeline.current_stage p, new_stage) ∈ allowed_edges ->
  by_value new_stage = Some t ->
  find_application application_id db = Some a ->
  exists db2,
    advance_candidate_stage now application_id new_stage notes true db
    = (Return true, snd (_schedule_next_steps now application_id t db2))
    /\ same_side_collections db db2
    /\ find_application application_id db2 = Some (with_status now new_stage a).
Proof.
  intros Hp He Ht Ha.
  apply allowed_edges_inv in He as (c & t' & Hc & Ht' & He).
  rewrite Ht in Ht'. injection Ht' as <-.
  apply find_application_Some in Ha as Ha'. destruct Ha' as (Hcl & i & Hi & _).
  destruct (advance_run now application_id new_stage notes true db p c t i
              Hp Hc Ht He Hi) as (db2 & Hrun & Hside & Hc2 & Happ & _).
  exists db2. split; [done|]. split; [done|].
  rewrite (find_application_set_status now new_stage _ db db2 i) by done.
  by rewrite Ha.
Qed.

(** X5.  Advancing from Applied to Screening with auto-scheduling on succeeds
    and books exactly one event, the screening 24 hours ahead with the HR
    of the application; no interview, test, submission or offer is
    written. *)
Theorem advance_to_screening_schedules now application_id notes db p a :
  find_pipeline application_id db = Some p ->
  CandidatePipeline.current_stage p = "Applied" ->
  find_application application_id db = Some a ->
  exists db',
    advance_candidate_stage now application_id "Screening" notes true db
    = (Return true, db')
    /\ schedule_events db'
       = schedule_events db ++ [screening_event now application_id a]
    /\ interviews db' = interviews db
    /\ tests db' = tests db
    /\ test_submissions db' = test_submissions db
    /\ job_offers db' = job_offers db.
Proof.
  intros Hp Hcur Ha.
  destruct (advance_auto_run now application_id "Screening" notes db p
              SCREENING a Hp) as (db2 & -> & Hside & Ha2); [|done|done|].
  { rewrite Hcur. by repeat constructor. }
  destruct Hside as (_ & Hi & He & Ht & Hs & Ho).
  eexists. split; [done|].
  unfold _schedule_next_steps, try_except.
  rewrite schedule_screening_eq, Ha2. simpl.
  by rewrite Hi, He, Ht, Hs, Ho.
Qed.

(** X6.  Advancing from Interview to Offer with auto-scheduling on succeeds,
    drafts one offer that expires in seven days and books one
    offer-preparation event 48 hours ahead; interviews, tests and
    submissions are unchanged. *)
Theorem advance_to_offer_drafts_offer now application_id notes db p a :
  find_pipeline application_id db = Some p ->
  CandidatePipeline.current_stage p = "Interview" ->
  find_application application_id db = Some a ->
  exists db',
    advance_candidate_stage now application_id "Offer" notes true db
    = (Return true, db')
    /\ job_offers db' = job_offers db ++ [draft_offer now application_id a]
    /\ schedule_events db'
       = schedule_events db ++ [offer_event now application_id a]
    /\ interviews db' = interviews db
    /\ tests db' = tests db
    /\ test_submissions db' = test_submissions db.
Proof.
  intros Hp Hcur Ha.
  destruct (advance_auto_run now application_id "Offer" notes db p
              OFFER a Hp) as (db2 & -> & Hside & Ha2); [|done|done|].
  { rewrite Hcur. by repeat constructor. }
  destruct Hside as (_ & Hi & He & Ht & Hs & Ho).
  eexists. split; [done|].
  unfold _schedule_next_steps, try_except.
  rewrite prepare_offer_eq, Ha2. simpl.
  by rewrite Hi, He, Ht, Hs, Ho.
Qed.

(** X7.  Advancing from Screening to Test with auto-scheduling on succeeds;
    when the job has an active test it starts one submission for the
    candidate and books the test event two days ahead, and when it has
    none it writes neither. *)
Theorem advance_to_test_invites now application_id notes db p a :
  find_pipeline application_id db = Some p ->
  CandidatePipeline.current_stage p = "Screening" ->
  find_application application_id db = Some a ->
  exists db',
    advance_candidate_stage now application_id "Test" notes true db
    = (Return true, db')
    /\ interviews db' = interviews db
    /\ tests db' = tests db
    /\ job_offers db' = job_offers db
    /\ match active_test_for a db with
       | Some _ =>
           test_submissions db'
           = test_submissions db ++
             [TestSubmission.mk application_id (Application.user_id a)
                "In Progress"]
           /\ schedule_events db'
              = schedule_events db ++ [test_event now application_id a]
       | None =>
           test_submissions db' = test_submissions db
           /\ schedule_events db' = schedule_events db
       end.
Proof.
  intros Hp Hcur Ha.
  destruct (advance_auto_run now application_id "Test" notes db p
              TEST a Hp) as (db2 & -> & Hside & Ha2); [|done|done|].
  { rewrite Hcur. by repeat constructor. }
  destruct Hside as (_ & Hi & He & Ht & Hs & Ho).
  eexists. split; [done|].
  unfold _schedule_next_steps, try_except.
  rewrite schedule_test_eq, Ha2.
  replace (active_test_for (with_status now "Test" a) db2)
    with (active_test_for a db) by (unfold active_test_for; by rewrite Ht).
  destruct (active_test_for a db); simpl; by rewrite Hi, He, Ht, Hs, Ho.
Qed.

Lemma initiate_eq now application_id db :
  initiate_hiring_workflow now application_id db
  = match find_application application_id db with
    | Some a =>
        (Return true,
         mk_database _ (client db) (applications db)
           (candidate_pipeline db ++ [applied_pipeline now application_id a])
           (interviews db)
           (schedule_events db ++ [screening_event now application_id a])
           (tests db) (test_submissions db) (job_offers db))
    | None => (Return false, db)
    end.
Proof.
  unfold initiate_hiring_workflow, try_except, bind at 1.
  destruct (find_application application_id db) as [a|] eqn:Ha.
  - apply find_application_Some in Ha as Ha'. destruct Ha' as (Hc & i & Hi & Hf).
    unfold new_ObjectId. rewrite Hi. simpl.
    unfold bind at 1. rewrite db_find_one_eq, Hc.
    change (docs c_applications db) with (applications db). rewrite Hf.
    unfold bind at 1. rewrite db_insert_one_online by done.
    unfold bind. rewrite schedule_screening_eq.
    set (db1 := with_docs c_candidate_pipeline _ db).
    assert (Ha1 : find_application application_id db1 = Some a).
    { rewrite <- Ha. unfold find_application. subst db1. simpl. by rewrite Hc. }
    rewrite Ha1. subst db1. simpl. by rewrite ?Hc.
  - unfold find_application in Ha. unfold new_ObjectId.
    destruct (ObjectId application_id) as [i|]; simpl; [|done].
    unfold bind. rewrite db_find_one_eq.
    destruct (client db); [|done]. simpl in *. by rewrite Ha.
Qed.

(** X8.  [initiate_hiring_workflow] either finds the application, returns
    [True], appends a pipeline at Applied with one history entry and books
    the screening event, leaving every other collection alone; or it does
    not find it, returns [False] and leaves the store unchanged. *)
Theorem initiate_creates_pipeline_and_screening now application_id db :
  (exists a, find_application application_id db = Some a
     /\ exists db',
          initiate_hiring_workflow now application_id db = (Return true, db')
          /\ candidate_pipeline db'
             = candidate_pipeline db ++ [applied_pipeline now application_id a]
          /\ schedule_events db'
             = schedule_events db ++ [screening_event now application_id a]
          /\ applications db' = applications db
          /\ interviews db' = interviews db
          /\ tests db' = tests db
          /\ test_submissions db' = test_submissions db
          /\ job_offers db' = job_offers db)
  \/ (find_application application_id db = None
      /\ initiate_hiring_workflow now application_id db = (Return false, db)).
Proof.
  rewrite initiate_eq.
  destruct (find_application application_id db) as [a|]; [left|right; done].
  exists a. split; [done|]. eexists. split; [done|]. by repeat split.
Qed.

(** X9.  [initiate_hiring_workflow] does not look for an existing pipeline:
    called for an application that has one, it appends a second record,
    and lookups keep answering with the old one. *)
Theorem initiate_does_not_check_for_a_pipeline now application_id db p a :
  find_pipeline application_id db = Some p ->
  find_application application_id db = Some a ->
  find_pipeline application_id
    (snd (initiate_hiring_workflow now application_id db)) = Some p
  /\ candidate_pipeline (snd (initiate_hiring_workflow now application_id db))
     = candidate_pipeline db ++ [applied_pipeline now application_id a].
Proof.
  intros Hp Ha. rewrite initiate_eq, Ha. simpl. split; [|done].
  apply find_pipeline_Some in Hp as (Hc & Hf & _).
  unfold find_pipeline. simpl. rewrite Hc.
  by apply find_app_l.
Qed.

(** *** The slot search as a first-fit scan *)

Lemma check_interview_conflicts_eq hr_id t db :
  InterviewService.check_interview_conflicts hr_id t 60 db
  = (Return (has_conflict hr_id db t), db).
Proof.
  unfold InterviewService.check_interview_conflicts, try_except, bind.
  by rewrite db_find_many_eq.
Qed.

Lemma scan_hours_eq hr_id candidate_date hours db :
  scan_hours hr_id candidate_date hours db
  = (Return (List.find (fun t => negb (has_conflict hr_id db t))
               (replace_hour candidate_date <$> hours)), db).
Proof.
  induction hours as [|hour rest IH]; cbn [scan_hours]; [done|].
  unfold bind. rewrite check_interview_conflicts_eq, fmap_cons. cbn [List.find].
  by destruct (has_conflict hr_id db (replace_hour candidate_date hour)).
Qed.

Lemma find_app_r {A} (q : A -> bool) l1 l2 :
  List.find q l1 = None -> List.find q (l1 ++ l2) = List.find q l2.
Proof.
  induction l1 as [|x l1 IH]; simpl; [done|]. by destruct (q x).
Qed.

Lemma scan_days_eq now hr_id day_offsets db :
  scan_days now hr_id day_offsets db
  = (Return
       (List.find (fun t => negb (has_conflict hr_id db t))
          (day_offset ← day_offsets;
           if bool_decide (weekday (now + timedelta_days day_offset) >= 5)
           then []
           else (fun hour => replace_hour (now + timedelta_days day_offset) hour)
                  <$> range 9 17)), db).
Proof.
  induction day_offsets as [|day_offset rest IH]; cbn [scan_days]; [done|].
  rewrite bind_cons. case_bool_decide as Hwd; [exact IH|].
  unfold bind at 1. rewrite scan_hours_eq.
  destruct (List.find _ (replace_hour _ <$> range 9 17)) as [t|] eqn:Ef.
  - by rewrite (find_app_l _ _ _ t).
  - by rewrite find_app_r.
Qed.

Lemma find_next_available_slot_eq now hr_id preferred_days db :
  _find_next_available_slot now hr_id preferred_days db
  = (Return (List.find (fun t => negb (has_conflict hr_id db t))
               (slots_in_horizon now preferred_days)), db).
Proof.
  unfold _find_next_available_slot, try_except. by rewrite scan_days_eq.
Qed.

Lemma has_conflict_taken hr_id db t :
  client db = true ->
  has_conflict hr_id db t = true <-> slot_taken hr_id db t.
Proof.
  intros Hc. unfold has_conflict, slot_taken. rewrite Hc, bool_decide_eq_true.
  split.
  - intros Hlen.
    destruct (List.filter _ (interviews db)) as [|i l] eqn:Ef; simpl in Hlen; [lia|].
    assert (Hin : In i (List.filter (InterviewService.conflict_query hr_id t 60)
                          (interviews db))) by (rewrite Ef; by left).
    apply filter_In in Hin as [Hin Hq].
    exists i. split; [by apply list_elem_of_In | by apply conflict_query_spec].
  - intros (i & Hin & Hq).
    assert (Hin' : In i (List.filter (InterviewService.conflict_query hr_id t 60)
                           (interviews db))).
    { apply filter_In. split; [by apply list_elem_of_In | by apply conflict_query_spec]. }
    destruct (List.filter _ (interviews db)); simpl; [done | lia].
Qed.

Lemma find_first {A} (q : A -> bool) l d :
  List.find q l = Some d ->
  exists l1 l2, l = l1 ++ d :: l2 /\ q d = true
                /\ Forall (fun x => q x = false) l1.
Proof.
  induction l as [|x l IH]; simpl; [done|].
  destruct (q x) eqn:Ex.
  - intros [= ->]. by exists [], l.
  - intros Hf. destruct (IH Hf) as (l1 & l2 & -> & Hq & Hall).
    exists (x :: l1), l2. split; [done|]. split; [done|]. by constructor.
Qed.

(** X10.  The slot search is first-fit: the slot it returns is free, and every
    slot before it in the order of the search (day after day, 9:00 to
    16:00) is taken. *)
Theorem slot_search_is_first_fit now hr_id preferred_days db t :
  client db = true ->
  fst (_find_next_available_slot now hr_id preferred_days db) = Return (Some t) ->
  exists earlier later,
    slots_in_horizon now preferred_days = earlier ++ t :: later
    /\ Forall (slot_taken hr_id db) earlier
    /\ slot_free hr_id db t.
Proof.
  intros Hc. rewrite find_next_available_slot_eq. simpl. intros [= Hf].
  apply find_first in Hf as (l1 & l2 & Hl & Hq & Hall).
  exists l1, l2. split; [done|]. split.
  - eapply Forall_impl; [exact Hall|]. intros s Hs. simpl in Hs.
    apply has_conflict_taken; [done|]. by destruct (has_conflict hr_id db s).
  - intros i Hin Hconf.
    assert (Ht : has_conflict hr_id db t = true).
    { apply has_conflict_taken; [done|]. by exists i. }
    by rewrite Ht in Hq.
Qed.

Lemma slots_in_horizon_shape now preferred_days t :
  t ∈ slots_in_horizon now preferred_days ->
  exists day_offset hour,
    0 <= day_offset < preferred_days /\ 9 <= hour <= 16
    /\ weekday (now + timedelta_days day_offset) < 5
    /\ t = replace_hour (now + timedelta_days day_offset) hour.
Proof.
  unfold slots_in_horizon. intros Hin.
  apply list_elem_of_bind in Hin as (d & Hin & Hd).
  case_bool_decide as Hwd; [by apply elem_of_nil in Hin|].
  apply list_elem_of_fmap in Hin as (h & -> & Hh).
  unfold range in *. apply elem_of_seqZ in Hd, Hh.
  exists d, h. repeat split; try lia.
Qed.

Lemma weekday_replace_hour c hour :
  0 <= hour < 24 -> weekday (replace_hour c hour) = weekday c.
Proof.
  intros Hh. unfold weekday, replace_hour, timedelta_hours.
  f_equal. rewrite Z.div_add_l by done.
  rewrite (Z.div_small (hour * us_per_hour)); [lia|].
  unfold us_per_day, us_per_hour, us_per_minute. lia.
Qed.

(** X11.  A slot returned by the search is on a weekday, at a full hour from
    9:00 to 16:00, on a day of the horizon counted from today. *)
Theorem slot_is_a_business_hour now hr_id preferred_days db t :
  fst (_find_next_available_slot now hr_id preferred_days db) = Return (Some t) ->
  weekday t < 5
  /\ exists day_offset hour,
       0 <= day_offset < preferred_days /\ 9 <= hour <= 16
       /\ t = (now / us_per_day + day_offset) * us_per_day + hour * us_per_hour.
Proof.
  rewrite find_next_available_slot_eq. simpl. intros [= Hf].
  apply find_some in Hf as [Hin _]. apply list_elem_of_In in Hin.
  apply slots_in_horizon_shape in Hin as (d & h & Hd & Hh & Hwd & ->).
  split; [rewrite weekday_replace_hour; lia|].
  exists d, h. split; [done|]. split; [done|].
  unfold replace_hour, timedelta_hours, timedelta_days.
  by rewrite Z.div_add.
Qed.

(** X12.  The search starts at 9:00 of the current day whatever the time is:
    on a weekday whose 9:00 slot is free it returns that slot, which lies
    in the past when the search runs later than 9:00. *)
Theorem free_morning_slot_is_taken_even_if_past now hr_id preferred_days db :
  client db = true ->
  weekday now < 5 ->
  0 < preferred_days ->
  slot_free hr_id db (replace_hour now 9) ->
  _find_next_available_slot now hr_id preferred_days db
  = (Return (Some (replace_hour now 9)), db)
  /\ (9 * us_per_hour < now mod us_per_day -> replace_hour now 9 < now).
Proof.
  intros Hc Hwd Hn Hfree. split.
  - rewrite find_next_available_slot_eq. do 2 f_equal.
    unfold slots_in_horizon, range. rewrite (seqZ_cons 0) by lia.
    rewrite bind_cons.
    replace (now + timedelta_days 0) with now by (unfold timedelta_days; lia).
    rewrite bool_decide_eq_false_2 by lia.
    rewrite (seqZ_cons 9) by lia. rewrite fmap_cons. cbn [app List.find].
    destruct (has_conflict hr_id db (replace_hour now 9)) eqn:Hb; [|done].
    apply has_conflict_taken in Hb as (i & Hin & Hq); [|done].
    by destruct (Hfree i Hin).
  - unfold replace_hour, timedelta_hours.
    pose proof (Z.div_mod now us_per_day) as Hdm.
    assert (us_per_day <> 0) by done. lia.
Qed.

(** *** The writers of the interview and offer services *)

Lemma interview_update_eq now application_id stage db :
  InterviewService._update_candidate_pipeline now application_id stage db
  = (Return tt,
     if client db
     then match find_pipeline application_id db with
          | Some p =>
              with_docs c_candidate_pipeline
                (DatabaseRepository.set_first
                   (fun p => bool_decide
                      (CandidatePipeline.application_id p = application_id))
                   (fun d => CandidatePipeline.mk
                      (CandidatePipeline.application_id d)
                      (CandidatePipeline.job_id d)
                      (CandidatePipeline.candidate_id d)
                      stage
                      (CandidatePipeline.stage_history p ++
                       [StageEntry.mk stage now ("Automated update: " +:+ stage)])
                      (CandidatePipeline.next_action d)
                      (CandidatePipeline.next_action_date d)
                      (Some now))
                   (candidate_pipeline db)) db
          | None =>
              match ObjectId application_id with
              | Some _ =>
                  with_docs c_candidate_pipeline
                    (candidate_pipeline db ++
                     [initial_pipeline now application_id stage
                        (find_application application_id db)]) db
              | None => db
              end
          end
     else db).
Proof.
  unfold InterviewService._update_candidate_pipeline, try_except, bind at 1.
  rewrite db_find_pipeline.
  destruct (client db) eqn:Hc.
  - destruct (find_pipeline application_id db) as [p|] eqn:Hp.
    + unfold bind. by rewrite db_update_one_online.
    + unfold bind at 1, new_ObjectId, find_application. rewrite Hc.
      destruct (ObjectId application_id) as [i|]; simpl; [|done].
      unfold bind. rewrite db_find_one_eq, Hc.
      change (docs c_applications db) with (applications db).
      destruct (List.find _ (applications db));
        rewrite db_insert_one_online by done; simpl; by rewrite Hc.
  - unfold find_pipeline. rewrite Hc.
    unfold bind at 1, new_ObjectId.
    destruct (ObjectId application_id) as [i|]; simpl; [|done].
    unfold bind. rewrite db_find_one_eq, Hc.
    by rewrite db_insert_one_offline.
Qed.

(** X14.  When the application has no pipeline, the interview service creates
    one at the given stage with a single history entry, taking job and
    candidate from the application if it exists; lookups then find it, and
    no other collection changes. *)
Theorem interview_update_creates_missing_pipeline now application_id stage db :
  client db = true ->
  find_pipeline application_id db = None ->
  is_Some (ObjectId application_id) ->
  exists db',
    InterviewService._update_candidate_pipeline now application_id stage db
    = (Return tt, db')
    /\ candidate_pipeline db'
       = candidate_pipeline db ++
         [initial_pipeline now application_id stage
            (find_application application_id db)]
    /\ find_pipeline application_id db'
       = Some (initial_pipeline now application_id stage
                 (find_application application_id db))
    /\ applications db' = applications db
    /\ same_side_collections db db'.
Proof.
  intros Hc Hp [i Hi]. rewrite interview_update_eq, Hc, Hp, Hi.
  eexists. split; [done|]. simpl. split; [done|]. split; [|by repeat split].
  unfold find_pipeline in *. simpl. rewrite Hc in *.
  rewrite find_app_r by done. simpl. by rewrite bool_decide_eq_true_2.
Qed.

Lemma set_first_none {A} (q : A -> bool) (f : A -> A) l :
  List.find q l = None -> DatabaseRepository.set_first q f l = l.
Proof.
  induction l as [|x l IH]; simpl; [done|].
  destruct (q x); [done|]. intros Hf. by rewrite IH.
Qed.

Lemma set_first_fmap {A B} (g : A -> B) (q : A -> bool) (f : A -> A) l :
  (forall d, g (f d) = g d) ->
  g <$> DatabaseRepository.set_first q f l = g <$> l.
Proof.
  intros Hg. induction l as [|x l IH]; [done|].
  cbn [DatabaseRepository.set_first].
  destruct (q x); rewrite !fmap_cons; [by rewrite Hg | by rewrite IH].
Qed.

(** X15.  The offer service's pipeline write never raises, never changes a
    stage history or adds a pipeline, changes nothing at all when the
    application has no pipeline, and touches no other collection. *)
Theorem offer_update_never_writes_history now application_id stage db :
  exists db',
    OfferService._update_candidate_pipeline now application_id stage db
    = (Return tt, db')
    /\ CandidatePipeline.stage_history <$> candidate_pipeline db'
       = CandidatePipeline.stage_history <$> candidate_pipeline db
    /\ CandidatePipeline.application_id <$> candidate_pipeline db'
       = CandidatePipeline.application_id <$> candidate_pipeline db
    /\ (find_pipeline application_id db = None -> db' = db)
    /\ applications db' = applications db
    /\ same_side_collections db db'.
Proof.
  unfold OfferService._update_candidate_pipeline, try_except, bind.
  destruct (client db) eqn:Hc.
  - rewrite db_update_one_online by done. eexists. split; [done|]. simpl.
    split; [by apply set_first_fmap|]. split; [by apply set_first_fmap|].
    split; [|by repeat split].
    unfold find_pipeline. rewrite Hc. intros Hf.
    rewrite set_first_none by done. destruct db; simpl in *. by rewrite Hc.
  - rewrite db_update_one_offline by done. eexists. split; [done|].
    by repeat split.
Qed.

Lemma interview_update_interviews now application_id stage db :
  interviews (snd (InterviewService._update_candidate_pipeline now
                     application_id stage db)) = interviews db
  /\ client (snd (InterviewService._update_candidate_pipeline now
                    application_id stage db)) = client db.
Proof.
  rewrite interview_update_eq. simpl.
  destruct (client db) eqn:Hc; [|done].
  destruct (find_pipeline application_id db); [done|].
  by destruct (ObjectId application_id).
Qed.

Lemma schedule_interview_inserts now application_id job_id candidate_id hr_id
    interview_type t d db :
  client db = true ->
  client (snd (InterviewService.schedule_interview now application_id job_id
                 candidate_id hr_id interview_type t d db)) = true
  /\ interviews (snd (InterviewService.schedule_interview now application_id
                        job_id candidate_id hr_id interview_type t d db))
     = interviews db ++
       [Interview.mk application_id job_id candidate_id hr_id interview_type
          t d "Scheduled"].
Proof.
  intros Hc.
  destruct (InterviewService.schedule_interview now application_id job_id
              candidate_id hr_id interview_type t d db) as [r db'] eqn:E.
  simpl. revert E.
  unfold InterviewService.schedule_interview, try_except, bind at 1.
  rewrite db_insert_one_online by done.
  unfold bind at 1, new_ObjectId.
  destruct (ObjectId application_id) as [i|]; simpl; [|by intros [= <- <-]].
  unfold bind at 1. rewrite db_update_one_online by done.
  set (db2 := with_docs c_applications _ _).
  destruct (interview_update_interviews now application_id
              "Interview Scheduled" db2) as [Hi Hcl].
  unfold bind.
  destruct (InterviewService._update_candidate_pipeline now application_id
              "Interview Scheduled" db2) as [[[]|msg] db3]; simpl in *;
    intros [= <- <-]; rewrite Hi, Hcl; by split.
Qed.

(** X13.  [schedule_interview] with the store online adds an interview of
    the HR at the booked time with status Scheduled; and whatever else has
    happened to a store since, as long as it holds an interview of the HR
    at that time with status Scheduled or In Progress, no slot search for
    that HR returns that time.  The statement depends on the status: an
    interview whose status has become another value, such as Cancelled, is
    not covered. *)
Theorem booked_slot_is_not_offered_again now application_id job_id candidate_id
    hr_id interview_type t d db :
  client db = true ->
  (client (snd (InterviewService.schedule_interview now application_id job_id
                  candidate_id hr_id interview_type t d db)) = true
   /\ Interview.mk application_id job_id candidate_id hr_id interview_type
        t d "Scheduled"
      ∈ interviews (snd (InterviewService.schedule_interview now application_id
                           job_id candidate_id hr_id interview_type t d db)))
  /\ forall db' i,
       client db' = true ->
       i ∈ interviews db' ->
       Interview.hr_id i = hr_id ->
       Interview.status i = "Scheduled" \/ Interview.status i = "In Progress" ->
       Interview.scheduled_datetime i = t ->
       forall now' preferred_days,
         fst (_find_next_available_slot now' hr_id preferred_days db')
         <> Return (Some t).
Proof.
  intros Hc.
  destruct (schedule_interview_inserts now application_id job_id candidate_id
              hr_id interview_type t d db Hc) as [Hc' Hi].
  split.
  { split; [exact Hc'|]. rewrite Hi. apply elem_of_app. right.
    by apply list_elem_of_singleton. }
  intros db' i Hcl Hin Hhr Hst Ht now' preferred_days.
  rewrite find_next_available_slot_eq. simpl. intros [= Hf].
  apply find_some in Hf as [_ Hfree].
  assert (Htk : has_conflict hr_id db' t = true).
  { apply has_conflict_taken; [done|]. exists i. split; [done|].
    unfold code_conflict. split; [done|]. split; [done|].
    rewrite Ht. unfold timedelta_minutes, us_per_minute. lia. }
  by rewrite Htk in Hfree.
Qed.

(** X16.  Without a database connection the workflow and the pipeline writers
    answer without touching the store: initiating and advancing return
    [False], the two [_update_candidate_pipeline] return, the conflict
    check answers [False], and [schedule_interview] raises. *)
Theorem offline_store_is_left_alone now application_id new_stage notes
    auto_schedule stage job_id candidate_id hr_id interview_type t d db :
  client db = false ->
  initiate_hiring_workflow now application_id db = (Return false, db)
  /\ advance_candidate_stage now application_id new_stage notes auto_schedule db
     = (Return false, db)
  /\ InterviewService._update_candidate_pipeline now application_id stage db
     = (Return tt, db)
  /\ OfferService._update_candidate_pipeline now application_id stage db
     = (Return tt, db)
  /\ InterviewService.schedule_interview now application_id job_id
       candidate_id hr_id interview_type t d db
     = (Raise "Database connection not available", db)
  /\ InterviewService.check_interview_conflicts hr_id t d db = (Return false, db).
Proof.
  intros Hc.
  split.
  { rewrite initiate_eq. unfold find_application. by rewrite Hc. }
  split.
  { unfold advance_candidate_stage, try_except, bind.
    rewrite db_find_pipeline. unfold find_pipeline. by rewrite Hc. }
  split; [by rewrite interview_update_eq, Hc|].
  split.
  { unfold OfferService._update_candidate_pipeline, try_except, bind.
    by rewrite db_update_one_offline. }
  split.
  { unfold InterviewService.schedule_interview, try_except, bind.
    by rewrite db_insert_one_offline. }
  unfold InterviewService.check_interview_conflicts, try_except, bind.
  by rewrite db_find_many_eq, Hc.
Qed.

(** *** The writers of the pipeline record *)

(** C2, as amended.  [initiate_hiring_workflow] creates the pipeline: when
    it finds the application it returns [True] and appends a record at
    Applied, and this is its only write to the pipelines; when it does not
    find it the store is unchanged.  [advance_candidate_stage] itself
    writes only the seven stage values: when every pipeline is at one of
    them, it still is after [initiate_hiring_workflow], and after
    [advance_candidate_stage] when [auto_schedule] is false or the requested
    stage is not Interview.  The stage-transition operation is not the only
    writer of the record: for an application that has a pipeline,
    [InterviewService._update_candidate_pipeline] sets the current stage to
    the string it is given and appends a history entry, and
    [OfferService._update_candidate_pipeline] sets the current stage to the
    string it is given. *)
Theorem pipeline_writers now application_id new_stage notes auto_schedule
    stage db :
  (forall a,
     find_application application_id db = Some a ->
     exists db',
       initiate_hiring_workflow now application_id db = (Return true, db')
       /\ candidate_pipeline db'
          = candidate_pipeline db ++ [applied_pipeline now application_id a]
       /\ CandidatePipeline.current_stage
            (applied_pipeline now application_id a) = "Applied")
  /\ (find_application application_id db = None ->
      initiate_hiring_workflow now application_id db = (Return false, db))
  /\ (stages_valid db ->
      stages_valid (snd (initiate_hiring_workflow now application_id db)))
  /\ (stages_valid db ->
      auto_schedule = false \/ new_stage <> "Interview" ->
      stages_valid
        (snd (advance_candidate_stage now application_id new_stage notes
                auto_schedule db)))
  /\ (forall p,
        find_pipeline application_id db = Some p ->
        find_pipeline application_id
          (snd (InterviewService._update_candidate_pipeline now application_id
                  stage db))
        = Some (CandidatePipeline.mk
                  (CandidatePipeline.application_id p)
                  (CandidatePipeline.job_id p)
                  (CandidatePipeline.candidate_id p)
                  stage
                  (CandidatePipeline.stage_history p ++
                   [StageEntry.mk stage now ("Automated update: " +:+ stage)])
                  (CandidatePipeline.next_action p)
                  (CandidatePipeline.next_action_date p)
                  (Some now))
        /\ find_pipeline application_id
             (snd (OfferService._update_candidate_pipeline now application_id
                     stage db))
           = Some (CandidatePipeline.mk
                     (CandidatePipeline.application_id p)
                     (CandidatePipeline.job_id p)
                     (CandidatePipeline.candidate_id p)
                     stage
                     (CandidatePipeline.stage_history p)
                     (CandidatePipeline.next_action p)
                     (CandidatePipeline.next_action_date p)
                     (Some now))).
Proof.
  split.
  { intros a Ha. rewrite initiate_eq, Ha. eexists. split; [done|]. by split. }
  split; [intros Ha; by rewrite initiate_eq, Ha|].
  split; [apply initiate_keeps_stages_valid|].
  split; [apply advance_keeps_stages_valid|].
  intros p Hp. split; [|by apply offer_update_found].
  destruct (interview_update_found now application_id stage db p Hp)
    as (db' & -> & _ & Hf).
  exact Hf.
Qed.

End WorkflowFurther.

(** ** The pipeline overview and the repository *)

Section OverviewProperties.
Context `{PyFloat}.
Import WorkflowService.

Lemma sum_counts_empty : sum_counts ∅ = 0.
Proof. unfold sum_counts. apply map_fold_empty. Qed.

Lemma sum_counts_insert_fresh (m : gmap string Z) k c :
  m !! k = None -> sum_counts (<[k := c]> m) = c + sum_counts m.
Proof.
  intros Hk. unfold sum_counts.
  apply (map_fold_insert_L (fun _ count acc => count + acc)); [|done].
  intros. lia.
Qed.

Lemma sum_counts_bump (m : gmap string Z) k :
  sum_counts (<[k := default 0 (m !! k) + 1]> m) = sum_counts m + 1.
Proof.
  destruct (m !! k) as [c|] eqn:Hk; simpl.
  - rewrite <- (insert_delete_eq m k (c + 1)).
    rewrite sum_counts_insert_fresh by apply lookup_delete_eq.
    rewrite <- (insert_id m k c Hk) at 2.
    rewrite <- (insert_delete_eq m k c).
    rewrite sum_counts_insert_fresh by apply lookup_delete_eq. lia.
  - rewrite sum_counts_insert_fresh by done. lia.
Qed.

Lemma count_stages_total pipelines (stage_counts : gmap string Z) total m n :
  count_stages pipelines stage_counts total = Return (m, n) ->
  total = sum_counts stage_counts -> n = sum_counts m.
Proof.
  revert stage_counts total.
  induction pipelines as [|x rest IH|msg]; intros stage_counts total; simpl.
  - by intros [= <- <-].
  - destruct x as [[|s|]|]; try done; intros Hc Ht;
      (eapply IH; [exact Hc|]); try done; rewrite sum_counts_bump; lia.
  - done.
Qed.

Lemma rates_lookup (stage_counts : gmap string Z) total stage :
  rates stage_counts total !! stage
  = (fun count => mul_int (truediv count total) 100) <$> stage_counts !! stage.
Proof.
  unfold rates.
  apply (map_fold_weak_ind
    (fun acc (m : gmap string Z) =>
       acc !! stage = (fun count => mul_int (truediv count total) 100) <$> m !! stage)).
  - by rewrite !lookup_empty.
  - intros i x m r Hi IH.
    destruct (decide (i = stage)) as [->|Hne].
    + by rewrite !lookup_insert_eq.
    + by rewrite !lookup_insert_ne.
Qed.

(** C10.  For every result of the store, the overview's
    [total_candidates] is the sum of the counts of [by_stage]; whenever it
    is positive, [conversion_rates] maps each stage of [by_stage] to
    [(count / total_candidates) * 100] and has no other key; and when the
    loop raises, the overview is exactly the empty one. *)
Theorem pipeline_overview_consistent (pipelines : cursor) :
  let o := get_pipeline_overview pipelines in
  total_candidates o = sum_counts (by_stage o)
  /\ (total_candidates o > 0 ->
      forall stage,
        conversion_rates o !! stage
        = (fun count => mul_int (truediv count (total_candidates o)) 100)
            <$> by_stage o !! stage)
  /\ (raised (count_stages pipelines ∅ 0) = true -> o = empty_overview).
Proof.
  unfold get_pipeline_overview.
  destruct (count_stages pipelines ∅ 0) as [[m n]|msg] eqn:E; simpl.
  - split; [|split; [|done]].
    + eapply count_stages_total; [exact E|]. by rewrite sum_counts_empty.
    + intros Hpos stage. rewrite bool_decide_eq_true_2 by done.
      apply rates_lookup.
  - split; [by rewrite sum_counts_empty|]. split; [lia | done].
Qed.
End OverviewProperties.

(** ** The overview read from the store *)

Section OverviewFurther.
Context `{Bson} `{PyFloat}.
Import WorkflowService.

Lemma filter_true {A} (l : list A) : List.filter (fun _ => true) l = l.
Proof. induction l as [|x l IH]; simpl; [done|]. by rewrite IH. Qed.

Lemma count_stages_tally (ps : list CandidatePipeline.t)
    (stage_counts : gmap string Z) (total : Z) :
  (forall s v, stage_counts !! s = Some v -> 0 < v) ->
  exists m,
    count_stages
      (cursor_of_list
         (List.map (fun p => Dict (Str (CandidatePipeline.current_stage p))) ps))
      stage_counts total
    = Return (m, total + Z.of_nat (length ps))
    /\ (forall s v, m !! s = Some v -> 0 < v)
    /\ (forall s, default 0 (m !! s)
                  = default 0 (stage_counts !! s) + pipelines_at s ps).
Proof.
  revert stage_counts total.
  induction ps as [|p ps IH]; intros stage_counts total Hpos; simpl.
  - exists stage_counts. split; [f_equal; f_equal; lia|]. split; [done|].
    intros s. unfold pipelines_at. simpl. lia.
  - set (k := CandidatePipeline.current_stage p).
    destruct (IH (<[k := default 0 (stage_counts !! k) + 1]> stage_counts)
                (total + 1)) as (m & -> & Hm & Hs).
    { intros s v. destruct (decide (k = s)) as [<-|Hne].
      - rewrite lookup_insert_eq. intros [= <-].
        destruct (stage_counts !! k) as [v|] eqn:Ek; simpl; [|lia].
        specialize (Hpos k v Ek). lia.
      - rewrite lookup_insert_ne by done. apply Hpos. }
    exists m. split; [f_equal; f_equal; lia|]. split; [done|].
    intros s. rewrite Hs. unfold pipelines_at. simpl.
    destruct (decide (k = s)) as [<-|Hne].
    + rewrite lookup_insert_eq, bool_decide_eq_true_2 by done. simpl. lia.
    + rewrite lookup_insert_ne by done.
      rewrite bool_decide_eq_false_2 by done. lia.
Qed.

(** X17.  The overview read from the store counts what is there: the total is
    the number of pipelines of the job (of all jobs when no job is given),
    and a stage is listed in [by_stage] exactly when some pipeline is at
    it, with the number of those pipelines. *)
Theorem overview_counts_pipelines_per_stage (job_id : option string) db :
  exists o,
    get_pipeline_overview_db job_id db = (Return o, db)
    /\ total_candidates o = Z.of_nat (length (counted_pipelines job_id db))
    /\ forall stage,
         by_stage o !! stage
         = if bool_decide (pipelines_at stage (counted_pipelines job_id db) = 0)
           then None
           else Some (pipelines_at stage (counted_pipelines job_id db)).
Proof.
  unfold get_pipeline_overview_db, bind, db_find_many,
    DatabaseRepository.find_many, getattr.
  set (query := match job_id with
                | Some j => if bool_decide (j = EmptyString) then fun _ => true
                            else fun p => bool_decide (CandidatePipeline.job_id p = j)
                | None => fun _ => true end).
  assert (Hsel : (if client db then List.filter query (candidate_pipeline db) else [])
                 = counted_pipelines job_id db).
  { unfold counted_pipelines, query. destruct (client db); [|done].
    destruct job_id as [j|]; [|apply filter_true].
    case_bool_decide; [apply filter_true | done]. }
  assert (Hfm : (if negb (client db) then Return []
                 else match (if client db then Some (docs c_candidate_pipeline db)
                             else None) with
                      | Some docs => Return (List.filter query docs)
                      | None => Return []
                      end)
                = Return (counted_pipelines job_id db)).
  { rewrite <- Hsel. by destruct (client db). }
  rewrite Hfm. simpl.
  destruct (count_stages_tally (counted_pipelines job_id db) ∅ 0)
    as (m & Hm & Hpos & Hs).
  { intros s v. by rewrite lookup_empty. }
  unfold get_pipeline_overview. rewrite Hm. eexists. split; [done|]. simpl.
  split; [lia|]. intros stage. specialize (Hs stage).
  rewrite lookup_empty in Hs. simpl in Hs.
  destruct (m !! stage) as [v|] eqn:Ev; simpl in Hs.
  - specialize (Hpos stage v Ev). rewrite bool_decide_eq_false_2 by lia.
    f_equal. lia.
  - by rewrite bool_decide_eq_true_2 by lia.
Qed.
End OverviewFurther.

Section RepositoryProperties.
Context {A : Type} `{EqDecision A}.

(** C8, as amended.  With the connection unavailable, [find_one] returns
    [None], [find_many] returns the empty list and [update_one] returns
    [False], for every collection, query and update; [insert_one] raises
    "Database connection not available". *)
Theorem repository_offline (collection_obj : option (list A))
    (collection : string) (document : A) (query : A -> bool) (update : A -> A) :
  DatabaseRepository.find_one false collection_obj query = Return None
  /\ DatabaseRepository.find_many false collection_obj query = Return []
  /\ DatabaseRepository.update_one false collection_obj query update
     = Return (false, collection_obj)
  /\ DatabaseRepository.insert_one false collection_obj collection document
     = Raise "Database connection not available".
Proof. done. Qed.
End RepositoryProperties.

(** ** The signaling relay *)

Import VideoService.

Section RelayProperties.

Lemma relay_of_eq st st' :
  relay_of st' = relay_of st ->
  hr_sockets st' = hr_sockets st /\ user_sockets st' = user_sockets st
  /\ pending_offers st' = pending_offers st
  /\ pending_answers st' = pending_answers st
  /\ pending_ice st' = pending_ice st
  /\ pending_ice_hr st' = pending_ice_hr st
  /\ gone st' = gone st.
Proof. unfold relay_of. by intros [= -> -> -> -> -> -> ->]. Qed.

Lemma relay_of_eq' st hr us po pa pi pih g :
  relay_of st = (hr, us, po, pa, pi, pih, g) ->
  hr_sockets st = hr /\ user_sockets st = us /\ pending_offers st = po
  /\ pending_answers st = pa /\ pending_ice st = pi
  /\ pending_ice_hr st = pih /\ gone st = g.
Proof. unfold relay_of. by intros [= -> -> -> -> -> -> ->]. Qed.

Lemma try_send_relay ws f st : relay_of (try_send ws f st) = relay_of st.
Proof. unfold try_send, send. by case_bool_decide. Qed.

Lemma try_send_sent ws f st :
  sent (try_send ws f st) = sent st ++ deliverable st ws [f].
Proof.
  unfold try_send, send, deliverable. case_bool_decide; simpl; [|done].
  by rewrite app_nil_r.
Qed.

Lemma send_buffered_ice_relay ws buffered st :
  relay_of (send_buffered_ice ws buffered st) = relay_of st.
Proof.
  revert st. induction buffered as [|c rest IH]; intros st; simpl; [done|].
  by rewrite IH, try_send_relay.
Qed.

Lemma deliverable_relay st st' ws fs :
  relay_of st' = relay_of st -> deliverable st' ws fs = deliverable st ws fs.
Proof.
  intros Hr. unfold deliverable.
  by destruct (relay_of_eq _ _ Hr) as (_ & _ & _ & _ & _ & _ & ->).
Qed.

Lemma deliverable_cons st ws f fs :
  deliverable st ws (f :: fs) = deliverable st ws [f] ++ deliverable st ws fs.
Proof. unfold deliverable. by case_bool_decide. Qed.

Lemma send_buffered_ice_sent ws buffered st :
  sent (send_buffered_ice ws buffered st)
  = sent st ++ deliverable st ws (ice_frame <$> buffered).
Proof.
  revert st. induction buffered as [|c rest IH]; intros st; simpl.
  - unfold deliverable. case_bool_decide; by rewrite app_nil_r.
  - rewrite IH, try_send_sent, <- app_assoc. f_equal.
    rewrite (deliverable_relay st (try_send ws (ice_frame c) st))
      by apply try_send_relay.
    symmetry. apply deliverable_cons.
Qed.

Lemma user_connect_sent ws app_id st :
  sent (user_connect ws app_id st)
  = sent st
    ++ deliverable st ws
         (match pending_offers st !! app_id with
          | Some offer => [offer_frame offer]
          | None => []
          end)
    ++ deliverable st ws (ice_frame <$> default [] (pending_ice st !! app_id))
    ++ notice st (hr_sockets st !! app_id) user_online.
Proof.
  unfold user_connect.
  set (st1 := set_user_sockets _ st).
  assert (Hs1 : sent st1 = sent st) by done.
  assert (Hd1 : forall s fs, deliverable st1 s fs = deliverable st s fs) by done.
  change (pending_offers st1) with (pending_offers st).
  set (st2 := match pending_offers st !! app_id with
              | Some offer => _ | None => st1 end).
  assert (Hr2 : pending_ice st2 = pending_ice st /\ hr_sockets st2 = hr_sockets st
                /\ gone st2 = gone st).
  { subst st2. destruct (pending_offers st !! app_id); [|done].
    simpl. by destruct (relay_of_eq _ _ (try_send_relay ws (offer_frame p) st1))
      as (-> & _ & _ & _ & -> & _ & ->). }
  destruct Hr2 as (Hi2 & Hh2 & Hg2).
  assert (Hd2 : forall s fs, deliverable st2 s fs = deliverable st s fs).
  { intros. unfold deliverable. by rewrite Hg2. }
  assert (Hs2 : sent st2 = sent st ++ deliverable st ws
            (match pending_offers st !! app_id with
             | Some offer => [offer_frame offer] | None => [] end)).
  { subst st2. destruct (pending_offers st !! app_id).
    - simpl. by rewrite try_send_sent, Hs1, Hd1.
    - rewrite Hs1. unfold deliverable. case_bool_decide; by rewrite app_nil_r. }
  rewrite Hi2.
  set (st3 := match pending_ice st !! app_id with
              | Some buffered => _ | None => st2 end).
  assert (Hr3 : relay_of st3 = relay_of st2).
  { subst st3. destruct (pending_ice st !! app_id); [|done].
    apply send_buffered_ice_relay. }
  assert (Hs3 : sent st3 = sent st2 ++ deliverable st ws
                  (ice_frame <$> default [] (pending_ice st !! app_id))).
  { subst st3. destruct (pending_ice st !! app_id); simpl.
    - by rewrite send_buffered_ice_sent, Hd2.
    - unfold deliverable. case_bool_decide; by rewrite app_nil_r. }
  assert (Hh3 : hr_sockets st3 = hr_sockets st).
  { destruct (relay_of_eq _ _ Hr3) as (-> & _). exact Hh2. }
  rewrite Hh3. unfold notice.
  destruct (hr_sockets st !! app_id) as [hr|].
  - rewrite try_send_sent, Hs3, Hs2, (deliverable_relay st2 st3) by done.
    rewrite Hd2. by rewrite <- !app_assoc.
  - rewrite Hs3, Hs2, app_nil_r. by rewrite <- !app_assoc.
Qed.

Lemma hr_connect_sent ws app_id st :
  sent (hr_connect ws app_id st)
  = sent st
    ++ notice st (user_sockets st !! app_id) hr_online
    ++ deliverable st ws (ice_frame <$> default [] (pending_ice_hr st !! app_id)).
Proof.
  unfold hr_connect.
  set (st1 := set_hr_sockets _ st).
  assert (Hs1 : sent st1 = sent st) by done.
  assert (Hd1 : forall s fs, deliverable st1 s fs = deliverable st s fs) by done.
  change (user_sockets st1) with (user_sockets st).
  set (st2 := match user_sockets st !! app_id with
              | Some user => _ | None => st1 end).
  assert (Hr2 : relay_of st2 = relay_of st1).
  { subst st2. destruct (user_sockets st !! app_id); [|done].
    apply try_send_relay. }
  assert (Hs2 : sent st2 = sent st ++ notice st (user_sockets st !! app_id) hr_online).
  { subst st2. unfold notice. destruct (user_sockets st !! app_id).
    - by rewrite try_send_sent, Hs1, Hd1.
    - by rewrite Hs1, app_nil_r. }
  assert (Hi2 : pending_ice_hr st2 = pending_ice_hr st).
  { by destruct (relay_of_eq _ _ Hr2) as (_ & _ & _ & _ & _ & -> & _). }
  rewrite Hi2.
  destruct (pending_ice_hr st !! app_id); simpl.
  - rewrite send_buffered_ice_sent, Hs2, (deliverable_relay st1 st2), Hd1 by done.
    by rewrite <- app_assoc.
  - rewrite Hs2. replace (deliverable st ws []) with (@nil (socket * frame)).
    + by rewrite app_nil_r.
    + unfold deliverable. by case_bool_decide.
Qed.


Lemma user_connect_relay ws app_id st :
  relay_of (user_connect ws app_id st)
  = (hr_sockets st, <[app_id := ws]> (user_sockets st),
     delete app_id (pending_offers st), pending_answers st, pending_ice st,
     pending_ice_hr st, gone st).
Proof.
  unfold user_connect.
  set (st1 := set_user_sockets _ st).
  change (pending_offers st1) with (pending_offers st).
  set (st2 := match pending_offers st !! app_id with
              | Some offer => _ | None => st1 end).
  assert (Hr2 : relay_of st2
                = (hr_sockets st, <[app_id := ws]> (user_sockets st),
                   delete app_id (pending_offers st), pending_answers st,
                   pending_ice st, pending_ice_hr st, gone st)).
  { subst st2. destruct (pending_offers st !! app_id) as [o|] eqn:Ho.
    - destruct (relay_of_eq _ _ (try_send_relay ws (offer_frame o) st1))
        as (E1 & E2 & E3 & E4 & E5 & E6 & E7).
      unfold relay_of, set_pending_offers. simpl.
      by rewrite E1, E2, E3, E4, E5, E6, E7.
    - unfold relay_of. simpl. by rewrite delete_id. }
  set (st3 := match pending_ice st2 !! app_id with
              | Some buffered => _ | None => st2 end).
  assert (Hr3 : relay_of st3 = relay_of st2).
  { subst st3. destruct (pending_ice st2 !! app_id); [|done].
    apply send_buffered_ice_relay. }
  rewrite <- Hr2, <- Hr3.
  destruct (hr_sockets st3 !! app_id); [apply try_send_relay | done].
Qed.

Lemma hr_connect_relay ws app_id st :
  relay_of (hr_connect ws app_id st)
  = (<[app_id := ws]> (hr_sockets st), user_sockets st, pending_offers st,
     pending_answers st, pending_ice st, pending_ice_hr st, gone st).
Proof.
  unfold hr_connect.
  set (st1 := set_hr_sockets _ st).
  set (st2 := match user_sockets st1 !! app_id with
              | Some user => _ | None => st1 end).
  assert (Hr2 : relay_of st2 = relay_of st1).
  { subst st2. destruct (user_sockets st1 !! app_id); [|done].
    apply try_send_relay. }
  change (relay_of st1) with
    (<[app_id := ws]> (hr_sockets st), user_sockets st, pending_offers st,
     pending_answers st, pending_ice st, pending_ice_hr st, gone st) in Hr2.
  rewrite <- Hr2.
  destruct (pending_ice_hr st2 !! app_id); [apply send_buffered_ice_relay | done].
Qed.

Lemma setdefault_append_lookup app_id a c (d : gmap string (list payload)) :
  default [] (setdefault_append a c d !! app_id)
  = default [] (d !! app_id) ++ (if bool_decide (a = app_id) then [c] else []).
Proof.
  unfold setdefault_append. case_bool_decide as Ha.
  - subst a. by rewrite lookup_insert_eq.
  - rewrite lookup_insert_ne by done. by rewrite app_nil_r.
Qed.

Lemma send_relay ws f st : relay_of (send ws f st).2 = relay_of st.
Proof. apply try_send_relay. Qed.

Lemma hr_receive_pending_ice a msg st app_id :
  default [] (pending_ice (hr_receive a msg st).2 !! app_id)
  = default [] (pending_ice st !! app_id)
    ++ match msg with
       | Ice c => if bool_decide (a = app_id) then [c] else []
       | _ => []
       end.
Proof.
  destruct msg; cbn -[try_send send setdefault_append]; rewrite ?app_nil_r;
    try done.
  - destruct (user_sockets st !! a) as [u|]; [|done].
    pose proof (send_relay u (offer_frame offer) st) as Hr.
    destruct (send u (offer_frame offer) st) as [[] st']; simpl in *;
      by destruct (relay_of_eq _ _ Hr) as (_&_&_&_&->&_).
  - destruct (user_sockets st !! a) as [u|]; cbn -[try_send setdefault_append].
    + destruct (relay_of_eq _ _ (try_send_relay u (ice_frame ice)
           (set_pending_ice (setdefault_append a ice) st))) as (_&_&_&_&->&_).
      apply setdefault_append_lookup.
    + apply setdefault_append_lookup.
Qed.

Lemma user_receive_pending_ice a msg st :
  pending_ice (user_receive a msg st).2 = pending_ice st.
Proof.
  destruct msg; cbn -[try_send send setdefault_append]; try done.
  - destruct (hr_sockets st !! a) as [h|]; [|done].
    pose proof (send_relay h (answer_frame answer) st) as Hr.
    destruct (send h (answer_frame answer) st) as [[] st']; simpl in *;
      by destruct (relay_of_eq _ _ Hr) as (_&_&_&_&->&_).
  - destruct (hr_sockets st !! a) as [h|]; cbn -[try_send setdefault_append];
      [|done].
    by destruct (relay_of_eq _ _ (try_send_relay h (ice_frame ice)
         (set_pending_ice_hr (setdefault_append a ice) st))) as (_&_&_&_&->&_).
Qed.

Lemma user_receive_pending_ice_hr a msg st app_id :
  default [] (pending_ice_hr (user_receive a msg st).2 !! app_id)
  = default [] (pending_ice_hr st !! app_id)
    ++ match msg with
       | Ice c => if bool_decide (a = app_id) then [c] else []
       | _ => []
       end.
Proof.
  destruct msg; cbn -[try_send send setdefault_append]; rewrite ?app_nil_r;
    try done.
  - destruct (hr_sockets st !! a) as [h|]; [|done].
    pose proof (send_relay h (answer_frame answer) st) as Hr.
    destruct (send h (answer_frame answer) st) as [[] st']; simpl in *;
      by destruct (relay_of_eq _ _ Hr) as (_&_&_&_&_&->&_).
  - destruct (hr_sockets st !! a) as [h|]; cbn -[try_send setdefault_append].
    + destruct (relay_of_eq _ _ (try_send_relay h (ice_frame ice)
           (set_pending_ice_hr (setdefault_append a ice) st))) as (_&_&_&_&_&->&_).
      apply setdefault_append_lookup.
    + apply setdefault_append_lookup.
Qed.

Lemma hr_receive_pending_ice_hr a msg st :
  pending_ice_hr (hr_receive a msg st).2 = pending_ice_hr st.
Proof.
  destruct msg; cbn -[try_send send setdefault_append]; try done.
  - destruct (user_sockets st !! a) as [u|]; [|done].
    pose proof (send_relay u (offer_frame offer) st) as Hr.
    destruct (send u (offer_frame offer) st) as [[] st']; simpl in *;
      by destruct (relay_of_eq _ _ Hr) as (_&_&_&_&_&->&_).
  - destruct (user_sockets st !! a) as [u|]; cbn -[try_send setdefault_append];
      [|done].
    by destruct (relay_of_eq _ _ (try_send_relay u (ice_frame ice)
         (set_pending_ice (setdefault_append a ice) st))) as (_&_&_&_&_&->&_).
Qed.

Lemma step_pending_ice st e app_id :
  default [] (pending_ice (step st e) !! app_id)
  = default [] (pending_ice st !! app_id) ++ ice_from_hr app_id [e].
Proof.
  destruct e as [ws a|a msg|ws a|a msg|ws|ws]; cbn [step].
  - destruct (relay_of_eq' _ _ _ _ _ _ _ _ (hr_connect_relay ws a st)) as (_&_&_&_&->&_).
    by rewrite app_nil_r.
  - rewrite hr_receive_pending_ice. f_equal.
    destruct msg; try done. simpl. by case_bool_decide.
  - destruct (relay_of_eq' _ _ _ _ _ _ _ _ (user_connect_relay ws a st)) as (_&_&_&_&->&_).
    by rewrite app_nil_r.
  - rewrite user_receive_pending_ice. by rewrite app_nil_r.
  - rewrite app_nil_r.
    by destruct (relay_of_eq _ _ (try_send_relay ws ping_frame st)) as (_&_&_&_&->&_).
  - by rewrite app_nil_r.
Qed.

Lemma step_pending_ice_hr st e app_id :
  default [] (pending_ice_hr (step st e) !! app_id)
  = default [] (pending_ice_hr st !! app_id) ++ ice_from_user app_id [e].
Proof.
  destruct e as [ws a|a msg|ws a|a msg|ws|ws]; cbn [step].
  - destruct (relay_of_eq' _ _ _ _ _ _ _ _ (hr_connect_relay ws a st)) as (_&_&_&_&_&->&_).
    by rewrite app_nil_r.
  - rewrite hr_receive_pending_ice_hr. by rewrite app_nil_r.
  - destruct (relay_of_eq' _ _ _ _ _ _ _ _ (user_connect_relay ws a st)) as (_&_&_&_&_&->&_).
    by rewrite app_nil_r.
  - rewrite user_receive_pending_ice_hr. f_equal.
    destruct msg; try done. simpl. by case_bool_decide.
  - rewrite app_nil_r.
    by destruct (relay_of_eq _ _ (try_send_relay ws ping_frame st)) as (_&_&_&_&_&->&_).
  - by rewrite app_nil_r.
Qed.

Lemma run_snoc st trace e : run st (trace ++ [e]) = step (run st trace) e.
Proof. unfold run. by rewrite foldl_app. Qed.

Lemma pending_ice_is_history trace app_id :
  default [] (pending_ice (run init trace) !! app_id) = ice_from_hr app_id trace
  /\ default [] (pending_ice_hr (run init trace) !! app_id)
     = ice_from_user app_id trace.
Proof.
  induction trace as [|e trace [IH1 IH2]] using rev_ind; [done|].
  rewrite run_snoc, step_pending_ice, step_pending_ice_hr, IH1, IH2.
  unfold ice_from_hr, ice_from_user. by rewrite !omap_app.
Qed.

(** C6.  After any history of the relay, when a socket that can be sent
    to connects as the candidate (resp. as the HR) for an application, it
    is sent every ICE candidate the relay received from the HR side (resp.
    the candidate side) for that application, each once and in the order
    of reception, between the pending offer, if any, and the notice to the
    peer (resp. after the notice to the peer). *)
Theorem buffered_ice_delivered_in_order trace ws app_id :
  ws ∉ gone (run init trace) ->
  sent (user_connect ws app_id (run init trace))
  = sent (run init trace)
    ++ match pending_offers (run init trace) !! app_id with
       | Some offer => [(ws, offer_frame offer)]
       | None => []
       end
    ++ ((fun c => (ws, ice_frame c)) <$> ice_from_hr app_id trace)
    ++ notice (run init trace) (hr_sockets (run init trace) !! app_id) user_online
  /\ sent (hr_connect ws app_id (run init trace))
     = sent (run init trace)
       ++ notice (run init trace) (user_sockets (run init trace) !! app_id) hr_online
       ++ ((fun c => (ws, ice_frame c)) <$> ice_from_user app_id trace).
Proof.
  intros Hws. destruct (pending_ice_is_history trace app_id) as [<- <-].
  rewrite user_connect_sent, hr_connect_sent. unfold deliverable.
  rewrite !bool_decide_eq_false_2 by done.
  rewrite <- !list_fmap_compose.
  split; [|done]. by destruct (pending_offers _ !! app_id).
Qed.


(** No event removes anything from an ICE buffer: after any further
    events each buffer is what it was, followed by what was received
    since. *)
Lemma run_pending_ice st trace app_id :
  default [] (pending_ice (run st trace) !! app_id)
  = default [] (pending_ice st !! app_id) ++ ice_from_hr app_id trace
  /\ default [] (pending_ice_hr (run st trace) !! app_id)
     = default [] (pending_ice_hr st !! app_id) ++ ice_from_user app_id trace.
Proof.
  induction trace as [|e trace [IH1 IH2]] using rev_ind.
  { simpl. by rewrite !app_nil_r. }
  rewrite run_snoc, step_pending_ice, step_pending_ice_hr, IH1, IH2.
  unfold ice_from_hr, ice_from_user. by rewrite !omap_app, !app_assoc.
Qed.

(** C5, as amended.  A buffered offer is sent to the first candidate
    socket that connects for the application, before anything else, and is
    then removed from the buffer: a further connection for the same
    application is sent no offer.  The buffered ICE candidates, in either
    direction, are never removed: whatever happens next (a peer connecting
    included), each buffer still begins with what it held, and every
    socket that connects later and can be sent to, as the candidate or as
    the HR, is sent all of them again, in order, followed by those
    received since. *)
Theorem pending_offer_flushed_once ws ws' app_id st :
  (forall offer,
     pending_offers st !! app_id = Some offer ->
     ws ∉ gone st ->
     sent (user_connect ws app_id st)
     = sent st ++ [(ws, offer_frame offer)]
       ++ ((fun c => (ws, ice_frame c)) <$> default [] (pending_ice st !! app_id))
       ++ notice st (hr_sockets st !! app_id) user_online
     /\ pending_offers (user_connect ws app_id st) !! app_id = None
     /\ sent (user_connect ws' app_id (user_connect ws app_id st))
        = sent (user_connect ws app_id st)
          ++ deliverable st ws'
               (ice_frame <$> default [] (pending_ice st !! app_id))
          ++ notice st (hr_sockets st !! app_id) user_online)
  /\ pending_ice (user_connect ws app_id st) = pending_ice st
  /\ pending_ice_hr (user_connect ws app_id st) = pending_ice_hr st
  /\ pending_ice (hr_connect ws app_id st) = pending_ice st
  /\ pending_ice_hr (hr_connect ws app_id st) = pending_ice_hr st
  /\ forall trace,
       default [] (pending_ice (run st trace) !! app_id)
       = default [] (pending_ice st !! app_id) ++ ice_from_hr app_id trace
       /\ default [] (pending_ice_hr (run st trace) !! app_id)
          = default [] (pending_ice_hr st !! app_id) ++ ice_from_user app_id trace
       /\ (ws' ∉ gone (run st trace) ->
           sent (user_connect ws' app_id (run st trace))
           = sent (run st trace)
             ++ match pending_offers (run st trace) !! app_id with
                | Some offer => [(ws', offer_frame offer)]
                | None => []
                end
             ++ ((fun c => (ws', ice_frame c))
                   <$> (default [] (pending_ice st !! app_id)
                        ++ ice_from_hr app_id trace))
             ++ notice (run st trace) (hr_sockets (run st trace) !! app_id)
                  user_online
           /\ sent (hr_connect ws' app_id (run st trace))
              = sent (run st trace)
                ++ notice (run st trace) (user_sockets (run st trace) !! app_id)
                     hr_online
                ++ ((fun c => (ws', ice_frame c))
                      <$> (default [] (pending_ice_hr st !! app_id)
                           ++ ice_from_user app_id trace))).
Proof.
  destruct (relay_of_eq' _ _ _ _ _ _ _ _ (user_connect_relay ws app_id st))
    as (Eh & Eu & Eo & Ea & Ei & Eih & Eg).
  destruct (relay_of_eq' _ _ _ _ _ _ _ _ (hr_connect_relay ws app_id st))
    as (_ & _ & _ & _ & Ei' & Eih' & _).
  split; [|split; [|split; [|split; [|split]]]]; try done.
  - intros offer Ho Hws. split; [|split].
    + rewrite user_connect_sent, Ho. unfold deliverable.
      rewrite !bool_decide_eq_false_2 by done.
      by rewrite <- list_fmap_compose.
    + rewrite Eo. apply lookup_delete_eq.
    + rewrite (user_connect_sent ws'), Eo, lookup_delete_eq, Ei, Eh.
      unfold notice, deliverable. rewrite Eg. simpl.
      by case_bool_decide.
  - intros trace. destruct (run_pending_ice st trace app_id) as [H1 H2].
    split; [exact H1|]. split; [exact H2|].
    intros Hws. rewrite user_connect_sent, hr_connect_sent, H1, H2.
    unfold deliverable. rewrite !bool_decide_eq_false_2 by done.
    rewrite <- !list_fmap_compose.
    split; [|done]. by destruct (pending_offers _ !! app_id).
Qed.

End RelayProperties.

Section RelayAnswers.

Lemma hr_connect_keeps_answers ws app_id st :
  pending_answers (hr_connect ws app_id st) = pending_answers st.
Proof.
  by destruct (relay_of_eq' _ _ _ _ _ _ _ _ (hr_connect_relay ws app_id st))
    as (_ & _ & _ & -> & _).
Qed.

(** What [hr_connect] sends is a notice to the candidate and ICE frames: never
    an answer. *)
Lemma hr_connect_sends_no_answer ws app_id st x :
  x ∈ sent (hr_connect ws app_id st) ->
  x ∈ sent st \/ x.2 = hr_online \/ exists c, x.2 = ice_frame c.
Proof.
  rewrite hr_connect_sent, !elem_of_app. intros [Hx|[Hx|Hx]]; [by left|..].
  - right. left. unfold notice, deliverable in Hx.
    destruct (user_sockets st !! app_id); [|by apply elem_of_nil in Hx].
    case_bool_decide; [by apply elem_of_nil in Hx|].
    apply list_elem_of_fmap in Hx as (f & -> & Hf).
    apply list_elem_of_singleton in Hf. by subst f.
  - right. right. unfold deliverable in Hx.
    case_bool_decide; [by apply elem_of_nil in Hx|].
    apply list_elem_of_fmap in Hx as (f & -> & Hf).
    apply list_elem_of_fmap in Hf as (c & -> & _). by exists c.
Qed.

End RelayAnswers.

(** ** The relay, further properties *)

Section RelayFurther.

Lemma hr_receive_offer_buffers app_id offer st :
  user_sockets st !! app_id = None ->
  hr_receive app_id (Offer offer) st
  = (true, set_pending_offers (insert app_id offer) st).
Proof. intros Hu. unfold hr_receive. by rewrite Hu. Qed.

Lemma user_receive_answer_buffers app_id answer st :
  hr_sockets st !! app_id = None ->
  user_receive app_id (Answer answer) st
  = (true, set_pending_answers (insert app_id answer) st).
Proof. intros Hh. unfold user_receive. by rewrite Hh. Qed.

(** X18.  Of two offers the HR sends while no candidate socket is registered,
    only the second is kept: nothing is sent meanwhile, and the candidate
    that connects next is sent the second offer, then the buffered ICE
    candidates, and the HR is told it is online. *)
Theorem latest_buffered_offer_wins ws app_id offer1 offer2 st :
  user_sockets st !! app_id = None ->
  ws ∉ gone st ->
  let st2 :=
    snd (hr_receive app_id (Offer offer2)
           (snd (hr_receive app_id (Offer offer1) st))) in
  sent st2 = sent st
  /\ sent (user_connect ws app_id st2)
     = sent st ++ [(ws, offer_frame offer2)]
       ++ ((fun c => (ws, ice_frame c)) <$> default [] (pending_ice st !! app_id))
       ++ notice st (hr_sockets st !! app_id) user_online.
Proof.
  intros Hu Hws. cbv zeta.
  rewrite (hr_receive_offer_buffers app_id offer1) by done. cbn [snd].
  rewrite (hr_receive_offer_buffers app_id offer2) by done. cbn [snd].
  split; [done|].
  rewrite user_connect_sent. simpl.
  rewrite lookup_insert_eq. unfold notice, deliverable. simpl.
  rewrite !bool_decide_eq_false_2 by done.
  by rewrite <- list_fmap_compose.
Qed.

(** X19.  An offer sent while a live candidate socket is registered is
    forwarded at once and not buffered: the relay state is unchanged, and
    a candidate socket that connects afterwards is sent no offer. *)
Theorem offer_forwarded_live_once ws app_id offer user st :
  user_sockets st !! app_id = Some user ->
  user ∉ gone st ->
  pending_offers st !! app_id = None ->
  exists st',
    hr_receive app_id (Offer offer) st = (true, st')
    /\ sent st' = sent st ++ [(user, offer_frame offer)]
    /\ relay_of st' = relay_of st
    /\ sent (user_connect ws app_id st')
       = sent st'
         ++ deliverable st ws (ice_frame <$> default [] (pending_ice st !! app_id))
         ++ notice st (hr_sockets st !! app_id) user_online.
Proof.
  intros Hu Hg Ho. unfold hr_receive. rewrite Hu.
  unfold send. rewrite bool_decide_eq_false_2 by done.
  eexists. split; [done|]. split; [done|]. split; [done|].
  rewrite user_connect_sent. simpl.
  rewrite Ho. unfold notice, deliverable. simpl.
  by case_bool_decide.
Qed.

(** X20.  When the peer socket has gone away, forwarding an offer (resp. an
    answer) to it ends the sender's handler: the messages that follow are
    not read, and the sender's own registration is removed. *)
Theorem forward_to_dead_peer_ends_handler app_id payload peer rest st :
  peer ∈ gone st ->
  (user_sockets st !! app_id = Some peer ->
   hr_loop app_id (Offer payload :: rest) st = (false, hr_cleanup app_id st))
  /\ (hr_sockets st !! app_id = Some peer ->
      user_loop app_id (Answer payload :: rest) st
      = (false, user_cleanup app_id st)).
Proof.
  intros Hg. split; intros Hp.
  - cbn [hr_loop]. unfold hr_receive. rewrite Hp. unfold send.
    by rewrite bool_decide_eq_true_2.
  - cbn [user_loop]. unfold user_receive. rewrite Hp. unfold send.
    by rewrite bool_decide_eq_true_2.
Qed.

(** X21.  An answer from the candidate reaches the HR only if an HR socket is
    registered and alive at that moment: to a live socket it is sent once
    and nothing else changes; a dead one ends the candidate's handler;
    with none registered the answer is stored, and an HR socket connecting
    afterwards is not sent it. *)
Theorem answer_reaches_hr_only_live app_id answer st :
  match hr_sockets st !! app_id with
  | Some hr =>
      if bool_decide (hr ∈ gone st)
      then user_receive app_id (Answer answer) st
           = (false, user_cleanup app_id st)
      else exists st',
             user_receive app_id (Answer answer) st = (true, st')
             /\ sent st' = sent st ++ [(hr, answer_frame answer)]
             /\ relay_of st' = relay_of st
  | None =>
      exists st',
        user_receive app_id (Answer answer) st = (true, st')
        /\ sent st' = sent st
        /\ pending_answers st' = <[app_id := answer]> (pending_answers st)
        /\ forall ws,
             pending_answers (hr_connect ws app_id st') !! app_id = Some answer
             /\ forall x, x ∈ sent (hr_connect ws app_id st') ->
                          x.2 <> answer_frame answer \/ x ∈ sent st
  end.
Proof.
  destruct (hr_sockets st !! app_id) as [hr|] eqn:Hh.
  - unfold user_receive. rewrite Hh. unfold send.
    case_bool_decide; [done|]. eexists. by repeat split.
  - rewrite user_receive_answer_buffers by done.
    eexists. split; [done|]. split; [done|]. split; [done|].
    intros ws. split.
    + rewrite hr_connect_keeps_answers. simpl. apply lookup_insert_eq.
    + intros x Hx. apply hr_connect_sends_no_answer in Hx as [Hx|[Hx|[c Hx]]].
      * by right.
      * left. by rewrite Hx.
      * left. by rewrite Hx.
Qed.

(** X22.  An ICE candidate received on either side is always appended to that
    side's buffer, and is also sent to the peer when one is registered and
    alive. *)
Theorem ice_is_buffered_and_forwarded app_id ice st :
  (exists st',
     hr_receive app_id (Ice ice) st = (true, st')
     /\ pending_ice st' !! app_id
        = Some (default [] (pending_ice st !! app_id) ++ [ice])
     /\ sent st' = sent st ++ notice st (user_sockets st !! app_id) (ice_frame ice))
  /\ (exists st',
        user_receive app_id (Ice ice) st = (true, st')
        /\ pending_ice_hr st' !! app_id
           = Some (default [] (pending_ice_hr st !! app_id) ++ [ice])
        /\ sent st' = sent st ++ notice st (hr_sockets st !! app_id) (ice_frame ice)).
Proof.
  split.
  - unfold hr_receive. cbv zeta. cbn [user_sockets set_pending_ice].
    destruct (user_sockets st !! app_id) as [u|]; eexists; (split; [done|]).
    + unfold try_send, send, notice, deliverable. cbn [gone set_pending_ice].
      case_bool_decide; simpl; rewrite ?app_nil_r;
        (split; [apply lookup_insert_eq | done]).
    + simpl. rewrite app_nil_r. split; [apply lookup_insert_eq | done].
  - unfold user_receive. cbv zeta. cbn [hr_sockets set_pending_ice_hr].
    destruct (hr_sockets st !! app_id) as [h|]; eexists; (split; [done|]).
    + unfold try_send, send, notice, deliverable. cbn [gone set_pending_ice_hr].
      case_bool_decide; simpl; rewrite ?app_nil_r;
        (split; [apply lookup_insert_eq | done]).
    + simpl. rewrite app_nil_r. split; [apply lookup_insert_eq | done].
Qed.

(** X23.  Registration is per application, not per socket: when a second HR
    socket has connected for an application and the handler of the first
    one ends, the second is unregistered, and an answer of the candidate
    is then stored instead of being sent. *)
Theorem first_handler_closing_unregisters_second ws1 ws2 app_id answer st :
  let st2 := hr_connect ws2 app_id (hr_connect ws1 app_id st) in
  hr_sockets st2 !! app_id = Some ws2
  /\ hr_sockets (snd (hr_receive app_id Closed st2)) !! app_id = None
  /\ exists st',
       user_receive app_id (Answer answer) (snd (hr_receive app_id Closed st2))
       = (true, st')
       /\ sent st' = sent st2
       /\ pending_answers st' !! app_id = Some answer.
Proof.
  cbv zeta.
  destruct (relay_of_eq' _ _ _ _ _ _ _ _
              (hr_connect_relay ws2 app_id (hr_connect ws1 app_id st)))
    as (Hh & _).
  split; [rewrite Hh; apply lookup_insert_eq|].
  cbn [hr_receive snd hr_cleanup set_hr_sockets hr_sockets].
  split; [apply lookup_delete_eq|].
  rewrite user_receive_answer_buffers by apply lookup_delete_eq.
  eexists. split; [done|]. split; [done|]. simpl. apply lookup_insert_eq.
Qed.

Lemma hr_receive_stops app_id msg st st' :
  hr_receive app_id msg st = (false, st') -> hr_sockets st' !! app_id = None.
Proof.
  destruct msg; cbn -[send try_send]; try (intros [= <-]; apply lookup_delete_eq);
    try done.
  - destruct (user_sockets st !! app_id); [|done].
    destruct (send s (offer_frame offer) st) as [[] st1]; [done|].
    intros [= <-]. apply lookup_delete_eq.
  - by destruct (user_sockets _ !! app_id).
Qed.

Lemma user_receive_stops app_id msg st st' :
  user_receive app_id msg st = (false, st') -> user_sockets st' !! app_id = None.
Proof.
  destruct msg; cbn -[send try_send]; try (intros [= <-]; apply lookup_delete_eq);
    try done.
  - destruct (hr_sockets st !! app_id); [|done].
    destruct (send s (answer_frame answer) st) as [[] st1]; [done|].
    intros [= <-]. apply lookup_delete_eq.
  - by destruct (hr_sockets _ !! app_id).
Qed.

Lemma hr_loop_stops app_id msgs st st' :
  hr_loop app_id msgs st = (false, st') -> hr_sockets st' !! app_id = None.
Proof.
  revert st. induction msgs as [|msg rest IH]; intros st; cbn [hr_loop]; [done|].
  destruct (hr_receive app_id msg st) as [[] st1] eqn:E; [apply IH|].
  intros [= <-]. by apply hr_receive_stops in E.
Qed.

Lemma user_loop_stops app_id msgs st st' :
  user_loop app_id msgs st = (false, st') -> user_sockets st' !! app_id = None.
Proof.
  revert st. induction msgs as [|msg rest IH]; intros st; cbn [user_loop]; [done|].
  destruct (user_receive app_id msg st) as [[] st1] eqn:E; [apply IH|].
  intros [= <-]. by apply user_receive_stops in E.
Qed.

Lemma hr_loop_closed app_id msgs st :
  Closed ∈ msgs \/ Invalid ∈ msgs -> fst (hr_loop app_id msgs st) = false.
Proof.
  revert st. induction msgs as [|msg rest IH]; intros st Hin.
  - destruct Hin as [Hin|Hin]; by apply elem_of_nil in Hin.
  - cbn [hr_loop].
    destruct (hr_receive app_id msg st) as [[] st1] eqn:E; [|done].
    apply IH. destruct Hin as [Hin|Hin];
      apply elem_of_cons in Hin as [<-|Hin]; auto; by simpl in E.
Qed.

Lemma user_loop_closed app_id msgs st :
  Closed ∈ msgs \/ Invalid ∈ msgs -> fst (user_loop app_id msgs st) = false.
Proof.
  revert st. induction msgs as [|msg rest IH]; intros st Hin.
  - destruct Hin as [Hin|Hin]; by apply elem_of_nil in Hin.
  - cbn [user_loop].
    destruct (user_receive app_id msg st) as [[] st1] eqn:E; [|done].
    apply IH. destruct Hin as [Hin|Hin];
      apply elem_of_cons in Hin as [<-|Hin]; auto; by simpl in E.
Qed.

(** X24.  A handler whose socket closes or sends a malformed message always
    ends, and its application is then unregistered on its side, whatever
    was received before. *)
Theorem handler_always_unregisters ws app_id msgs st :
  Closed ∈ msgs \/ Invalid ∈ msgs ->
  (fst (handle_hr_connection ws app_id msgs st) = false
   /\ hr_sockets (snd (handle_hr_connection ws app_id msgs st)) !! app_id = None)
  /\ (fst (handle_user_connection ws app_id msgs st) = false
      /\ user_sockets (snd (handle_user_connection ws app_id msgs st)) !! app_id
         = None).
Proof.
  intros Hin. unfold handle_hr_connection, handle_user_connection. split.
  - pose proof (hr_loop_closed app_id msgs (hr_connect ws app_id st) Hin) as Hf.
    destruct (hr_loop app_id msgs (hr_connect ws app_id st)) as [b st'] eqn:E.
    simpl in *. subst b. split; [done|]. by apply hr_loop_stops in E.
  - pose proof (user_loop_closed app_id msgs (user_connect ws app_id st) Hin) as Hf.
    destruct (user_loop app_id msgs (user_connect ws app_id st)) as [b st'] eqn:E.
    simpl in *. subst b. split; [done|]. by apply user_loop_stops in E.
Qed.


Lemma held_for_relay app_id st st' :
  relay_of st' = relay_of st -> held_for app_id st' = held_for app_id st.
Proof.
  intros Hr. unfold held_for.
  by destruct (relay_of_eq _ _ Hr) as (-> & -> & -> & -> & -> & -> & _).
Qed.

Lemma hr_receive_held a b msg st :
  a <> b -> held_for b (snd (hr_receive a msg st)) = held_for b st.
Proof.
  intros Hne. destruct msg; cbn -[send try_send]; try done.
  - unfold held_for. simpl. by rewrite lookup_delete_ne.
  - unfold held_for. simpl. by rewrite lookup_delete_ne.
  - destruct (user_sockets st !! a) as [u|].
    + pose proof (send_relay u (offer_frame offer) st) as Hr.
      destruct (send u (offer_frame offer) st) as [[] st1]; simpl in *.
      * by apply held_for_relay.
      * rewrite <- (held_for_relay b st st1 Hr).
        unfold held_for. simpl. by rewrite lookup_delete_ne.
    + unfold held_for. simpl. by rewrite lookup_insert_ne.
  - assert (Hb : held_for b (set_pending_ice (setdefault_append a ice) st)
                 = held_for b st).
    { unfold held_for, setdefault_append. simpl. by rewrite lookup_insert_ne. }
    destruct (user_sockets _ !! a) as [u|]; simpl; [|done].
    rewrite <- Hb. apply held_for_relay, try_send_relay.
Qed.

Lemma user_receive_held a b msg st :
  a <> b -> held_for b (snd (user_receive a msg st)) = held_for b st.
Proof.
  intros Hne. destruct msg; cbn -[send try_send]; try done.
  - unfold held_for. simpl. by rewrite lookup_delete_ne.
  - unfold held_for. simpl. by rewrite lookup_delete_ne.
  - destruct (hr_sockets st !! a) as [h|].
    + pose proof (send_relay h (answer_frame answer) st) as Hr.
      destruct (send h (answer_frame answer) st) as [[] st1]; simpl in *.
      * by apply held_for_relay.
      * rewrite <- (held_for_relay b st st1 Hr).
        unfold held_for. simpl. by rewrite lookup_delete_ne.
    + unfold held_for. simpl. by rewrite lookup_insert_ne.
  - assert (Hb : held_for b (set_pending_ice_hr (setdefault_append a ice) st)
                 = held_for b st).
    { unfold held_for, setdefault_append. simpl. by rewrite lookup_insert_ne. }
    destruct (hr_sockets _ !! a) as [h|]; simpl; [|done].
    rewrite <- Hb. apply held_for_relay, try_send_relay.
Qed.

(** X26.  Applications are isolated: an event about one application leaves
    what the relay holds for every other application unchanged. *)
Theorem applications_are_isolated e app_id st :
  event_app_id e <> Some app_id ->
  held_for app_id (step st e) = held_for app_id st.
Proof.
  intros Hne. destruct e as [ws a|a msg|ws a|a msg|ws|ws]; cbn [step].
  - destruct (relay_of_eq' _ _ _ _ _ _ _ _ (hr_connect_relay ws a st))
      as (E1 & E2 & E3 & E4 & E5 & E6 & _).
    unfold held_for. rewrite E1, E2, E3, E4, E5, E6.
    rewrite lookup_insert_ne; [done|]. intros ->. by apply Hne.
  - apply hr_receive_held. intros ->. by apply Hne.
  - destruct (relay_of_eq' _ _ _ _ _ _ _ _ (user_connect_relay ws a st))
      as (E1 & E2 & E3 & E4 & E5 & E6 & _).
    unfold held_for. rewrite E1, E2, E3, E4, E5, E6.
    rewrite lookup_insert_ne, lookup_delete_ne; [done| |]; intros ->; by apply Hne.
  - apply user_receive_held. intros ->. by apply Hne.
  - apply held_for_relay, try_send_relay.
  - done.
Qed.


Lemma has_origin_mono trace e f : has_origin trace f -> has_origin (trace ++ [e]) f.
Proof.
  destruct f; simpl; try done.
  - intros [a Ha]. exists a. apply elem_of_app. by left.
  - intros [a Ha]. exists a. apply elem_of_app. by left.
  - intros [a [Ha|Ha]]; exists a; [left|right]; apply elem_of_app; by left.
Qed.

Lemma elem_of_deliverable st ws fs x :
  x ∈ deliverable st ws fs -> x.1 = ws /\ x.2 ∈ fs.
Proof.
  unfold deliverable. case_bool_decide; [by intros ?%elem_of_nil|].
  intros (f & -> & Hf)%list_elem_of_fmap. done.
Qed.

Lemma elem_of_notice st peer f x : x ∈ notice st peer f -> x.2 = f.
Proof.
  unfold notice. destruct peer; [|by intros ?%elem_of_nil].
  intros [_ Hx%list_elem_of_singleton]%elem_of_deliverable. done.
Qed.

Lemma ice_from_hr_origin app_id trace c :
  c ∈ ice_from_hr app_id trace -> HrReceives app_id (Ice c) ∈ trace.
Proof.
  unfold ice_from_hr. intros (e & He & Hc)%list_elem_of_omap.
  destruct e as [| a [] | | | |]; try done.
  case_bool_decide; [|done]. injection Hc as <-. by subst a.
Qed.

Lemma ice_from_user_origin app_id trace c :
  c ∈ ice_from_user app_id trace -> UserReceives app_id (Ice c) ∈ trace.
Proof.
  unfold ice_from_user. intros (e & He & Hc)%list_elem_of_omap.
  destruct e as [| | | a [] | |]; try done.
  case_bool_decide; [|done]. injection Hc as <-. by subst a.
Qed.

Lemma hr_receive_sent a msg st x :
  x ∈ sent (snd (hr_receive a msg st)) ->
  x ∈ sent st
  \/ (exists o, msg = Offer o /\ x.2 = offer_frame o)
  \/ (exists c, msg = Ice c /\ x.2 = ice_frame c).
Proof.
  destruct msg; cbn -[send try_send]; auto.
  - destruct (user_sockets st !! a) as [u|]; [|auto].
    unfold send. case_bool_decide; simpl; [auto|].
    intros [Hx|Hx%list_elem_of_singleton]%elem_of_app; [auto|].
    right. left. exists offer. by subst x.
  - destruct (user_sockets _ !! a) as [u|]; simpl; [|auto].
    rewrite try_send_sent. simpl.
    intros [Hx|Hx]%elem_of_app; [auto|].
    apply elem_of_deliverable in Hx as [_ Hx%list_elem_of_singleton].
    right. right. by exists ice.
Qed.

Lemma user_receive_sent a msg st x :
  x ∈ sent (snd (user_receive a msg st)) ->
  x ∈ sent st
  \/ (exists o, msg = Answer o /\ x.2 = answer_frame o)
  \/ (exists c, msg = Ice c /\ x.2 = ice_frame c).
Proof.
  destruct msg; cbn -[send try_send]; auto.
  - destruct (hr_sockets st !! a) as [h|]; [|auto].
    unfold send. case_bool_decide; simpl; [auto|].
    intros [Hx|Hx%list_elem_of_singleton]%elem_of_app; [auto|].
    right. left. exists answer. by subst x.
  - destruct (hr_sockets _ !! a) as [h|]; simpl; [|auto].
    rewrite try_send_sent. simpl.
    intros [Hx|Hx]%elem_of_app; [auto|].
    apply elem_of_deliverable in Hx as [_ Hx%list_elem_of_singleton].
    right. right. by exists ice.
Qed.

Lemma hr_receive_pending_offers a msg st b o :
  pending_offers (snd (hr_receive a msg st)) !! b = Some o ->
  pending_offers st !! b = Some o \/ (msg = Offer o /\ a = b).
Proof.
  destruct msg; cbn -[send try_send]; auto.
  - destruct (user_sockets st !! a) as [u|].
    + pose proof (send_relay u (offer_frame offer) st) as Hr.
      destruct (send u (offer_frame offer) st) as [[] st1]; simpl in *;
        destruct (relay_of_eq _ _ Hr) as (_ & _ & -> & _); auto.
    + simpl. destruct (decide (a = b)) as [->|Hne].
      * rewrite lookup_insert_eq. intros [= ->]. auto.
      * rewrite lookup_insert_ne by done. auto.
  - destruct (user_sockets _ !! a) as [u|]; simpl; [|auto].
    destruct (relay_of_eq _ _ (try_send_relay u (ice_frame ice)
                (set_pending_ice (setdefault_append a ice) st)))
      as (_ & _ & -> & _). auto.
Qed.

Lemma user_receive_pending_offers a msg st :
  pending_offers (snd (user_receive a msg st)) = pending_offers st.
Proof.
  destruct msg; cbn -[send try_send]; auto.
  - destruct (hr_sockets st !! a) as [h|]; [|done].
    pose proof (send_relay h (answer_frame answer) st) as Hr.
    destruct (send h (answer_frame answer) st) as [[] st1]; simpl in *;
      by destruct (relay_of_eq _ _ Hr) as (_ & _ & -> & _).
  - destruct (hr_sockets _ !! a) as [h|]; simpl; [|done].
    by destruct (relay_of_eq _ _ (try_send_relay h (ice_frame ice)
                   (set_pending_ice_hr (setdefault_append a ice) st)))
      as (_ & _ & -> & _).
Qed.

Lemma relay_origins trace :
  (forall app_id o, pending_offers (run init trace) !! app_id = Some o ->
                    HrReceives app_id (Offer o) ∈ trace)
  /\ (forall x, x ∈ sent (run init trace) -> has_origin trace x.2).
Proof.
  induction trace as [|e trace [IHo IHs]] using rev_ind.
  { split; [intros a o; simpl; by rewrite lookup_empty | by intros x ?%elem_of_nil]. }
  rewrite run_snoc. set (st := run init trace) in *.
  assert (Hold : forall x, x ∈ sent st -> has_origin (trace ++ [e]) x.2).
  { intros x Hx. by apply has_origin_mono, IHs. }
  assert (Hoffer : forall a o, pending_offers st !! a = Some o ->
                               HrReceives a (Offer o) ∈ trace ++ [e]).
  { intros a o Ho. apply elem_of_app. left. by apply IHo. }
  destruct e as [ws a|a msg|ws a|a msg|ws|ws]; cbn [step].
  - (* HR connects *)
    destruct (relay_of_eq' _ _ _ _ _ _ _ _ (hr_connect_relay ws a st))
      as (_ & _ & Epo & _).
    split; [intros b o; rewrite Epo; apply Hoffer|].
    intros x. rewrite hr_connect_sent.
    intros [Hx|[Hx|Hx]%elem_of_app]%elem_of_app; [by apply Hold|..].
    + apply elem_of_notice in Hx. by rewrite Hx.
    + apply elem_of_deliverable in Hx as [_ (c & -> & Hc)%list_elem_of_fmap].
      destruct (pending_ice_is_history trace a) as [_ Hh]. fold st in Hh.
      rewrite Hh in Hc. apply ice_from_user_origin in Hc.
      simpl. exists a. right. apply elem_of_app. by left.
  - (* HR receives *)
    split.
    + intros b o Ho. apply hr_receive_pending_offers in Ho as [Ho|[-> ->]].
      * by apply Hoffer.
      * apply elem_of_app. right. by apply list_elem_of_singleton.
    + intros x Hx. apply hr_receive_sent in Hx as [Hx|[(o & -> & Hf)|(c & -> & Hf)]].
      * by apply Hold.
      * rewrite Hf. simpl. exists a. apply elem_of_app. right.
        by apply list_elem_of_singleton.
      * rewrite Hf. simpl. exists a. left. apply elem_of_app. right.
        by apply list_elem_of_singleton.
  - (* candidate connects *)
    destruct (relay_of_eq' _ _ _ _ _ _ _ _ (user_connect_relay ws a st))
      as (_ & _ & Epo & _).
    split.
    + intros b o. rewrite Epo. intros Ho. apply Hoffer.
      destruct (decide (a = b)) as [->|Hne];
        [by rewrite lookup_delete_eq in Ho | by rewrite lookup_delete_ne in Ho].
    + intros x. rewrite user_connect_sent.
      intros [Hx|[Hx|[Hx|Hx]%elem_of_app]%elem_of_app]%elem_of_app;
        [by apply Hold|..].
      * apply elem_of_deliverable in Hx as [_ Hx].
        destruct (pending_offers st !! a) as [o|] eqn:Ho;
          [|by apply elem_of_nil in Hx].
        apply list_elem_of_singleton in Hx. rewrite Hx. simpl.
        exists a. by apply Hoffer.
      * apply elem_of_deliverable in Hx as [_ (c & -> & Hc)%list_elem_of_fmap].
        destruct (pending_ice_is_history trace a) as [Hh _]. fold st in Hh.
        rewrite Hh in Hc. apply ice_from_hr_origin in Hc.
        simpl. exists a. left. apply elem_of_app. by left.
      * apply elem_of_notice in Hx. by rewrite Hx.
  - (* candidate receives *)
    split.
    + intros b o. rewrite user_receive_pending_offers. apply Hoffer.
    + intros x Hx.
      apply user_receive_sent in Hx as [Hx|[(o & -> & Hf)|(c & -> & Hf)]].
      * by apply Hold.
      * rewrite Hf. simpl. exists a. apply elem_of_app. right.
        by apply list_elem_of_singleton.
      * rewrite Hf. simpl. exists a. right. apply elem_of_app. right.
        by apply list_elem_of_singleton.
  - (* keepalive *)
    destruct (relay_of_eq _ _ (try_send_relay ws ping_frame st))
      as (_ & _ & Epo & _).
    split; [intros b o; rewrite Epo; apply Hoffer|].
    intros x. rewrite try_send_sent.
    intros [Hx|Hx]%elem_of_app; [by apply Hold|].
    apply elem_of_deliverable in Hx as [_ Hx%list_elem_of_singleton].
    by rewrite Hx.
  - split; [apply Hoffer | apply Hold].
Qed.

(** X25.  The relay invents no payload: every offer, answer or ICE frame it
    has sent along a trace carries a payload it received in a message of
    that kind on that trace. *)
Theorem relay_never_invents_a_payload trace ws f :
  (ws, f) ∈ sent (run init trace) -> has_origin trace f.
Proof. intros Hx. by apply (proj2 (relay_origins trace) (ws, f)). Qed.

End RelayFurther.

(** * Examples *)

(** C4.  The candidate connects and sends an answer while no HR socket is
    registered, then the HR connects: the answer is still in its buffer,
    and the HR socket has been sent nothing. *)
Theorem buffered_answer_not_flushed :
  let st :=
    run init
      [UserConnects 2%nat "app1"; UserReceives "app1" (Answer "sdp");
       HrConnects 1%nat "app1"] in
  hr_sockets st !! "app1" = Some 1%nat
  /\ pending_answers st !! "app1" = Some "sdp"
  /\ received_by 1%nat st = []
  /\ sent st = [(2%nat, hr_online)].
Proof. vm_compute. done. Qed.

(** C5 as stated fails: a buffered ICE candidate is sent to the first
    candidate socket that connects, stays in the buffer, and is sent again
    to the next one. *)
Lemma buffered_ice_sent_again :
  let st :=
    run init
      [HrReceives "app1" (Ice "X"); UserConnects 2%nat "app1";
       UserReceives "app1" Closed; UserConnects 3%nat "app1"] in
  received_by 2%nat st = [ice_frame "X"]
  /\ received_by 3%nat st = [ice_frame "X"]
  /\ pending_ice st !! "app1" = Some ["X"].
Proof. vm_compute. done. Qed.

Lemma pending_offer_flushed_once_witness :
  let st := run init [HrReceives "app1" (Offer "sdp"); HrReceives "app1" (Ice "X")] in
  let closed := [UserConnects 2%nat "app1"; UserReceives "app1" Closed] in
  let st_hr := run init [UserReceives "app1" (Ice "U")] in
  let closed_hr := [HrConnects 1%nat "app1"; HrReceives "app1" Closed] in
  pending_offers st !! "app1" = Some "sdp"
  /\ (2%nat ∉ gone st)
  /\ sent (user_connect 2%nat "app1" st)
     = [(2%nat, offer_frame "sdp"); (2%nat, ice_frame "X")]
  /\ pending_offers (user_connect 2%nat "app1" st) !! "app1" = None
  /\ sent (user_connect 3%nat "app1" (user_connect 2%nat "app1" st))
     = [(2%nat, offer_frame "sdp"); (2%nat, ice_frame "X");
        (3%nat, ice_frame "X")]
  /\ pending_offers (run st closed) !! "app1" = None
  /\ pending_ice (run st closed) !! "app1" = Some ["X"]
  /\ sent (user_connect 3%nat "app1" (run st closed))
     = sent (run st closed) ++ [(3%nat, ice_frame "X")]
  /\ pending_ice_hr (run st_hr closed_hr) !! "app1" = Some ["U"]
  /\ sent (hr_connect 4%nat "app1" (run st_hr closed_hr))
     = sent (run st_hr closed_hr) ++ [(4%nat, ice_frame "U")].
Proof.
  set (st := run init [HrReceives "app1" (Offer "sdp"); HrReceives "app1" (Ice "X")]).
  set (closed := [UserConnects 2%nat "app1"; UserReceives "app1" Closed]).
  set (st_hr := run init [UserReceives "app1" (Ice "U")]).
  set (closed_hr := [HrConnects 1%nat "app1"; HrReceives "app1" Closed]).
  assert (Ho : pending_offers st !! "app1" = Some "sdp") by (vm_compute; reflexivity).
  assert (Hg : 2%nat ∉ gone st) by compute_done.
  assert (Hg3 : 3%nat ∉ gone (run st closed)) by compute_done.
  assert (Hg4 : 4%nat ∉ gone (run st_hr closed_hr)) by compute_done.
  destruct (pending_offer_flushed_once 2%nat 3%nat "app1" st)
    as (Hoffer & _ & _ & _ & _ & Hlater).
  destruct (Hoffer "sdp" Ho Hg) as (H1 & H2 & H3).
  destruct (Hlater closed) as (_ & _ & Hs).
  destruct (Hs Hg3) as [Hu _].
  destruct (pending_offer_flushed_once 1%nat 4%nat "app1" st_hr)
    as (_ & _ & _ & _ & _ & Hlater_hr).
  destruct (Hlater_hr closed_hr) as (_ & _ & Hs_hr).
  destruct (Hs_hr Hg4) as [_ Hh].
  split; [exact Ho|]. split; [exact Hg|].
  split; [rewrite H1; vm_compute; reflexivity|].
  split; [exact H2|].
  split; [rewrite H3, H1; vm_compute; reflexivity|].
  split; [vm_compute; reflexivity|].
  split; [vm_compute; reflexivity|].
  split; [rewrite Hu; vm_compute; reflexivity|].
  split; [vm_compute; reflexivity|].
  rewrite Hh. vm_compute. reflexivity.
Defined.

Lemma buffered_ice_delivered_in_order_witness :
  let trace :=
    [HrReceives "app1" (Ice "a"); UserReceives "app1" (Ice "u");
     HrReceives "app1" (Ice "b")] in
  (2%nat ∉ gone (run init trace))
  /\ sent (user_connect 2%nat "app1" (run init trace))
     = [(2%nat, ice_frame "a"); (2%nat, ice_frame "b")]
  /\ sent (hr_connect 2%nat "app1" (run init trace))
     = [(2%nat, ice_frame "u")].
Proof.
  set (trace := [HrReceives "app1" (Ice "a"); UserReceives "app1" (Ice "u");
                 HrReceives "app1" (Ice "b")]).
  assert (Hg : 2%nat ∉ gone (run init trace))
    by compute_done.
  destruct (buffered_ice_delivered_in_order trace 2%nat "app1" Hg) as [H1 H2].
  cbv zeta. split; [exact Hg|].
  split; [rewrite H1 | rewrite H2]; vm_compute; reflexivity.
Defined.

Lemma advance_rejects_non_edge_witness :
  find_pipeline sample_application_id sample_db = Some sample_pipeline
  /\ (("Screening", "Offer") ∉ allowed_edges)
  /\ WorkflowService.advance_candidate_stage friday_8am sample_application_id
       "Offer" EmptyString true sample_db
     = (Return false, sample_db).
Proof.
  assert (Hp : find_pipeline sample_application_id sample_db = Some sample_pipeline)
    by reflexivity.
  assert (He : ("Screening", "Offer") ∉ allowed_edges) by compute_done.
  split; [exact Hp|]. split; [exact He|].
  exact (@advance_rejects_non_edge hex_Bson friday_8am sample_application_id
           "Offer" EmptyString true sample_db sample_pipeline Hp He).
Defined.

Lemma advance_unknown_stage_witness :
  ("Interview Scheduled" ∉ stage_values)
  /\ WorkflowService.advance_candidate_stage friday_8am sample_application_id
       "Interview Scheduled" "booked" true sample_db
     = (Return false, sample_db).
Proof.
  assert (Hs : "Interview Scheduled" ∉ stage_values) by compute_done.
  split; [exact Hs|].
  exact (@advance_unknown_stage hex_Bson friday_8am sample_application_id
           "Interview Scheduled" "booked" true sample_db Hs).
Defined.



(** C2 as stated fails: scheduling an interview, which is not the
    stage-transition operation, rewrites the pipeline record: it appends a
    history entry and sets a current stage outside the seven values. *)
Lemma schedule_interview_writes_pipeline :
  let db' :=
    snd (InterviewService.schedule_interview friday_8am sample_application_id
           "job1" "user1" "hr1" "Video" (replace_hour friday_8am 11) 60
           sample_db) in
  stages_valid sample_db
  /\ find_pipeline sample_application_id sample_db = Some sample_pipeline
  /\ CandidatePipeline.current_stage <$> find_pipeline sample_application_id db'
     = Some "Interview Scheduled"
  /\ (fun p => StageEntry.stage <$> CandidatePipeline.stage_history p)
       <$> find_pipeline sample_application_id db'
     = Some ["Applied"; "Screening"; "Interview Scheduled"]
  /\ ~ stages_valid db'.
Proof.
  cbv zeta. split; [compute_done|]. split; [reflexivity|].
  split; [vm_compute; reflexivity|]. split; [vm_compute; reflexivity|].
  compute_done.
Qed.

Lemma pipeline_writers_witness :
  stages_valid new_db
  /\ find_pipeline sample_application_id new_db = None
  /\ (exists db',
        WorkflowService.initiate_hiring_workflow friday_8am
          sample_application_id new_db = (Return true, db')
        /\ candidate_pipeline db'
           = [applied_pipeline friday_8am sample_application_id
                sample_application])
  /\ stages_valid
       (snd (WorkflowService.initiate_hiring_workflow friday_8am
               sample_application_id new_db))
  /\ stages_valid sample_db
  /\ find_pipeline sample_application_id sample_db = Some sample_pipeline
  /\ stages_valid
       (snd (WorkflowService.advance_candidate_stage friday_8am
               sample_application_id "Test" EmptyString true sample_db))
  /\ CandidatePipeline.current_stage
       <$> find_pipeline sample_application_id
             (snd (InterviewService._update_candidate_pipeline friday_8am
                     sample_application_id "Interview Passed" sample_db))
     = Some "Interview Passed"
  /\ CandidatePipeline.current_stage
       <$> find_pipeline sample_application_id
             (snd (OfferService._update_candidate_pipeline friday_8am
                     sample_application_id "Offer Rejected" sample_db))
     = Some "Offer Rejected".
Proof.
  assert (Hn : stages_valid new_db) by compute_done.
  assert (Hv : stages_valid sample_db) by compute_done.
  assert (Ha : find_application sample_application_id new_db
               = Some sample_application) by reflexivity.
  assert (Hp : find_pipeline sample_application_id sample_db = Some sample_pipeline)
    by reflexivity.
  destruct (@pipeline_writers hex_Bson friday_8am sample_application_id "Test"
              EmptyString true "Interview Passed" new_db)
    as (Hcreate & _ & Hinit & _).
  destruct (Hcreate sample_application Ha) as (db' & Hr & Hcp & _).
  destruct (@pipeline_writers hex_Bson friday_8am sample_application_id "Test"
              EmptyString true "Interview Passed" sample_db)
    as (_ & _ & _ & Hadv & Hwr).
  destruct (Hwr sample_pipeline Hp) as [H3 _].
  destruct (@pipeline_writers hex_Bson friday_8am sample_application_id "Test"
              EmptyString true "Offer Rejected" sample_db)
    as (_ & _ & _ & _ & Hwr').
  destruct (Hwr' sample_pipeline Hp) as [_ H4].
  split; [exact Hn|]. split; [reflexivity|].
  split; [exists db'; split; [exact Hr | exact Hcp]|].
  split; [exact (Hinit Hn)|].
  split; [exact Hv|]. split; [exact Hp|].
  split; [apply (Hadv Hv); right; discriminate|].
  split; [by rewrite H3 | by rewrite H4].
Defined.

(** C7 as stated fails: with an interview of the HR at 10:00, the search
    returns the 9:00 slot, although 10:00 lies in the closed interval from
    8:00 to 10:00. *)
Lemma slot_search_returns_adjacent_slot :
  busy_interview ∈ interviews busy_db
  /\ WorkflowService._find_next_available_slot friday_8am "hr1" 3 busy_db
     = (Return (Some (replace_hour friday_8am 9)), busy_db)
  /\ spec_conflict "hr1" (replace_hour friday_8am 9) 60 busy_interview.
Proof.
  split; [apply list_elem_of_singleton; reflexivity|].
  split; [vm_compute; reflexivity|].
  unfold spec_conflict. split; [reflexivity|]. split; [by left|].
  vm_compute. split; discriminate.
Qed.

Lemma slot_search_avoids_conflicts_witness :
  client busy_db = true
  /\ exists r,
       WorkflowService._find_next_available_slot friday_8am "hr1" 3 busy_db
       = (Return r, busy_db)
       /\ match r with
          | Some t =>
              t ∈ slots_in_horizon friday_8am 3
              /\ forall i, i ∈ interviews busy_db -> ~ code_conflict "hr1" t 60 i
          | None =>
              forall t, t ∈ slots_in_horizon friday_8am 3 ->
                        exists i, i ∈ interviews busy_db
                                  /\ code_conflict "hr1" t 60 i
          end.
Proof.
  assert (Hc : client busy_db = true) by reflexivity.
  split; [exact Hc|].
  exact (@slot_search_avoids_conflicts hex_Bson friday_8am "hr1" 3 busy_db Hc).
Defined.

(** C8 as stated fails: [insert_one] raises when the connection is
    unavailable. *)
Lemma insert_one_offline_raises :
  DatabaseRepository.insert_one false (None : option (list Test.t)) "tests"
    (Test.mk "job1" "Active")
  = Raise "Database connection not available".
Proof. reflexivity. Qed.

Lemma pipeline_overview_consistent_witness :
  let o := @WorkflowService.get_pipeline_overview symbolic_PyFloat sample_cursor in
  WorkflowService.total_candidates o = 3
  /\ WorkflowService.total_candidates o > 0
  /\ WorkflowService.by_stage o !! "Applied" = Some 2
  /\ WorkflowService.conversion_rates o !! "Applied" = Some (Times (Quot 2 3) 100)
  /\ WorkflowService.conversion_rates o !! "Unknown" = Some (Times (Quot 1 3) 100)
  /\ WorkflowService.conversion_rates o !! "Hired" = None
  /\ @WorkflowService.get_pipeline_overview symbolic_PyFloat failing_cursor
     = WorkflowService.empty_overview.
Proof.
  destruct (@pipeline_overview_consistent symbolic_PyFloat sample_cursor)
    as (Ht & Hr & _).
  destruct (@pipeline_overview_consistent symbolic_PyFloat failing_cursor)
    as (_ & _ & Hf).
  cbv zeta in *.
  assert (Hpos : WorkflowService.total_candidates
                   (@WorkflowService.get_pipeline_overview symbolic_PyFloat
                      sample_cursor) > 0) by (vm_compute; reflexivity).
  split; [vm_compute; reflexivity|]. split; [exact Hpos|].
  split; [vm_compute; reflexivity|].
  rewrite !(Hr Hpos).
  split; [vm_compute; reflexivity|]. split; [vm_compute; reflexivity|].
  split; [vm_compute; reflexivity|].
  apply Hf. reflexivity.
Defined.

(** ** Examples for the further properties *)

Lemma terminal_stage_blocks_witness :
  find_pipeline sample_application_id (sample_db_at "Hired")
  = Some (sample_pipeline_at "Hired")
  /\ ("Hired" ∉ ["Applied"; "Screening"; "Test"; "Interview"; "Offer"])
  /\ WorkflowService.advance_candidate_stage friday_8am sample_application_id
       "Rejected" EmptyString true (sample_db_at "Hired")
     = (Return false, sample_db_at "Hired").
Proof.
  assert (Hp : find_pipeline sample_application_id (sample_db_at "Hired")
               = Some (sample_pipeline_at "Hired")) by reflexivity.
  assert (Hs : "Hired" ∉ ["Applied"; "Screening"; "Test"; "Interview"; "Offer"])
    by compute_done.
  split; [exact Hp|]. split; [exact Hs|].
  exact (@terminal_stage_blocks hex_Bson friday_8am sample_application_id
           "Rejected" EmptyString true (sample_db_at "Hired")
           (sample_pipeline_at "Hired") Hp Hs).
Defined.

Lemma booked_interview_blocks_pipeline_witness :
  let db' :=
    snd (InterviewService.schedule_interview friday_8am sample_application_id
           "job1" "user1" "hr1" "Video" (replace_hour friday_8am 11) 60
           sample_db) in
  find_pipeline sample_application_id sample_db = Some sample_pipeline
  /\ WorkflowService.advance_candidate_stage friday_2pm sample_application_id
       "Test" EmptyString true db'
     = (Return false, db').
Proof.
  assert (Hp : find_pipeline sample_application_id sample_db = Some sample_pipeline)
    by reflexivity.
  assert (Hi : is_Some (@ObjectId hex_Bson sample_application_id))
    by (exists sample_application_id; reflexivity).
  cbv zeta. split; [exact Hp|].
  exact (@booked_interview_blocks_pipeline hex_Bson friday_8am
           sample_application_id "job1" "user1" "hr1" "Video"
           (replace_hour friday_8am 11) 60 sample_db sample_pipeline Hp Hi
           friday_2pm "Test" EmptyString true).
Defined.

Lemma advance_without_scheduling_witness :
  let r :=
    WorkflowService.advance_candidate_stage friday_8am sample_application_id
      "Interview" EmptyString false sample_db in
  r = (Return true, snd r)
  /\ same_side_collections sample_db (snd r)
  /\ find_application sample_application_id (snd r)
     = Some (with_status friday_8am "Interview" sample_application).
Proof.
  cbv zeta.
  assert (Hr : WorkflowService.advance_candidate_stage friday_8am
                 sample_application_id "Interview" EmptyString false sample_db
               = (Return true,
                  snd (WorkflowService.advance_candidate_stage friday_8am
                         sample_application_id "Interview" EmptyString false
                         sample_db)))
    by (vm_compute; reflexivity).
  destruct (@advance_without_scheduling hex_Bson friday_8am
              sample_application_id "Interview" EmptyString sample_db _ Hr)
    as (H1 & H2 & _).
  split; [exact Hr|]. split; [exact H1|]. exact H2.
Defined.

Lemma advance_to_screening_schedules_witness :
  exists db',
    WorkflowService.advance_candidate_stage friday_8am sample_application_id
      "Screening" EmptyString true (sample_db_at "Applied")
    = (Return true, db')
    /\ schedule_events db'
       = [screening_event friday_8am sample_application_id sample_application].
Proof.
  destruct (@advance_to_screening_schedules hex_Bson friday_8am
              sample_application_id EmptyString (sample_db_at "Applied")
              (sample_pipeline_at "Applied") sample_application
              eq_refl eq_refl eq_refl)
    as (db' & H1 & H2 & _).
  exists db'. split; [exact H1 | exact H2].
Defined.

Lemma advance_to_offer_drafts_offer_witness :
  exists db',
    WorkflowService.advance_candidate_stage friday_8am sample_application_id
      "Offer" EmptyString true (sample_db_at "Interview")
    = (Return true, db')
    /\ job_offers db'
       = [draft_offer friday_8am sample_application_id sample_application]
    /\ schedule_events db'
       = [offer_event friday_8am sample_application_id sample_application].
Proof.
  destruct (@advance_to_offer_drafts_offer hex_Bson friday_8am
              sample_application_id EmptyString (sample_db_at "Interview")
              (sample_pipeline_at "Interview") sample_application
              eq_refl eq_refl eq_refl)
    as (db' & H1 & H2 & H3 & _).
  exists db'. split; [exact H1|]. split; [exact H2 | exact H3].
Defined.

Lemma advance_to_test_invites_witness :
  exists db',
    WorkflowService.advance_candidate_stage friday_8am sample_application_id
      "Test" EmptyString true tested_db
    = (Return true, db')
    /\ test_submissions db'
       = [TestSubmission.mk sample_application_id "user1" "In Progress"]
    /\ schedule_events db'
       = [test_event friday_8am sample_application_id sample_application].
Proof.
  destruct (@advance_to_test_invites hex_Bson friday_8am
              sample_application_id EmptyString tested_db
              sample_pipeline sample_application
              eq_refl eq_refl eq_refl)
    as (db' & H1 & _ & _ & _ & H5).
  assert (Ht : active_test_for sample_application tested_db
               = Some (Test.mk "job1" "Active")) by reflexivity.
  rewrite Ht in H5. destruct H5 as [H5 H6].
  exists db'. split; [exact H1|]. split; [exact H5 | exact H6].
Defined.

Lemma initiate_does_not_check_for_a_pipeline_witness :
  let db' :=
    snd (WorkflowService.initiate_hiring_workflow friday_8am
           sample_application_id sample_db) in
  find_pipeline sample_application_id sample_db = Some sample_pipeline
  /\ find_pipeline sample_application_id db' = Some sample_pipeline
  /\ candidate_pipeline db'
     = [sample_pipeline;
        applied_pipeline friday_8am sample_application_id sample_application].
Proof.
  assert (Hp : find_pipeline sample_application_id sample_db = Some sample_pipeline)
    by reflexivity.
  assert (Ha : find_application sample_application_id sample_db
               = Some sample_application) by reflexivity.
  destruct (@initiate_does_not_check_for_a_pipeline hex_Bson friday_8am
              sample_application_id sample_db sample_pipeline
              sample_application Hp Ha) as [H1 H2].
  cbv zeta. split; [exact Hp|]. split; [exact H1 | exact H2].
Defined.

Lemma slot_search_is_first_fit_witness :
  client busy_db = true
  /\ fst (WorkflowService._find_next_available_slot friday_8am "hr1" 3 busy_db)
     = Return (Some (replace_hour friday_8am 9))
  /\ exists earlier later,
       slots_in_horizon friday_8am 3
       = earlier ++ replace_hour friday_8am 9 :: later
       /\ Forall (slot_taken "hr1" busy_db) earlier
       /\ slot_free "hr1" busy_db (replace_hour friday_8am 9).
Proof.
  assert (Hc : client busy_db = true) by reflexivity.
  assert (Hr : fst (WorkflowService._find_next_available_slot friday_8am "hr1"
                      3 busy_db)
               = Return (Some (replace_hour friday_8am 9)))
    by (vm_compute; reflexivity).
  split; [exact Hc|]. split; [exact Hr|].
  exact (@slot_search_is_first_fit hex_Bson friday_8am "hr1" 3 busy_db
           (replace_hour friday_8am 9) Hc Hr).
Defined.

Lemma slot_is_a_business_hour_witness :
  fst (WorkflowService._find_next_available_slot friday_2pm "hr1" 3 busy_db)
  = Return (Some (replace_hour friday_2pm 9))
  /\ weekday (replace_hour friday_2pm 9) < 5.
Proof.
  assert (Hr : fst (WorkflowService._find_next_available_slot friday_2pm "hr1"
                      3 busy_db)
               = Return (Some (replace_hour friday_2pm 9)))
    by (vm_compute; reflexivity).
  split; [exact Hr|].
  exact (proj1 (@slot_is_a_business_hour hex_Bson friday_2pm "hr1" 3 busy_db
                  (replace_hour friday_2pm 9) Hr)).
Defined.

Lemma free_morning_slot_is_taken_even_if_past_witness :
  client sample_db = true
  /\ weekday friday_2pm < 5
  /\ WorkflowService._find_next_available_slot friday_2pm "hr1" 3 sample_db
     = (Return (Some (replace_hour friday_2pm 9)), sample_db)
  /\ replace_hour friday_2pm 9 < friday_2pm.
Proof.
  assert (Hc : client sample_db = true) by reflexivity.
  assert (Hw : weekday friday_2pm < 5) by (vm_compute; reflexivity).
  assert (Hd : 0 < 3) by reflexivity.
  assert (Hf : slot_free "hr1" sample_db (replace_hour friday_2pm 9))
    by (intros i Hi; inversion Hi).
  destruct (@free_morning_slot_is_taken_even_if_past hex_Bson friday_2pm "hr1"
              3 sample_db Hc Hw Hd Hf) as [H1 H2].
  split; [exact Hc|]. split; [exact Hw|]. split; [exact H1|].
  apply H2. vm_compute. reflexivity.
Defined.

Lemma booked_slot_is_not_offered_again_witness :
  let db' :=
    snd (InterviewService.schedule_interview friday_8am sample_application_id
           "job1" "user1" "hr1" "Video" (replace_hour friday_8am 9) 45
           sample_db) in
  client sample_db = true
  /\ Interview.mk sample_application_id "job1" "user1" "hr1" "Video"
       (replace_hour friday_8am 9) 45 "Scheduled" ∈ interviews db'
  /\ fst (WorkflowService._find_next_available_slot friday_8am "hr1" 3 db')
     <> Return (Some (replace_hour friday_8am 9))
  /\ fst (WorkflowService._find_next_available_slot friday_8am "hr1" 3 busy_db)
     <> Return (Some (replace_hour friday_8am 10)).
Proof.
  assert (Hc : client sample_db = true) by reflexivity.
  destruct (@booked_slot_is_not_offered_again hex_Bson friday_8am
              sample_application_id "job1" "user1" "hr1" "Video"
              (replace_hour friday_8am 9) 45 sample_db Hc)
    as [[Hc' Hin] Hnever].
  cbv zeta. split; [exact Hc|]. split; [exact Hin|].
  split.
  - exact (Hnever _ _ Hc' Hin eq_refl (or_introl eq_refl) eq_refl friday_8am 3).
  - destruct (@booked_slot_is_not_offered_again hex_Bson friday_8am
                sample_application_id "job1" "user1" "hr1" "Technical"
                (replace_hour friday_8am 10) 60 sample_db Hc)
      as [_ Hbusy].
    assert (Hb : busy_interview ∈ interviews busy_db)
      by (apply list_elem_of_singleton; reflexivity).
    exact (Hbusy busy_db busy_interview eq_refl Hb eq_refl
             (or_introl eq_refl) eq_refl friday_8am 3).
Defined.

Lemma interview_update_creates_missing_pipeline_witness :
  find_pipeline sample_application_id new_db = None
  /\ exists db',
       InterviewService._update_candidate_pipeline friday_8am
         sample_application_id "Interview Scheduled" new_db
       = (Return tt, db')
       /\ find_pipeline sample_application_id db'
          = Some (initial_pipeline friday_8am sample_application_id
                    "Interview Scheduled" (Some sample_application)).
Proof.
  assert (Hc : client new_db = true) by reflexivity.
  assert (Hp : find_pipeline sample_application_id new_db = None)
    by reflexivity.
  assert (Hi : is_Some (@ObjectId hex_Bson sample_application_id))
    by (exists sample_application_id; reflexivity).
  destruct (@interview_update_creates_missing_pipeline hex_Bson friday_8am
              sample_application_id "Interview Scheduled" new_db Hc Hp Hi)
    as (db' & H1 & _ & H3 & _).
  split; [exact Hp|]. exists db'. split; [exact H1 | exact H3].
Defined.

Lemma offline_store_is_left_alone_witness :
  client offline_db = false
  /\ WorkflowService.advance_candidate_stage friday_8am sample_application_id
       "Test" EmptyString true offline_db
     = (Return false, offline_db)
  /\ InterviewService.schedule_interview friday_8am sample_application_id
       "job1" "user1" "hr1" "Video" (replace_hour friday_8am 9) 60 offline_db
     = (Raise "Database connection not available", offline_db).
Proof.
  assert (Hc : client offline_db = false) by reflexivity.
  destruct (@offline_store_is_left_alone hex_Bson friday_8am
              sample_application_id "Test" EmptyString true "Offer Sent"
              "job1" "user1" "hr1" "Video" (replace_hour friday_8am 9) 60
              offline_db Hc) as (_ & H2 & _ & _ & H5 & _).
  split; [exact Hc|]. split; [exact H2 | exact H5].
Defined.

Lemma latest_buffered_offer_wins_witness :
  user_sockets init !! "app1" = None
  /\ (2%nat ∉ gone init)
  /\ sent (user_connect 2%nat "app1"
             (snd (hr_receive "app1" (Offer "new")
                     (snd (hr_receive "app1" (Offer "old") init)))))
     = [(2%nat, offer_frame "new")].
Proof.
  assert (Hu : user_sockets init !! "app1" = None) by reflexivity.
  assert (Hg : 2%nat ∉ gone init) by compute_done.
  split; [exact Hu|]. split; [exact Hg|].
  etrans;
    [exact (proj2 (latest_buffered_offer_wins 2%nat "app1" "old" "new" init
                     Hu Hg))|].
  vm_compute. reflexivity.
Defined.

Lemma offer_forwarded_live_once_witness :
  let st := run init [UserConnects 2%nat "app1"] in
  user_sockets st !! "app1" = Some 2%nat
  /\ exists st',
       hr_receive "app1" (Offer "sdp") st = (true, st')
       /\ sent st' = [(2%nat, offer_frame "sdp")]
       /\ sent (user_connect 3%nat "app1" st') = [(2%nat, offer_frame "sdp")].
Proof.
  set (st := run init [UserConnects 2%nat "app1"]).
  assert (Hu : user_sockets st !! "app1" = Some 2%nat) by (vm_compute; reflexivity).
  assert (Hg : 2%nat ∉ gone st) by compute_done.
  assert (Ho : pending_offers st !! "app1" = None) by (vm_compute; reflexivity).
  destruct (offer_forwarded_live_once 3%nat "app1" "sdp" 2%nat st Hu Hg Ho)
    as (st' & H1 & H2 & _ & H4).
  split; [exact Hu|]. exists st'. split; [exact H1|].
  split; [rewrite H2; vm_compute; reflexivity|].
  rewrite H4, H2. vm_compute. reflexivity.
Defined.

Lemma forward_to_dead_peer_ends_handler_witness :
  let st := run init [UserConnects 2%nat "app1"; GoesAway 2%nat] in
  2%nat ∈ gone st
  /\ hr_loop "app1" [Offer "sdp"; Ice "c"] st = (false, hr_cleanup "app1" st).
Proof.
  set (st := run init [UserConnects 2%nat "app1"; GoesAway 2%nat]).
  assert (Hg : 2%nat ∈ gone st) by compute_done.
  split; [exact Hg|].
  apply (proj1 (forward_to_dead_peer_ends_handler "app1" "sdp" 2%nat
                  [Ice "c"] st Hg)).
  vm_compute. reflexivity.
Defined.

Lemma handler_always_unregisters_witness :
  Closed ∈ [Offer "sdp"; Ice "c"; Closed; Ice "d"]
  /\ fst (handle_hr_connection 1%nat "app1"
            [Offer "sdp"; Ice "c"; Closed; Ice "d"] init) = false
  /\ hr_sockets (snd (handle_hr_connection 1%nat "app1"
                        [Offer "sdp"; Ice "c"; Closed; Ice "d"] init))
       !! "app1" = None.
Proof.
  assert (Hc : Closed ∈ [Offer "sdp"; Ice "c"; Closed; Ice "d"])
    by repeat constructor.
  split; [exact Hc|].
  exact (proj1 (handler_always_unregisters 1%nat "app1"
                  [Offer "sdp"; Ice "c"; Closed; Ice "d"] init
                  (or_introl Hc))).
Defined.

Lemma relay_never_invents_a_payload_witness :
  let trace := [HrReceives "app1" (Offer "sdp"); UserConnects 2%nat "app1"] in
  (2%nat, offer_frame "sdp") ∈ sent (run init trace)
  /\ exists app_id, HrReceives app_id (Offer "sdp") ∈ trace.
Proof.
  set (trace := [HrReceives "app1" (Offer "sdp"); UserConnects 2%nat "app1"]).
  assert (Hs : (2%nat, offer_frame "sdp") ∈ sent (run init trace)).
  { replace (sent (run init trace)) with [(2%nat, offer_frame "sdp")]
      by (vm_compute; reflexivity).
    repeat constructor. }
  split; [exact Hs|].
  exact (relay_never_invents_a_payload trace 2%nat (offer_frame "sdp") Hs).
Defined.

Lemma applications_are_isolated_witness :
  let st := run init [UserConnects 2%nat "app1"] in
  event_app_id (HrReceives "app2" (Offer "sdp")) <> Some "app1"
  /\ held_for "app1" (step st (HrReceives "app2" (Offer "sdp")))
     = held_for "app1" st.
Proof.
  set (st := run init [UserConnects 2%nat "app1"]).
  assert (He : event_app_id (HrReceives "app2" (Offer "sdp")) <> Some "app1")
    by discriminate.
  split; [exact He|].
  exact (applications_are_isolated (HrReceives "app2" (Offer "sdp")) "app1" st He).
Defined.
